(** * Working-memory trainer: the adaptive challenge engine

    A shallow embedding of the engine of the working-memory training suite
    (digit span, spatial pattern, progress state machine, session queue and
    the JSON document store) together with the properties its specification
    states about it.

    Conventions of the embedding:
    - Python integers are [Z]; lengths and repetition counts are [nat].
    - Python floats (display times, response times) are rendered as exact
      rationals [Q]; where the rounding of the interpreter matters, in
      the running average of the response times, the computation is also
      given over binary64 numbers.
    - A raised exception is a value [Raise e] of the result type; code that
      draws random numbers or touches the disk threads its state explicitly
      through the monad [M].
    - [random] is driven by a tape of natural numbers: every outcome of the
      generator is the image of some tape. *)

From Stdlib Require Import QArith Ascii PrimFloat.
From Stdlib Require FloatOps SpecFloat.
From stdpp Require Import gmap strings list sorting pretty.

Local Open Scope Z_scope.

(** ** Exceptions and the state-and-exception monad *)

Inductive exn : Set :=
| ValueError
| IndexError
| KeyError
| TypeError
| ZeroDivisionError
| OSError
| FileNotFoundError
| JSONDecodeError
| AttributeError
| CursesError.

Inductive outcome (A : Type) : Type :=
| Ok (a : A)
| Raise (e : exn).
Arguments Ok {A} a.
Arguments Raise {A} e.

Definition M (S A : Type) : Type := S -> outcome A * S.

Definition ret {S A} (a : A) : M S A := fun s => (Ok a, s).

Definition bind {S A B} (m : M S A) (k : A -> M S B) : M S B :=
  fun s =>
    match m s with
    | (Ok a, s') => k a s'
    | (Raise e, s') => (Raise e, s')
    end.

Definition raise {S A} (e : exn) : M S A := fun s => (Raise e, s).

(** A computation that does not touch the state. *)
Definition lift {S A} (o : outcome A) : M S A := fun s => (o, s).

Notation "'let*' x ':=' m 'in' k" := (bind m (fun x => k))
  (at level 10, x pattern, m at level 100, k at level 200).

(** [for _ in range(n)] collecting the results of [m]. *)
Fixpoint repeatM {S A} (n : nat) (m : M S A) : M S (list A) :=
  match n with
  | O => ret []
  | S n' => let* x := m in let* xs := repeatM n' m in ret (x :: xs)
  end.

(** ** The random module *)

(** The entropy source: an infinite tape of draws. *)
Definition tape : Type := nat -> nat.

Definition advance (t : tape) : tape := fun n => t (S n).

Definition draw : M tape nat := fun t => (Ok (t O), advance t).

(** [random.randint(a, b)]: an integer in [a, b], [ValueError] when the
    range is empty. *)
Definition randint (a b : Z) : M tape Z :=
  if a <=? b
  then let* d := draw in ret (a + Z.of_nat d mod (b - a + 1))
  else raise ValueError.

(** [random.choice(seq)]: an element of [seq], [IndexError] when empty. *)
Definition choice {A} (l : list A) : M tape A :=
  match l with
  | [] => raise IndexError
  | x :: _ => let* d := draw in ret (nth (d mod length l)%nat l x)
  end.

(** [random.sample(population, k)]: [k] elements at distinct positions,
    [ValueError] when [k] is negative or larger than the population. *)
Fixpoint sample_go {A} (k : nat) (pool : list A) : M tape (list A) :=
  match k with
  | O => ret []
  | S k' =>
      match pool with
      | [] => raise ValueError
      | x :: _ =>
          let* d := draw in
          let i := (d mod length pool)%nat in
          let* rest := sample_go k' (delete i pool) in
          ret (nth i pool x :: rest)
      end
  end.

Definition sample {A} (population : list A) (k : Z) : M tape (list A) :=
  if (k <? 0) || (Z.of_nat (length population) <? k)
  then raise ValueError
  else sample_go (Z.to_nat k) population.

(** [max(a, b)] on floats: the first argument unless the second is larger. *)
Definition pymax (a b : Q) : Q := if Qlt_le_dec a b then b else a.

(** ** Keyboard input

    [getch] either delivers a key code or is interrupted
    ([KeyboardInterrupt]). An input loop consumes a finite list of events;
    when the list runs out the loop is still waiting for a key, which the
    models render as [None]. *)

Inductive event : Set :=
| Key (key : Z)
| Interrupt.

(** Key codes of the curses library. *)
Module Curses.
Definition KEY_DOWN : Z := 258.
Definition KEY_UP : Z := 259.
Definition KEY_LEFT : Z := 260.
Definition KEY_RIGHT : Z := 261.
Definition KEY_BACKSPACE : Z := 263.
Definition KEY_ENTER : Z := 343.
End Curses.

(** [ord] of a character. *)
Definition ord (c : ascii) : Z := Z.of_nat (nat_of_ascii c).

(** [key in [...]] *)
Definition key_in (key : Z) (l : list Z) : bool := bool_decide (key ∈ l).

(** ** digit_span/digit_span.py *)

Module DigitSpan.

(** The [digit_span] section of the settings' [game_meta_parameters]. *)
Record Meta : Type := {
  backward_intro_level : Z;
  interference_intro_level : Z;
  selective_recall_intro_level : Z;
  ordering_intro_level : Z;
  base_display_time : Q;
  display_time_reduction_per_level : Q;
  base_delay_time : Q;
  delay_time_reduction_per_level : Q;
  min_digits_level_1 : Z;
  max_additional_digits_per_level : Z
}.

(** The challenge configuration dictionary. A flag read through
    [config.get] is falsy when its key is absent, which the record renders
    as [false]. *)
Record Config : Type := {
  sequence_length : Z;
  display_time : Q;
  inter_digit_delay : Q;
  backward : bool;
  interference_task : bool;
  selective_recall : bool;
  ordering : bool;
  instruction : string
}.

Definition set_sequence_length (v : Z) (c : Config) : Config :=
  {| sequence_length := v; display_time := display_time c;
     inter_digit_delay := inter_digit_delay c; backward := backward c;
     interference_task := interference_task c;
     selective_recall := selective_recall c; ordering := ordering c;
     instruction := instruction c |}.

Definition set_display_time (v : Q) (c : Config) : Config :=
  {| sequence_length := sequence_length c; display_time := v;
     inter_digit_delay := inter_digit_delay c; backward := backward c;
     interference_task := interference_task c;
     selective_recall := selective_recall c; ordering := ordering c;
     instruction := instruction c |}.

Definition set_inter_digit_delay (v : Q) (c : Config) : Config :=
  {| sequence_length := sequence_length c; display_time := display_time c;
     inter_digit_delay := v; backward := backward c;
     interference_task := interference_task c;
     selective_recall := selective_recall c; ordering := ordering c;
     instruction := instruction c |}.

Definition set_backward (v : bool) (c : Config) : Config :=
  {| sequence_length := sequence_length c; display_time := display_time c;
     inter_digit_delay := inter_digit_delay c; backward := v;
     interference_task := interference_task c;
     selective_recall := selective_recall c; ordering := ordering c;
     instruction := instruction c |}.

Definition set_interference_task (v : bool) (c : Config) : Config :=
  {| sequence_length := sequence_length c; display_time := display_time c;
     inter_digit_delay := inter_digit_delay c; backward := backward c;
     interference_task := v;
     selective_recall := selective_recall c; ordering := ordering c;
     instruction := instruction c |}.

Definition set_selective_recall (v : bool) (c : Config) : Config :=
  {| sequence_length := sequence_length c; display_time := display_time c;
     inter_digit_delay := inter_digit_delay c; backward := backward c;
     interference_task := interference_task c;
     selective_recall := v; ordering := ordering c;
     instruction := instruction c |}.

Definition set_ordering (v : bool) (c : Config) : Config :=
  {| sequence_length := sequence_length c; display_time := display_time c;
     inter_digit_delay := inter_digit_delay c; backward := backward c;
     interference_task := interference_task c;
     selective_recall := selective_recall c; ordering := v;
     instruction := instruction c |}.

Definition set_instruction (v : string) (c : Config) : Config :=
  {| sequence_length := sequence_length c; display_time := display_time c;
     inter_digit_delay := inter_digit_delay c; backward := backward c;
     interference_task := interference_task c;
     selective_recall := selective_recall c; ordering := ordering c;
     instruction := v |}.

(** The fallback of [generate_next_challenge_config] when the settings
    carry no [digit_span] section. *)
Definition default_meta : Meta :=
  {| backward_intro_level := 4;
     interference_intro_level := 7;
     selective_recall_intro_level := 8;
     ordering_intro_level := 9;
     base_display_time := 1;
     display_time_reduction_per_level := 1 # 10;
     base_delay_time := 1 # 2;
     delay_time_reduction_per_level := 1 # 20;
     min_digits_level_1 := 3;
     max_additional_digits_per_level := 1 |}.

Definition get_instruction_text (config : Config) : string :=
  let instruction := "Remember the sequence" in
  let instruction :=
    if backward config then instruction +:+ " and repeat it BACKWARD"
    else if selective_recall config
         then instruction +:+ " but only repeat ODD digits"
    else if ordering config
         then instruction +:+ " and repeat it in ASCENDING order"
    else instruction in
  let instruction :=
    if interference_task config
    then instruction +:+ " (with math problem)"
    else instruction in
  instruction.

(** [generate_next_challenge_config(level)]. The argument [meta_section] is the
    result of looking up [settings["game_meta_parameters"]["digit_span"]]
    in the loaded settings, [None] standing for the [KeyError] branch. *)
Definition generate_next_challenge_config
    (meta_section : option Meta) (level : Z) : M tape Config :=
  let meta := match meta_section with Some m => m | None => default_meta end in
  let config :=
    {| sequence_length := 0; display_time := 0; inter_digit_delay := 0;
       backward := false; interference_task := false;
       selective_recall := false; ordering := false; instruction := "" |} in
  let config :=
    set_sequence_length
      (min_digits_level_1 meta
       + (level - 1) * max_additional_digits_per_level meta) config in
  let config :=
    set_display_time
      (pymax (3 # 10)
         (base_display_time meta
          - inject_Z (level - 1) * display_time_reduction_per_level meta))
      config in
  let config :=
    set_inter_digit_delay
      (pymax (1 # 10)
         (base_delay_time meta
          - inject_Z (level - 1) * delay_time_reduction_per_level meta))
      config in
  let* config :=
    if backward_intro_level meta <=? level
    then let* b := choice [true; false] in ret (set_backward b config)
    else ret config in
  let* config :=
    if interference_intro_level meta <=? level
    then let* b := choice [true; false] in
         ret (set_interference_task b config)
    else ret config in
  let* config :=
    if selective_recall_intro_level meta <=? level
    then let* b := choice [true; false] in
         let config := set_selective_recall b config in
         ret (if selective_recall config
              then set_backward false config else config)
    else ret config in
  let* config :=
    if ordering_intro_level meta <=? level
    then let* b := choice [true; false] in
         let config := set_ordering b config in
         ret (if ordering config
              then set_selective_recall false (set_backward false config)
              else config)
    else ret config in
  ret (set_instruction (get_instruction_text config) config).

(** [d % 2 == 1] *)
Definition is_odd (d : Z) : bool := d mod 2 =? 1.

(** [sequence[i] = v]: [IndexError] outside the list. *)
Definition list_assign (sequence : list Z) (i : Z) (v : Z)
  : M tape (list Z) :=
  let n := Z.of_nat (length sequence) in
  if (0 <=? i) && (i <? n) then ret (<[Z.to_nat i := v]> sequence)
  else if (- n <=? i) && (i <? 0)
       then ret (<[Z.to_nat (n + i) := v]> sequence)
  else raise IndexError.

Definition generate_sequence (config : Config) : M tape (list Z) :=
  let length := sequence_length config in
  let* sequence := repeatM (Z.to_nat length) (randint 0 9) in
  if selective_recall config
  then
    if negb (existsb is_odd sequence)
    then
      (* the right-hand side of the assignment is evaluated first *)
      let* v := choice [1; 3; 5; 7; 9] in
      let* i := randint 0 (length - 1) in
      list_assign sequence i v
    else ret sequence
  else ret sequence.

(** [sorted] on a list of integers. *)
Definition sorted (l : list Z) : list Z := merge_sort Z.le l.

Definition get_expected_answer (sequence : list Z) (config : Config)
  : list Z :=
  if backward config then reverse sequence
  else if selective_recall config then filter (fun d => is_odd d = true) sequence
  else if ordering config then sorted sequence
  else sequence.

Definition get_task_type_description (config : Config) : string :=
  if backward config then "in REVERSE order"
  else if selective_recall config then "- ODD digits only"
  else if ordering config then "in ASCENDING order"
  else "in order".

(** [sum(1 for u, e in zip(user_answer, expected) if u == e)] *)
Fixpoint correct_positions (user_answer expected : list Z) : nat :=
  match user_answer, expected with
  | u :: us, e :: es =>
      ((if bool_decide (u = e) then 1 else 0) + correct_positions us es)%nat
  | _, _ => O
  end.

Definition validate_user_answer
    (user_answer expected : list Z) (config : Config) : string :=
  if bool_decide (user_answer = expected) then "Correct!"
  else if negb (length user_answer =? length expected)%nat
  then "Incorrect length. Expected " +:+ pretty (length expected)
       +:+ " digits, got " +:+ pretty (length user_answer) +:+ "."
  else
    let correct_positions := correct_positions user_answer expected in
    if bool_decide (sorted user_answer = sorted expected)
       && negb (ordering config)
    then "All digits correct but in wrong order. "
         +:+ pretty correct_positions +:+ "/" +:+ pretty (length expected)
         +:+ " in correct position."
    else "Partially correct. "
         +:+ pretty correct_positions +:+ "/" +:+ pretty (length expected)
         +:+ " digits in correct position.".

(** [int(d)] on one character: [None] stands for [ValueError]. *)
Definition int_of_char (d : ascii) : option Z :=
  let n := ord d in
  if (48 <=? n) && (n <=? 57) then Some (n - 48) else None.

(** [[int(d) for d in user_input]] guarded by [except ValueError]. *)
Fixpoint digits_of (user_input : string) : option (list Z) :=
  match user_input with
  | EmptyString => Some []
  | String d rest =>
      match int_of_char d, digits_of rest with
      | Some v, Some vs => Some (v :: vs)
      | _, _ => None
      end
  end.

Definition parse_answer (user_input : string) : list Z :=
  match digits_of user_input with
  | Some l => l
  | None => []
  end.

(** [user_input[:-1]] *)
Fixpoint drop_last (s : string) : string :=
  match s with
  | EmptyString => EmptyString
  | String _ EmptyString => EmptyString
  | String c rest => String c (drop_last rest)
  end.

(** What [get_user_response] hands back: the returned triple, and whether
    the call set the [WM_EXIT] flag of the environment. *)
Record Response : Type := {
  success : bool;
  response_time : Q;
  user_answer : list Z;
  wm_exit : bool
}.

Definition max_input_len : nat := 20.

(** The [while True] loop of [get_user_response]. [elapsed] is the reading
    [time.time() - start_time] taken after the loop is left. Every pass
    first redraws the field: [input_win.addstr(0, 0, user_input)], outside
    the [try], raises [curses.error] once the text fills the one-line
    window of [max_input_len] columns, since the cursor cannot be put
    behind its last cell. *)
Fixpoint input_loop (expected : list Z) (config : Config) (elapsed : Q)
    (user_input validation_feedback : string) (events : list event)
  : option (outcome Response) :=
  if (max_input_len <=? String.length user_input)%nat then
    Some (Raise CursesError)
  else
  match events with
  | [] => None
  | Interrupt :: _ =>
      Some (Ok {| success := false; response_time := 0; user_answer := [];
                  wm_exit := true |})
  | Key key :: events =>
      if key =? 3 then
        Some (Ok {| success := false; response_time := 0;
                    user_answer := []; wm_exit := true |})
      else if key_in key [ord "m"; ord "M"] then
        Some (Ok {| success := false; response_time := 0;
                    user_answer := []; wm_exit := false |})
      else if key_in key [Curses.KEY_ENTER; 10; 13] then
        let user_answer := parse_answer user_input in
        let success := bool_decide (user_answer = expected) in
        let validation_feedback :=
          validate_user_answer user_answer expected config in
        if success then
          (* break: the code after the loop *)
          Some (Ok {| success := success; response_time := elapsed;
                      user_answer := parse_answer user_input;
                      wm_exit := false |})
        else
          input_loop expected config elapsed user_input validation_feedback
            events
      else if (key =? Curses.KEY_BACKSPACE) || (key =? 127) then
        let user_input :=
          if bool_decide (user_input = "") then user_input
          else drop_last user_input in
        input_loop expected config elapsed user_input validation_feedback
          events
      else if (ord "0" <=? key) && (key <=? ord "9") then
        let user_input :=
          if (String.length user_input <? max_input_len)%nat
          then user_input +:+ String (ascii_of_nat (Z.to_nat key)) ""
          else user_input in
        input_loop expected config elapsed user_input validation_feedback
          events
      else
        input_loop expected config elapsed user_input validation_feedback
          events
  end.

Definition get_user_response (sequence : list Z) (config : Config)
    (elapsed : Q) (events : list event) : option (outcome Response) :=
  let expected := get_expected_answer sequence config in
  input_loop expected config elapsed "" "" events.

End DigitSpan.

(** ** spatial_pattern/spatial_pattern.py *)

Module SpatialPattern.

(** The [spatial_pattern] section of the settings. The three keys read with
    [meta.get(key, fallback)] may be absent. *)
Record Meta : Type := {
  grid_size_base : Z;
  grid_size_increase_every_n_levels : option Z;
  max_grid_size : Z;
  min_cells_level_1 : Z;
  max_additional_cells_per_level : Z;
  display_time_base : Q;
  display_time_reduction_per_level : Q;
  multiple_highlights_intro_level : option Z;
  interference_intro_level : option Z
}.

Record Config : Type := {
  grid_size : Z;
  pattern_size : Z;
  display_time : Q;
  interference : bool;
  use_multiple_highlights : bool;
  instruction : string
}.

(** The fallback of [generate_next_challenge_config] and the section of
    the module's own default settings. *)
Definition default_meta : Meta :=
  {| grid_size_base := 3;
     grid_size_increase_every_n_levels := Some 2;
     max_grid_size := 7;
     min_cells_level_1 := 3;
     max_additional_cells_per_level := 2;
     display_time_base := 3 # 2;
     display_time_reduction_per_level := 1 # 10;
     multiple_highlights_intro_level := Some 5;
     interference_intro_level := Some 7 |}.

(** The [spatial_pattern] section of the default settings of
    [save_load.load_settings], which lacks the three optional keys. *)
Definition save_load_default_meta : Meta :=
  {| grid_size_base := 3;
     grid_size_increase_every_n_levels := None;
     max_grid_size := 7;
     min_cells_level_1 := 3;
     max_additional_cells_per_level := 2;
     display_time_base := 3 # 2;
     display_time_reduction_per_level := 1 # 10;
     multiple_highlights_intro_level := None;
     interference_intro_level := None |}.

(** The entries of [HIGHLIGHT_PATTERNS], named after their comments. *)
Inductive highlight : Set :=
| SolidFill | DenseShade | MediumShade | LightShade
| BlackSquare | Diamond | Circle | Star.

Definition HIGHLIGHT_PATTERNS : list highlight :=
  [SolidFill; DenseShade; MediumShade; LightShade;
   BlackSquare; Diamond; Circle; Star].

Definition get_instruction_text (config : Config) : string :=
  if interference config
  then "Remember the pattern - You'll solve a math problem before recalling"
  else if use_multiple_highlights config
  then "Remember the pattern with " +:+ pretty (pattern_size config)
       +:+ " cells AND their highlight style"
  else "Remember the pattern with " +:+ pretty (pattern_size config)
       +:+ " highlighted cells".

(** [a // b] *)
Definition floordiv {S} (a b : Z) : M S Z :=
  if b =? 0 then raise ZeroDivisionError else ret (a `div` b).

(** [generate_next_challenge_config(level)], [meta_section] being the
    lookup of [settings["game_meta_parameters"]["spatial_pattern"]]. *)
Definition generate_next_challenge_config
    (meta_section : option Meta) (level : Z) : M tape Config :=
  let meta := match meta_section with Some m => m | None => default_meta end in
  let grid_size_increase_every_n :=
    default 2 (grid_size_increase_every_n_levels meta) in
  let* q := floordiv (level - 1) grid_size_increase_every_n in
  let grid_size_increase :=
    Z.min q (max_grid_size meta - grid_size_base meta) in
  let grid_size := grid_size_base meta + grid_size_increase in
  let min_cells :=
    min_cells_level_1 meta
    + (level - 1) * max_additional_cells_per_level meta in
  let max_cells :=
    Z.min (min_cells + max_additional_cells_per_level meta)
          (grid_size * grid_size - 1) in
  let* pattern_size := randint min_cells max_cells in
  let display_time :=
    pymax (1 # 2)
      (display_time_base meta
       - inject_Z (level - 1) * display_time_reduction_per_level meta) in
  let interference_level := default 7 (interference_intro_level meta) in
  let* interference :=
    if interference_level <=? level then choice [true; false]
    else ret false in
  let multiple_highlights_level :=
    default 5 (multiple_highlights_intro_level meta) in
  let* use_multiple_highlights :=
    if multiple_highlights_level <=? level then choice [true; false]
    else ret false in
  let config :=
    {| grid_size := grid_size; pattern_size := pattern_size;
       display_time := display_time; interference := interference;
       use_multiple_highlights := use_multiple_highlights;
       instruction := "" |} in
  ret {| grid_size := grid_size; pattern_size := pattern_size;
         display_time := display_time; interference := interference;
         use_multiple_highlights := use_multiple_highlights;
         instruction := get_instruction_text config |}.

(** A grid cell [(row, col)]. *)
Definition cell : Type := Z * Z.

(** The order of Python tuples: lexicographic. *)
Definition cell_le (p q : cell) : Prop :=
  p.1 < q.1 \/ (p.1 = q.1 /\ p.2 <= q.2).

Global Instance cell_le_dec (p q : cell) : Decision (cell_le p q).
Proof. unfold cell_le. apply _. Defined.

(** [sorted] and [list.sort] on cells. *)
Definition sorted (l : list cell) : list cell := merge_sort cell_le l.

(** [[(row, col) for row in range(n) for col in range(n)]] *)
Definition all_positions (n : Z) : list cell :=
  row ← seqZ 0 n; col ← seqZ 0 n; [(row, col)].

(** One highlight per cell of the pattern, in pattern order. *)
Fixpoint assign_highlights (types : list highlight) (pattern : list cell)
    (highlights : gmap cell highlight) : M tape (gmap cell highlight) :=
  match pattern with
  | [] => ret highlights
  | pos :: rest =>
      let* h := choice types in
      assign_highlights types rest (<[pos := h]> highlights)
  end.

Definition generate_pattern (config : Config)
  : M tape (list cell * gmap cell highlight) :=
  let grid_size := grid_size config in
  let pattern_size := pattern_size config in
  let all_positions := all_positions grid_size in
  let* pattern := sample all_positions pattern_size in
  let pattern := sorted pattern in
  if use_multiple_highlights config
  then
    let num_highlight_types :=
      Z.min 3 (Z.of_nat (length HIGHLIGHT_PATTERNS)) in
    let* highlight_types := sample HIGHLIGHT_PATTERNS num_highlight_types in
    let* highlights := assign_highlights highlight_types pattern ∅ in
    ret (pattern, highlights)
  else
    ret (pattern,
         foldl (fun hs pos => <[pos := SolidFill]> hs) ∅ pattern).

(** [selected_cells.remove(cursor_pos)]: the first occurrence goes. *)
Fixpoint remove_first (x : cell) (l : list cell) : list cell :=
  match l with
  | [] => []
  | y :: l' => if bool_decide (x = y) then l' else y :: remove_first x l'
  end.

Record Response : Type := {
  success : bool;
  response_time : Q;
  user_answer : list cell;
  wm_exit : bool
}.

(** [sorted(selected_cells) == sorted(pattern)] *)
Definition positions_match (selected_cells pattern : list cell) : bool :=
  bool_decide (sorted selected_cells = sorted pattern).

(** The input loop of [get_user_response]; [elapsed] is the reading
    [time.time() - start_time] at submission. *)
Fixpoint input_loop (pattern : list cell) (config : Config) (elapsed : Q)
    (cursor_pos : cell) (selected_cells : list cell) (events : list event)
  : option Response :=
  let grid_size := grid_size config in
  match events with
  | [] => None
  | Interrupt :: _ =>
      Some {| success := false; response_time := 0; user_answer := [];
              wm_exit := true |}
  | Key key :: events =>
      if key =? 3 then
        Some {| success := false; response_time := 0; user_answer := [];
                wm_exit := true |}
      else if key_in key [ord "m"; ord "M"] then
        Some {| success := false; response_time := 0; user_answer := [];
                wm_exit := false |}
      else if key_in key [ord "s"; ord "S"; Curses.KEY_ENTER; 10; 13] then
        let response_time := elapsed in
        let success := positions_match selected_cells pattern in
        Some {| success := success; response_time := response_time;
                user_answer := selected_cells; wm_exit := false |}
      else if key =? ord " " then
        let selected_cells :=
          if bool_decide (cursor_pos ∈ selected_cells)
          then remove_first cursor_pos selected_cells
          else if Z.of_nat (length selected_cells) <? pattern_size config
               then selected_cells ++ [cursor_pos]
               else selected_cells in
        input_loop pattern config elapsed cursor_pos selected_cells events
      else if key_in key [ord "k"; Curses.KEY_UP] && (0 <? cursor_pos.1) then
        input_loop pattern config elapsed (cursor_pos.1 - 1, cursor_pos.2)
          selected_cells events
      else if key_in key [ord "j"; Curses.KEY_DOWN]
              && (cursor_pos.1 <? grid_size - 1) then
        input_loop pattern config elapsed (cursor_pos.1 + 1, cursor_pos.2)
          selected_cells events
      else if key_in key [ord "h"; Curses.KEY_LEFT] && (0 <? cursor_pos.2) then
        input_loop pattern config elapsed (cursor_pos.1, cursor_pos.2 - 1)
          selected_cells events
      else if key_in key [ord "l"; Curses.KEY_RIGHT]
              && (cursor_pos.2 <? grid_size - 1) then
        input_loop pattern config elapsed (cursor_pos.1, cursor_pos.2 + 1)
          selected_cells events
      else
        input_loop pattern config elapsed cursor_pos selected_cells events
  end.

Definition get_user_response (pattern : list cell) (config : Config)
    (elapsed : Q) (events : list event) : option Response :=
  input_loop pattern config elapsed (0, 0) [] events.

End SpatialPattern.

(** ** save_load.py *)

Module SaveLoad.

Definition try_except {S A} (body : M S A) (handler : exn -> M S A)
  : M S A :=
  fun s =>
    match body s with
    | (Ok a, s') => (Ok a, s')
    | (Raise e, s') => handler e s'
    end.

(** [os.path.isabs] *)
Definition isabs (path : string) : bool :=
  match path with
  | String "/" _ => true
  | _ => false
  end.

Fixpoint ends_with_slash (path : string) : bool :=
  match path with
  | EmptyString => false
  | String c EmptyString => bool_decide (c = "/"%char)
  | String _ rest => ends_with_slash rest
  end.

(** [os.path.join] on two components. *)
Definition path_join (a b : string) : string :=
  if isabs b then b
  else if bool_decide (a = "") || ends_with_slash a then a +:+ b
  else a +:+ "/" +:+ b.

Section Store.
  (** The documents kept in the store, and the directory of the program. *)
Context {D : Type}.
Variable ROOT_DIR : string.

  (** What a path holds: text that decodes to a document, text on which
      [json.load] raises [JSONDecodeError], or something that cannot be
      opened or read at all. *)
Inductive file : Type :=
  | Json (d : D)
  | Garbled
  | Unreadable.

  (** Where a write to a path fails, when it does: before anything is
      changed, when the directory cannot be created or the file cannot be
      opened for writing (read-only file or directory); after
      [open(path, 'w')] has created or truncated the file, when
      [json.dump], [flush] or the closing of the file raises (full disk),
      which leaves truncated text; or at [os.fsync], after everything was
      written. *)
Inductive write_failure : Set :=
  | AtOpen
  | AtDump
  | AtSync.

#[global] Instance write_failure_eq_dec : EqDecision write_failure.
Proof. solve_decision. Defined.

  (** The disk: the files, and the paths at which a write fails. *)
Record disk : Type := {
    files : gmap string file;
    write_failures : gmap string write_failure
  }.

  (** The paths that cannot be written and synchronised. *)
Definition unwritable (fs : disk) : gset string := dom (write_failures fs).

Definition get_absolute_path (relative_path : string) : string :=
    if isabs relative_path then relative_path
    else path_join ROOT_DIR relative_path.

  (** [os.path.exists] *)
Definition path_exists (path : string) : M disk bool :=
    fun fs => (Ok (bool_decide (is_Some (files fs !! path))), fs).

  (** [with open(path, 'r') as f: json.load(f)] *)
Definition read_json (path : string) : M disk D :=
    fun fs =>
      match files fs !! path with
      | Some (Json d) => (Ok d, fs)
      | Some Garbled => (Raise JSONDecodeError, fs)
      | Some Unreadable => (Raise OSError, fs)
      | None => (Raise FileNotFoundError, fs)
      end.

  (** [ensure_directory_exists(path)] followed by
      [with open(path, 'w') as f: json.dump(data, f)], and then, when
      [sync] is set, by [f.flush()] and [os.fsync(f.fileno())]; in the
      handler of [load_json_file] the file exists and only the second
      step runs. A write that fails after the file was opened leaves text
      that does not decode. *)
Definition write_json (sync : bool) (path : string) (data : D)
    : M disk unit :=
    fun fs =>
      let put (f : file) :=
        {| files := <[path := f]> (files fs);
           write_failures := write_failures fs |} in
      match write_failures fs !! path with
      | Some AtOpen => (Raise OSError, fs)
      | Some AtDump => (Raise OSError, put Garbled)
      | Some AtSync =>
          if sync then (Raise OSError, put (Json data))
          else (Ok tt, put (Json data))
      | None => (Ok tt, put (Json data))
      end.

  (** [default] is [None] when the caller passes no default. *)
Definition load_json_file (file_path : string) (default : option D)
    : M disk D :=
    let abs_path := get_absolute_path file_path in
    try_except
      (let* present := path_exists abs_path in
       if present then read_json abs_path
       else
         match default with
         | Some d => let* _ := write_json false abs_path d in ret d
         | None => raise FileNotFoundError
         end)
      (fun e =>
         match e with
         | JSONDecodeError =>
             match default with
             | Some d => let* _ := write_json false abs_path d in ret d
             | None => raise JSONDecodeError
             end
         | _ =>
             match default with
             | Some d => ret d
             | None => raise e
             end
         end).

Definition save_json_file (file_path : string) (data : D) : M disk bool :=
    let abs_path := get_absolute_path file_path in
    try_except
      (let* _ := write_json true abs_path data in ret true)
      (fun _ => ret false).

End Store.

(** [get_game_progress_path] and [get_game_history_path] *)
Definition get_game_progress_path (game : string) : string :=
  path_join game (game +:+ ".json").

Definition get_game_history_path (game : string) : string :=
  path_join game (game +:+ "_history.json").

(** JSON values, for the keys of a progress document that the engine
    carries along without reading them. *)
#[local] Unset Elimination Schemes.
Inductive json : Type :=
| JNull
| JBool (b : bool)
| JInt (z : Z)
| JNum (q : Q)
| JStr (s : string)
| JList (l : list json)
| JObj (l : list (string * json)).
#[local] Set Elimination Schemes.

(** The per-game progress document. *)
Record ProgressRecord : Type := {
  level : Z;
  upgrade : Z;
  highest_level_reached : Z;
  total_challenges : Z;
  successful_challenges : Z;
  current_streak : Z;
  longest_streak : Z;
  avg_response_time : Q;
  extras : list (string * json)
}.

(** The answer handed to [update_progress]: a digit list, a list of cells,
    the key typed in the simulation fallback, or nothing. *)
Inductive answer : Type :=
| NoAnswer
| Digits (l : list Z)
| Cells (l : list (Z * Z))
| Text (s : string).

Record HistoryEntry : Type := {
  h_timestamp : string;
  h_game : string;
  h_level : Z;
  h_success : bool;
  h_response_time : Q;
  h_upgrade_progress : Z;
  h_user_answer : option answer
}.

Inductive document : Type :=
| DocProgress (p : ProgressRecord)
| DocHistory (h : list HistoryEntry).

Definition default_progress (game : string) : ProgressRecord :=
  {| level := 1; upgrade := 0; highest_level_reached := 1;
     total_challenges := 0; successful_challenges := 0;
     current_streak := 0; longest_streak := 0; avg_response_time := 0;
     extras :=
       if bool_decide (game = "digit_span")
       then [("next_challenge",
              JObj [("sequence_length", JInt 3);
                    ("display_time", JNum 1);
                    ("inter_digit_delay", JNum (1 # 2));
                    ("backward", JBool false);
                    ("interference", JBool false);
                    ("manipulation", JNull);
                    ("instruction", JStr "Remember the digits in order")]);
             ("current_sequence", JList [])]
       else [] |}.

Section Games.
Variable ROOT_DIR : string.

Definition load_game_progress (game : string) : M disk document :=
    load_json_file ROOT_DIR (get_game_progress_path game)
      (Some (DocProgress (default_progress game))).

Definition save_game_progress (game : string) (progress : ProgressRecord)
    : M disk bool :=
    save_json_file ROOT_DIR (get_game_progress_path game)
      (DocProgress progress).

Definition load_game_history (game : string) : M disk document :=
    load_json_file ROOT_DIR (get_game_history_path game)
      (Some (DocHistory [])).

Definition save_game_history (game : string) (history : list HistoryEntry)
    : M disk bool :=
    save_json_file ROOT_DIR (get_game_history_path game)
      (DocHistory history).

  (** [history.append] needs a list: a progress dictionary has no such
      method. *)
Definition add_history_entry (game : string) (entry : HistoryEntry)
    : M disk bool :=
    let* history := load_game_history game in
    match history with
    | DocHistory h => save_game_history game (h ++ [entry])
    | DocProgress _ => raise AttributeError
    end.
End Games.

End SaveLoad.

(** ** game_session.py *)

Module GameSession.
Import SaveLoad.

Definition set_level (v : Z) (p : ProgressRecord) : ProgressRecord :=
  {| level := v; upgrade := upgrade p;
     highest_level_reached := highest_level_reached p;
     total_challenges := total_challenges p;
     successful_challenges := successful_challenges p;
     current_streak := current_streak p;
     longest_streak := longest_streak p;
     avg_response_time := avg_response_time p; extras := extras p |}.

Definition set_upgrade (v : Z) (p : ProgressRecord) : ProgressRecord :=
  {| level := level p; upgrade := v;
     highest_level_reached := highest_level_reached p;
     total_challenges := total_challenges p;
     successful_challenges := successful_challenges p;
     current_streak := current_streak p;
     longest_streak := longest_streak p;
     avg_response_time := avg_response_time p; extras := extras p |}.

Definition set_highest_level_reached (v : Z) (p : ProgressRecord)
  : ProgressRecord :=
  {| level := level p; upgrade := upgrade p;
     highest_level_reached := v;
     total_challenges := total_challenges p;
     successful_challenges := successful_challenges p;
     current_streak := current_streak p;
     longest_streak := longest_streak p;
     avg_response_time := avg_response_time p; extras := extras p |}.

Definition set_total_challenges (v : Z) (p : ProgressRecord)
  : ProgressRecord :=
  {| level := level p; upgrade := upgrade p;
     highest_level_reached := highest_level_reached p;
     total_challenges := v;
     successful_challenges := successful_challenges p;
     current_streak := current_streak p;
     longest_streak := longest_streak p;
     avg_response_time := avg_response_time p; extras := extras p |}.

Definition set_successful_challenges (v : Z) (p : ProgressRecord)
  : ProgressRecord :=
  {| level := level p; upgrade := upgrade p;
     highest_level_reached := highest_level_reached p;
     total_challenges := total_challenges p;
     successful_challenges := v;
     current_streak := current_streak p;
     longest_streak := longest_streak p;
     avg_response_time := avg_response_time p; extras := extras p |}.

Definition set_current_streak (v : Z) (p : ProgressRecord)
  : ProgressRecord :=
  {| level := level p; upgrade := upgrade p;
     highest_level_reached := highest_level_reached p;
     total_challenges := total_challenges p;
     successful_challenges := successful_challenges p;
     current_streak := v;
     longest_streak := longest_streak p;
     avg_response_time := avg_response_time p; extras := extras p |}.

Definition set_longest_streak (v : Z) (p : ProgressRecord)
  : ProgressRecord :=
  {| level := level p; upgrade := upgrade p;
     highest_level_reached := highest_level_reached p;
     total_challenges := total_challenges p;
     successful_challenges := successful_challenges p;
     current_streak := current_streak p;
     longest_streak := v;
     avg_response_time := avg_response_time p; extras := extras p |}.

Definition set_avg_response_time (v : Q) (p : ProgressRecord)
  : ProgressRecord :=
  {| level := level p; upgrade := upgrade p;
     highest_level_reached := highest_level_reached p;
     total_challenges := total_challenges p;
     successful_challenges := successful_challenges p;
     current_streak := current_streak p;
     longest_streak := longest_streak p;
     avg_response_time := v; extras := extras p |}.

(** The truth value of [user_answer] in [if user_answer:]. *)
Definition truthy (a : answer) : bool :=
  match a with
  | NoAnswer => false
  | Digits l => negb (bool_decide (l = []))
  | Cells l => negb (bool_decide (l = []))
  | Text s => negb (bool_decide (s = ""))
  end.

(** The arithmetic in which an average is computed: the conversion of an
    integer, sum, product and quotient. *)
Record arithmetic (num : Type) : Type := {
  num_of_int : Z -> num;
  num_add : num -> num -> num;
  num_mul : num -> num -> num;
  num_div : num -> num -> num
}.
Arguments num_of_int {num} _ _.
Arguments num_add {num} _ _ _.
Arguments num_mul {num} _ _ _.
Arguments num_div {num} _ _ _.

(** Exact arithmetic on rationals. *)
Definition exact_arithmetic : arithmetic Q :=
  {| num_of_int := inject_Z; num_add := Qplus; num_mul := Qmult;
     num_div := Qdiv |}.



(** Lines 78-83 of [update_progress], [total_challenges] being the total
    already incremented: the first response time is the average, later
    ones are folded in; the division raises [ZeroDivisionError] when the
    new total is zero. *)
Definition running_average {num : Type} (A : arithmetic num)
    (old_avg : num) (total_challenges : Z) (response_time : num)
  : outcome num :=
  let old_total := total_challenges - 1 in
  if old_total =? 0 then Ok response_time
  else if total_challenges =? 0 then Raise ZeroDivisionError
  else Ok (num_div A
             (num_add A (num_mul A old_avg (num_of_int A old_total))
                response_time)
             (num_of_int A total_challenges)).

(** Lines 63-94 of [update_progress]: the changes made to the loaded
    dictionary, in the order of the source, with the level read before the
    level check. The counters are integers; the average is carried in
    exact arithmetic, where the interpreter rounds (see [binary64]). *)
Definition apply_result (success : bool) (response_time : Q)
    (game_progress : ProgressRecord) : outcome (Z * ProgressRecord) :=
  (* Update basic stats *)
  let game_progress :=
    set_total_challenges (total_challenges game_progress + 1)
      game_progress in
  let game_progress :=
    if success then
      let game_progress :=
        set_successful_challenges
          (successful_challenges game_progress + 1) game_progress in
      let game_progress :=
        set_current_streak (current_streak game_progress + 1)
          game_progress in
      set_upgrade (upgrade game_progress + 1) game_progress
    else
      let game_progress := set_current_streak 0 game_progress in
      set_upgrade (upgrade game_progress - 1) game_progress in
  (* Update longest streak *)
  let game_progress :=
    if longest_streak game_progress <? current_streak game_progress
    then set_longest_streak (current_streak game_progress) game_progress
    else game_progress in
  (* Update response time average *)
  let old_avg := avg_response_time game_progress in
  let averaged :=
    match running_average exact_arithmetic old_avg
            (total_challenges game_progress) response_time with
    | Ok avg => Ok (set_avg_response_time avg game_progress)
    | Raise e => Raise e
    end in
  match averaged with
  | Raise e => Raise e
  | Ok game_progress =>
      (* Check for level up/down *)
      let level_before := level game_progress in
      let game_progress :=
        if (10 <=? upgrade game_progress) && (level game_progress <? 10)
        then
          let game_progress :=
            set_level (level game_progress + 1) game_progress in
          let game_progress := set_upgrade 0 game_progress in
          if highest_level_reached game_progress <? level game_progress
          then set_highest_level_reached (level game_progress) game_progress
          else game_progress
        else if (upgrade game_progress <=? -5) && (1 <? level game_progress)
        then
          let game_progress :=
            set_level (level game_progress - 1) game_progress in
          set_upgrade 0 game_progress
        else game_progress in
      Ok (level_before, game_progress)
  end.

Section Progress.
Variable ROOT_DIR : string.

(** [update_progress(game, success, response_time, user_answer)]; [now] is
    the formatted reading of [datetime.now()]. A document that is not a
    progress dictionary fails at the first subscript. *)
Definition update_progress (game : string) (success : bool)
    (response_time : Q) (user_answer : answer) (now : string)
  : M disk (Z * Z) :=
  let* loaded := load_game_progress ROOT_DIR game in
  let* game_progress :=
    match loaded with
    | DocProgress p => ret p
    | DocHistory _ => raise TypeError
    end in
  let* (level_before, game_progress) :=
    lift (apply_result success response_time game_progress) in
  (* Save updated progress *)
  let* _ := save_game_progress ROOT_DIR game game_progress in
  (* Add history entry *)
  let entry :=
    {| h_timestamp := now;
       h_game := game;
       h_level := level_before;
       h_success := success;
       h_response_time := response_time;
       h_upgrade_progress := upgrade game_progress;
       h_user_answer :=
         if truthy user_answer then Some user_answer else None |} in
  let* _ := add_history_entry ROOT_DIR game entry in
  ret (level game_progress, upgrade game_progress).

End Progress.

(** *** The session queue *)

Definition select_random_game (game_category : list string)
  : M tape string :=
  choice game_category.

Inductive session_type : Set :=
| single
| strategy1
| strategy2
| random_all.

(** The three screens of [handle_session_continuation]: the two
    continuation questions and the plain pause between rounds. *)
Inductive prompt : Set :=
| SessionCompletePrompt
| ContinuePlayingPrompt
| PressAnyKeyPrompt.

(** What one call hands back: the screen shown, the returned pair, whether
    [WM_EXIT] was set and whether the progress view was opened, and the
    events not yet consumed. *)
Record Continuation : Type := {
  shown : prompt;
  continue_session : bool;
  games_queue : list string;
  wm_exit : bool;
  progress_shown : bool;
  pending : list event
}.

(** The 4 challenges appended on Y. *)
Definition four_more (st : session_type) (current_game : string)
    (ALL_GAMES STRATEGY_1_GAMES STRATEGY_2_GAMES : list string)
  : M tape (list string) :=
  match st with
  | single => ret (replicate 4 current_game)
  | strategy1 => repeatM 4 (select_random_game STRATEGY_1_GAMES)
  | strategy2 => repeatM 4 (select_random_game STRATEGY_2_GAMES)
  | random_all => repeatM 4 (select_random_game ALL_GAMES)
  end.

(** The [while True] loop shared, word for word, by the two branches taken
    on an empty queue. *)
Fixpoint decision_loop (shown : prompt) (st : session_type)
    (games_queue : list string) (current_game : string)
    (ALL_GAMES STRATEGY_1_GAMES STRATEGY_2_GAMES : list string)
    (events : list event) : M tape (option Continuation) :=
  let stop exit progress rest :=
    ret (Some {| shown := shown; continue_session := false;
                 games_queue := games_queue; wm_exit := exit;
                 progress_shown := progress; pending := rest |}) in
  match events with
  | [] => ret None
  | Interrupt :: rest => stop true false rest
  | Key choice :: rest =>
      if (choice =? 3) || key_in choice [ord "q"; ord "Q"] then
        stop true false rest
      else if key_in choice [ord "m"; ord "M"] then stop false false rest
      else if key_in choice [ord "y"; ord "Y"] then
        let* more :=
          four_more st current_game
            ALL_GAMES STRATEGY_1_GAMES STRATEGY_2_GAMES in
        ret (Some {| shown := shown; continue_session := true;
                     games_queue := games_queue ++ more; wm_exit := false;
                     progress_shown := false; pending := rest |})
      else if key_in choice [ord "n"; ord "N"] then stop false false rest
      else if key_in choice [ord "p"; ord "P"] then stop false true rest
      else
        decision_loop shown st games_queue current_game
          ALL_GAMES STRATEGY_1_GAMES STRATEGY_2_GAMES rest
  end.

Definition handle_session_continuation
    (games_queue : list string) (challenges_completed : Z)
    (current_game : string)
    (ALL_GAMES STRATEGY_1_GAMES STRATEGY_2_GAMES : list string)
    (events : list event) : M tape (option Continuation) :=
  (* Determine the current session type *)
  let st :=
    if bool_decide (current_game ∈ ALL_GAMES) then single
    else if bool_decide (current_game ∈ STRATEGY_1_GAMES) then strategy1
    else if bool_decide (current_game ∈ STRATEGY_2_GAMES) then strategy2
    else random_all in
  if bool_decide (games_queue = []) && (challenges_completed mod 10 =? 0)
  then
    decision_loop SessionCompletePrompt st games_queue current_game
      ALL_GAMES STRATEGY_1_GAMES STRATEGY_2_GAMES events
  else if bool_decide (games_queue = []) then
    decision_loop ContinuePlayingPrompt st games_queue current_game
      ALL_GAMES STRATEGY_1_GAMES STRATEGY_2_GAMES events
  else
    (* More games in queue, just continue *)
    match events with
    | [] => ret None
    | Interrupt :: rest =>
        ret (Some {| shown := PressAnyKeyPrompt; continue_session := false;
                     games_queue := games_queue; wm_exit := true;
                     progress_shown := false; pending := rest |})
    | Key choice :: rest =>
        if (choice =? 3) || key_in choice [ord "q"; ord "Q"] then
          ret (Some {| shown := PressAnyKeyPrompt;
                       continue_session := false;
                       games_queue := games_queue; wm_exit := true;
                       progress_shown := false; pending := rest |})
        else if key_in choice [ord "m"; ord "M"] then
          ret (Some {| shown := PressAnyKeyPrompt;
                       continue_session := false;
                       games_queue := games_queue; wm_exit := false;
                       progress_shown := false; pending := rest |})
        else
          ret (Some {| shown := PressAnyKeyPrompt;
                       continue_session := true;
                       games_queue := games_queue; wm_exit := false;
                       progress_shown := false; pending := rest |})
    end.

(** The queue discipline of [start_game_session]: pop the front game,
    count it, and after the round ask [handle_session_continuation]. The
    round itself (explanation screen, game function, progress update,
    result screen) is left out: it touches neither the queue nor the
    counter, but it draws random numbers, reads keys of its own, and
    ends the session when the game is left for the menu or raises. The
    function therefore describes the sessions in which every round
    returns a result; the keys are those typed at the screens of
    [handle_session_continuation]. The result lists, for every round
    played, the value of the counter and the screen that followed; [rounds]
    bounds the number of rounds unfolded. *)
Fixpoint session_loop (rounds : nat) (games_queue : list string)
    (challenges_completed : Z)
    (ALL_GAMES STRATEGY_1_GAMES STRATEGY_2_GAMES : list string)
    (events : list event) : M tape (list (Z * prompt)) :=
  match rounds, games_queue with
  | O, _ | _, [] => ret []
  | S rounds, current_game :: games_queue =>
      let challenges_completed := challenges_completed + 1 in
      let* r :=
        handle_session_continuation games_queue challenges_completed
          current_game ALL_GAMES STRATEGY_1_GAMES STRATEGY_2_GAMES events in
      match r with
      | None => ret []
      | Some c =>
          if continue_session c && negb (wm_exit c) then
            let* later :=
              session_loop rounds (GameSession.games_queue c)
                challenges_completed
                ALL_GAMES STRATEGY_1_GAMES STRATEGY_2_GAMES (pending c) in
            ret ((challenges_completed, shown c) :: later)
          else ret [(challenges_completed, shown c)]
      end
  end.

Definition start_game_session (games_queue : list string)
    (ALL_GAMES STRATEGY_1_GAMES STRATEGY_2_GAMES : list string)
    (events : list event) : M tape (list (Z * prompt)) :=
  session_loop (S (length events)) games_queue 0
    ALL_GAMES STRATEGY_1_GAMES STRATEGY_2_GAMES events.

End GameSession.

(** ** main_menu.py and wrapper.py *)

Module MainMenu.

(** The [user_settings] of the settings document. *)
Record UserSettings : Type := {
  challenges_per_session : Z;
  current_user : string
}.

(** [get_game_for_session]; [settings] is what [load_settings()] returned. *)
Definition get_game_for_session (settings : UserSettings)
    (choice_type choice_value : string)
    (all_games strategy_1_games strategy_2_games : list string)
  : M tape (list string) :=
  let games_per_session := challenges_per_session settings in
  if bool_decide (choice_type = "game") then
    ret (replicate (Z.to_nat games_per_session) choice_value)
  else if bool_decide (choice_type = "random") then
    repeatM (Z.to_nat games_per_session)
      (if bool_decide (choice_value = "strategy1")
       then choice strategy_1_games
       else if bool_decide (choice_value = "strategy2")
       then choice strategy_2_games
       else choice all_games)
  else ret [].

End MainMenu.

Module Wrapper.
Definition STRATEGY_1_GAMES : list string :=
  ["digit_span"; "n_back"; "spatial_pattern"].
Definition STRATEGY_2_GAMES : list string :=
  ["shopping_list"; "mental_math"; "story_details"].
Definition ALL_GAMES : list string := STRATEGY_1_GAMES ++ STRATEGY_2_GAMES.
End Wrapper.

(** * The vocabulary of the specification *)

#[global] Instance Z_Odd_dec (d : Z) : Decision (Z.Odd d).
Proof.
  destruct (Z.odd d) eqn:H; [left|right]; rewrite <- Z.odd_spec; congruence.
Defined.


Section DigitSpanVocabulary.
Import DigitSpan.

(** The derivation rules of the expected answer, as the specification
    words them: exactly one applies, [backward] before [selective_recall]
    before [ordering] before plain forward recall. *)
Inductive derived (sequence : list Z) (config : Config) : list Z -> Prop :=
| by_backward :
    backward config = true ->
    derived sequence config (reverse sequence)
| by_selective_recall :
    backward config = false -> selective_recall config = true ->
    derived sequence config (filter Z.Odd sequence)
| by_ordering (a : list Z) :
    backward config = false -> selective_recall config = false ->
    ordering config = true ->
    Sorted Z.le a -> a ≡ₚ sequence ->
    derived sequence config a
| by_forward :
    backward config = false -> selective_recall config = false ->
    ordering config = false ->
    derived sequence config sequence.





End DigitSpanVocabulary.

Section StoreVocabulary.
Import SaveLoad.
Context {D : Type}.
Variable ROOT_DIR : string.

(** A write that succeeds replaces the document at its path only. *)
Definition written (path : string) (d : D) (fs : disk) : disk :=
  {| files := <[get_absolute_path ROOT_DIR path := Json d]> (files fs);
     write_failures := write_failures fs |}.

(** A write that fails after the file was opened leaves truncated text. *)
Definition truncated (path : string) (fs : @disk D) : disk :=
  {| files := <[get_absolute_path ROOT_DIR path := Garbled]> (files fs);
     write_failures := write_failures fs |}.

(** The disk after a write of [d] at [path] that failed at [stage]. *)
Definition after_failed_write (stage : write_failure) (path : string)
    (d : D) (fs : disk) : disk :=
  match stage with
  | AtOpen => fs
  | AtDump => truncated path fs
  | AtSync => written path d fs
  end.

(** What the path then holds, [old] being what it held before. *)
Definition left_behind (stage : write_failure) (old : option (@file D))
    (d : D) : option file :=
  match stage with
  | AtOpen => old
  | AtDump => Some Garbled
  | AtSync => Some (Json d)
  end.

End StoreVocabulary.

Section ProgressVocabulary.
Import SaveLoad GameSession.
Variable ROOT_DIR : string.

(** The separator [os.path.join] puts after its first component. *)
Definition sep (a : string) : string :=
  if bool_decide (a = "") || ends_with_slash a then "" else "/".

(** The state of a game on disk: its progress document and its history,
    a missing file standing for the default it is created with, at paths
    that can be written. *)
Definition stored (fs : disk) (game : string) (p : ProgressRecord)
    (h : list HistoryEntry) : Prop :=
  let progress_file :=
    get_absolute_path ROOT_DIR (get_game_progress_path game) in
  let history_file :=
    get_absolute_path ROOT_DIR (get_game_history_path game) in
  (files fs !! progress_file = Some (Json (DocProgress p))
   \/ (files fs !! progress_file = None /\ p = default_progress game))
  /\ (files fs !! history_file = Some (Json (DocHistory h))
      \/ (files fs !! history_file = None /\ h = []))
  /\ (progress_file ∉ unwritable fs)
  /\ (history_file ∉ unwritable fs).

(** The transition of the specification, field by field: the counters,
    then the streak record, the running mean, and the level change decided
    on the upgrade counter after its update, level-up before level-down. *)
Record transition (success : bool) (response_time : Q)
    (p p' : ProgressRecord) : Prop := {
  tr_total : total_challenges p' = total_challenges p + 1;
  tr_success :
    success = true ->
    successful_challenges p' = successful_challenges p + 1
    /\ current_streak p' = current_streak p + 1;
  tr_failure :
    success = false ->
    successful_challenges p' = successful_challenges p
    /\ current_streak p' = 0;
  tr_longest :
    longest_streak p' = Z.max (longest_streak p) (current_streak p');
  tr_avg :
    avg_response_time p'
    = if total_challenges p =? 0 then response_time
      else ((avg_response_time p * inject_Z (total_challenges p)
             + response_time)
            / inject_Z (total_challenges p + 1))%Q;
  tr_level :
    let u := if success then upgrade p + 1 else upgrade p - 1 in
    if decide (10 <= u /\ level p < 10)
    then level p' = level p + 1 /\ upgrade p' = 0
         /\ highest_level_reached p'
            = Z.max (highest_level_reached p) (level p + 1)
    else if decide (u <= -5 /\ 1 < level p)
    then level p' = level p - 1 /\ upgrade p' = 0
         /\ highest_level_reached p' = highest_level_reached p
    else level p' = level p /\ upgrade p' = u
         /\ highest_level_reached p' = highest_level_reached p;
  tr_extras : extras p' = extras p
}.

(** The sum and the mean of the recorded response times. *)
Definition Qsum (ts : list Q) : Q := foldr Qplus 0%Q ts.

Definition mean (ts : list Q) : Q :=
  (Qsum ts / inject_Z (Z.of_nat (length ts)))%Q.





End ProgressVocabulary.

Section SessionVocabulary.
Import GameSession MainMenu Wrapper.

(** The first half of the claim as it is stated: in a single-game session
    of N challenges, a continuation decision follows every round whose
    number is a multiple of N. *)
Definition decision_at_multiples_of_batch : Prop :=
  forall (settings : UserSettings) (game : string) (events : list event)
         (t t1 t2 : tape) (queue : list string) (trace : list (Z * prompt)),
    game ∈ ALL_GAMES ->
    0 < challenges_per_session settings ->
    get_game_for_session settings "game" game
      ALL_GAMES STRATEGY_1_GAMES STRATEGY_2_GAMES t = (Ok queue, t1) ->
    start_game_session queue ALL_GAMES STRATEGY_1_GAMES STRATEGY_2_GAMES
      events t1 = (Ok trace, t2) ->
    forall (k : Z) (shown : prompt),
      (k, shown) ∈ trace ->
      k mod challenges_per_session settings = 0 ->
      shown <> PressAnyKeyPrompt.

(** The kind of a session, as it is chosen in the menu: one game, or
    random picks from a category. *)
Inductive session_kind : Type :=
| SingleGame (game : string)
| RandomPicks (category : string).

(** The games of a category, as [get_game_for_session] reads its name:
    "strategy1", "strategy2", anything else meaning all games. *)
Definition category_games (category : string) : list string :=
  if bool_decide (category = "strategy1") then STRATEGY_1_GAMES
  else if bool_decide (category = "strategy2") then STRATEGY_2_GAMES
  else ALL_GAMES.

(** The menu choice that starts a session of a kind; the menu offers the
    games of [ALL_GAMES] only. *)
Definition menu_choice (kind : session_kind) : string * string :=
  match kind with
  | SingleGame game => ("game", game)
  | RandomPicks category => ("random", category)
  end.

Definition kind_on_menu (kind : session_kind) : Prop :=
  match kind with
  | SingleGame game => game ∈ ALL_GAMES
  | RandomPicks _ => True
  end.

(** The challenges a session of a kind is made of: the game, or the games
    of the category. *)
Definition of_kind (kind : session_kind) (game : string) : Prop :=
  match kind with
  | SingleGame g => game = g
  | RandomPicks category => game ∈ category_games category
  end.

(** The second half of the claim as it is stated: after a round of a
    session, the extend outcome appends 4 copies of the game in a
    single-game session, and 4 random picks from the chosen category
    otherwise. *)
Definition extension_by_random_picks : Prop :=
  forall (kind : session_kind) (challenges_completed : Z)
         (current_game : string) (events : list event) (t t' : tape)
         (c : Continuation),
    kind_on_menu kind ->
    of_kind kind current_game ->
    handle_session_continuation [] challenges_completed current_game
      ALL_GAMES STRATEGY_1_GAMES STRATEGY_2_GAMES
      (Key (ord "y") :: events) t = (Ok (Some c), t') ->
    match kind with
    | SingleGame game =>
        GameSession.games_queue c = replicate 4 game /\ t' = t
    | RandomPicks category =>
        repeatM 4 (select_random_game (category_games category)) t
        = (Ok (GameSession.games_queue c), t')
    end.

(** Twenty rounds of a session of 10: any key between rounds, Y at the
    questions after rounds 10, 14 and 18. *)
Definition twenty_rounds : list event :=
  replicate 9 (Key (ord " ")) ++ [Key (ord "y")]
  ++ replicate 3 (Key (ord " ")) ++ [Key (ord "y")]
  ++ replicate 3 (Key (ord " ")) ++ [Key (ord "y")]
  ++ replicate 2 (Key (ord " ")).

End SessionVocabulary.

(** ** Worked examples *)

(** A digit-span configuration of 5 digits with selective recall. *)
Definition selective_config : DigitSpan.Config :=
  {| DigitSpan.sequence_length := 5; DigitSpan.display_time := 3 # 10;
     DigitSpan.inter_digit_delay := 3 # 20; DigitSpan.backward := false;
     DigitSpan.interference_task := false;
     DigitSpan.selective_recall := true; DigitSpan.ordering := false;
     DigitSpan.instruction :=
       "Remember the sequence but only repeat ODD digits" |}.

(** A tape on which every draw is even. *)
Definition even_tape : tape := fun n => (2 * n)%nat.

(** A tape of varied draws. *)
Definition mixed_tape : tape := fun n => (3 * n + 1)%nat.

(** The level-1 configuration: plain forward recall of 3 digits. *)
Definition forward_config : DigitSpan.Config :=
  {| DigitSpan.sequence_length := 3; DigitSpan.display_time := 1;
     DigitSpan.inter_digit_delay := 1 # 2; DigitSpan.backward := false;
     DigitSpan.interference_task := false;
     DigitSpan.selective_recall := false; DigitSpan.ordering := false;
     DigitSpan.instruction := "Remember the sequence" |}.

(** A round on 1 2 3: a wrong first try (3 2 1 and Enter), three
    backspaces, then 1 2 3 and Enter. *)
Definition retry_keys : list event :=
  [Key 51; Key 50; Key 49; Key 10;
   Key 127; Key 127; Key 127;
   Key 49; Key 50; Key 51; Key 10].

Definition retry_response : DigitSpan.Response :=
  {| DigitSpan.success := true; DigitSpan.response_time := 5 # 2;
     DigitSpan.user_answer := [1; 2; 3]; DigitSpan.wm_exit := false |}.

(** A fresh installation: nothing on disk, everything writable. *)
Definition fresh_disk : @SaveLoad.disk SaveLoad.document :=
  {| SaveLoad.files := ∅; SaveLoad.write_failures := ∅ |}.

(** The level-up scenario: a record at level 3 with an upgrade counter
    of 9, after 12 rounds, and an installation that stores it. *)
Definition level_3_record : SaveLoad.ProgressRecord :=
  {| SaveLoad.level := 3; SaveLoad.upgrade := 9;
     SaveLoad.highest_level_reached := 3;
     SaveLoad.total_challenges := 12;
     SaveLoad.successful_challenges := 10;
     SaveLoad.current_streak := 2; SaveLoad.longest_streak := 6;
     SaveLoad.avg_response_time := 5 # 2; SaveLoad.extras := [] |}.

Definition level_3_disk : @SaveLoad.disk SaveLoad.document :=
  {| SaveLoad.files :=
       {[ SaveLoad.get_absolute_path "/app"
            (SaveLoad.get_game_progress_path "spatial_pattern")
          := SaveLoad.Json (SaveLoad.DocProgress level_3_record) ]};
     SaveLoad.write_failures := ∅ |}.




(** A progress document whose text does not decode, in a file that cannot
    be opened for writing, and the same path with no file at all. *)
Definition corrupt_readonly_disk : @SaveLoad.disk SaveLoad.document :=
  {| SaveLoad.files :=
       {[ SaveLoad.get_absolute_path "/app" "digit_span/digit_span.json"
          := SaveLoad.Garbled ]};
     SaveLoad.write_failures :=
       {[ SaveLoad.get_absolute_path "/app" "digit_span/digit_span.json"
          := SaveLoad.AtOpen ]} |}.

Definition missing_readonly_disk : @SaveLoad.disk SaveLoad.document :=
  {| SaveLoad.files := ∅;
     SaveLoad.write_failures :=
       {[ SaveLoad.get_absolute_path "/app" "digit_span/digit_span.json"
          := SaveLoad.AtOpen ]} |}.

(** A tape that counts: 1, 2, 3, ... *)
Definition counting_tape : tape := S.

(** What Y gives after round 10 of a session, when that round was a
    spatial pattern. *)
Definition extended_session : GameSession.Continuation :=
  {| GameSession.shown := GameSession.SessionCompletePrompt;
     GameSession.continue_session := true;
     GameSession.games_queue := replicate 4 "spatial_pattern";
     GameSession.wm_exit := false;
     GameSession.progress_shown := false;
     GameSession.pending := [] |}.

(** * Further parts of the program *)

(** A selective-recall configuration that asks for no digit at all. *)
Definition empty_selective_config : DigitSpan.Config :=
  {| DigitSpan.sequence_length := 0; DigitSpan.display_time := 3 # 10;
     DigitSpan.inter_digit_delay := 3 # 20; DigitSpan.backward := false;
     DigitSpan.interference_task := false;
     DigitSpan.selective_recall := true; DigitSpan.ordering := false;
     DigitSpan.instruction :=
       "Remember the sequence but only repeat ODD digits" |}.

(** ** digit_span/digit_span.py: the result screen *)

Module DigitSpanDisplay.

(** ["".join(str(digit) for digit in expected)] *)
Definition join_digits (expected : list Z) : string :=
  foldr (fun digit rest => pretty digit +:+ rest) "" expected.

(** [get_correct_answer()]. The two module globals are arguments:
    [current_sequence], and [current_config], [None] being the empty
    dictionary it starts as. On lists of integers nothing in the [try]
    block raises. *)
Definition get_correct_answer (current_sequence : list Z)
    (current_config : option DigitSpan.Config) : string :=
  match current_config with
  | None => "Not available"
  | Some config =>
      if bool_decide (current_sequence = []) then "Not available"
      else
        let expected :=
          DigitSpan.get_expected_answer current_sequence config in
        join_digits expected
  end.

(** The keys that type a list of digits. *)
Definition digit_keys (digits : list Z) : list event :=
  (fun d => Key (ord "0" + d)) <$> digits.

End DigitSpanDisplay.

(** A stimulus longer than the input field. *)
Definition long_sequence : list Z := replicate 21 7.

Definition menu_response : DigitSpan.Response :=
  {| DigitSpan.success := false; DigitSpan.response_time := 0;
     DigitSpan.user_answer := []; DigitSpan.wm_exit := false |}.

(** A stimulus of three digits. *)
Definition three_digits : list Z := [4; 7; 1].

(** ** The interference task of both games *)

Module Interference.

(** The problem and its answer as [show_interference_task] computes them
    before drawing anything: two numbers from 1 to 20 and an operation,
    the operands of a subtraction being swapped when the first is the
    smaller. *)
Definition show_interference_task_problem : M tape (string * Z) :=
  let* num1 := randint 1 20 in
  let* num2 := randint 1 20 in
  let* operation := choice ["+"; "-"] in
  if bool_decide (operation = "+") then
    ret (pretty num1 +:+ " + " +:+ pretty num2 +:+ " = ?", num1 + num2)
  else
    let swapped := if num1 <? num2 then (num2, num1) else (num1, num2) in
    let num1 := swapped.1 in
    let num2 := swapped.2 in
    ret (pretty num1 +:+ " - " +:+ pretty num2 +:+ " = ?", num1 - num2).

End Interference.

(** What the spatial generator returns at level 10 on [mixed_tape]. *)
Definition level_10_spatial_config : SpatialPattern.Config :=
  Eval vm_compute in
    match fst (SpatialPattern.generate_next_challenge_config None 10
                 mixed_tape) with
    | Ok config => config
    | Raise _ =>
        {| SpatialPattern.grid_size := 0; SpatialPattern.pattern_size := 0;
           SpatialPattern.display_time := 0;
           SpatialPattern.interference := false;
           SpatialPattern.use_multiple_highlights := false;
           SpatialPattern.instruction := "" |}
    end.

(** Built-in meta-parameters whose grid never grows, written with a step
    of 0 levels. *)
Definition zero_step_meta : SpatialPattern.Meta :=
  {| SpatialPattern.grid_size_base := 3;
     SpatialPattern.grid_size_increase_every_n_levels := Some 0;
     SpatialPattern.max_grid_size := 7;
     SpatialPattern.min_cells_level_1 := 3;
     SpatialPattern.max_additional_cells_per_level := 2;
     SpatialPattern.display_time_base := 3 # 2;
     SpatialPattern.display_time_reduction_per_level := 1 # 10;
     SpatialPattern.multiple_highlights_intro_level := Some 5;
     SpatialPattern.interference_intro_level := Some 7 |}.

(** A spatial configuration that asks for 10 cells of a 3 x 3 grid. *)
Definition crowded_config : SpatialPattern.Config :=
  {| SpatialPattern.grid_size := 3; SpatialPattern.pattern_size := 10;
     SpatialPattern.display_time := 3 # 2;
     SpatialPattern.interference := false;
     SpatialPattern.use_multiple_highlights := false;
     SpatialPattern.instruction :=
       "Remember the pattern with 10 highlighted cells" |}.

(** A spatial round: up against the top edge, right, select, down, select,
    submit. *)
Definition spatial_keys : list event :=
  [Key (ord "k"); Key (ord "l"); Key (ord " "); Key (ord "j");
   Key (ord " "); Key 10].

Definition spatial_response : SpatialPattern.Response :=
  {| SpatialPattern.success := false; SpatialPattern.response_time := 7 # 4;
     SpatialPattern.user_answer := [(0, 1); (1, 1)];
     SpatialPattern.wm_exit := false |}.

(** An installation on a full disk: the progress document of digit span
    is there, the history is not, and a write to either file fails after
    the file was opened. *)
Definition full_disk : @SaveLoad.disk SaveLoad.document :=
  {| SaveLoad.files :=
       {[ SaveLoad.get_absolute_path "/app"
            (SaveLoad.get_game_progress_path "digit_span")
          := SaveLoad.Json
               (SaveLoad.DocProgress
                  (SaveLoad.default_progress "digit_span")) ]};
     SaveLoad.write_failures :=
       {[ SaveLoad.get_absolute_path "/app"
            (SaveLoad.get_game_progress_path "digit_span")
          := SaveLoad.AtDump ]}
       ∪ {[ SaveLoad.get_absolute_path "/app"
              (SaveLoad.get_game_history_path "digit_span")
            := SaveLoad.AtDump ]} |}.

(** Consecutive rounds of one game: the in-memory update of
    [update_progress] applied to each result in turn, the first error
    ending the run. *)
Fixpoint play_rounds (results : list (bool * Q))
    (p : SaveLoad.ProgressRecord) : outcome SaveLoad.ProgressRecord :=
  match results with
  | [] => Ok p
  | (success, response_time) :: rest =>
      match GameSession.apply_result success response_time p with
      | Ok (_, p') => play_rounds rest p'
      | Raise e => Raise e
      end
  end.

(** A record three successes away from level 6, and one pinned at level 10. *)
Definition almost_up : SaveLoad.ProgressRecord :=
  GameSession.set_upgrade 7
    (GameSession.set_level 5
       (GameSession.set_highest_level_reached 5
          (SaveLoad.default_progress "digit_span"))).

Definition top_level : SaveLoad.ProgressRecord :=
  GameSession.set_level 10
    (GameSession.set_highest_level_reached 10
       (SaveLoad.default_progress "digit_span")).

Definition minus_one_total : SaveLoad.ProgressRecord :=
  GameSession.set_total_challenges (-1)
    (SaveLoad.default_progress "digit_span").

(** Three successes and twelve failures in a row, and [almost_up] after
    one success. *)
Definition three_successes : list (bool * Q) := replicate 3 (true, 5 # 2)%Q.

Definition twelve_failures : list (bool * Q) := replicate 12 (false, 4 # 1)%Q.

Definition almost_up_after : SaveLoad.ProgressRecord :=
  Eval vm_compute in
    match GameSession.apply_result true (5 # 2) almost_up with
    | Ok (_, p') => p'
    | Raise _ => almost_up
    end.

(** The stimulus drawn for [level_10_spatial_config] on [mixed_tape]. *)
Definition stimulus_pattern : list SpatialPattern.cell :=
  Eval vm_compute in
    match fst (SpatialPattern.generate_pattern level_10_spatial_config
                 mixed_tape) with
    | Ok (pattern, _) => pattern
    | Raise _ => []
    end.

Definition stimulus_highlights
    : gmap SpatialPattern.cell SpatialPattern.highlight :=
  match fst (SpatialPattern.generate_pattern level_10_spatial_config
               mixed_tape) with
  | Ok (_, highlights) => highlights
  | Raise _ => ∅
  end.

Definition stimulus_tape : tape :=
  snd (SpatialPattern.generate_pattern level_10_spatial_config mixed_tape).

(** ** main_menu.py: the screens *)

Module MenuScreens.

(** The entries of the main menu: one per game, the three random
    sessions, then settings, progress and quit. *)
Definition menu_options (all_games : list string)
  : list (string * option string) :=
  ((fun game => ("game", Some game)) <$> all_games)
  ++ [("random", Some "strategy1"); ("random", Some "strategy2");
      ("random", Some "all");
      ("settings", None); ("progress", None); ("quit", None)].

(** [menu_options[i]] for an index that is not negative. *)
Definition option_at (menu_options : list (string * option string))
    (i : Z) : outcome (string * option string) :=
  match menu_options !! Z.to_nat i with
  | Some entry => Ok entry
  | None => Raise IndexError
  end.

(** The menu loop of [display_menu]: the returned pair and the value of
    [exiting[0]] at the return; the drawing is left out. *)
Fixpoint menu_loop (menu_options : list (string * option string))
    (current_option : Z) (exiting : bool) (events : list event)
  : option (outcome (string * option string) * bool) :=
  let len := Z.of_nat (length menu_options) in
  if exiting then Some (Ok ("quit", None), exiting)
  else
    match events with
    | [] => None
    | Interrupt :: _ => Some (Ok ("quit", None), true)
    | Key key :: events =>
        if (key =? Curses.KEY_UP) || (key =? ord "k") then
          let current_option := current_option - 1 in
          let current_option :=
            if current_option <? 0 then len - 1 else current_option in
          menu_loop menu_options current_option exiting events
        else if (key =? Curses.KEY_DOWN) || (key =? ord "j") then
          let current_option := current_option + 1 in
          let current_option :=
            if len <=? current_option then 0 else current_option in
          menu_loop menu_options current_option exiting events
        else if (key =? Curses.KEY_ENTER) || (key =? 10) || (key =? 13) then
          Some (option_at menu_options current_option, exiting)
        else if key =? 3 then Some (Ok ("quit", None), true)
        else if key_in key [ord "q"; ord "Q"] then
          Some (Ok ("quit", None), exiting)
        else if key_in key [ord "s"; ord "S"] then
          Some (Ok ("settings", None), exiting)
        else if key_in key [ord "p"; ord "P"] then
          Some (Ok ("progress", None), exiting)
        else if (ord "1" <=? key) && (key <=? ord "9") then
          let index := key - ord "1" in
          if index <? len then Some (option_at menu_options index, exiting)
          else menu_loop menu_options current_option exiting events
        else menu_loop menu_options current_option exiting events
    end.

(** [display_menu], from the first pass of its loop on: the cursor starts
    on the first entry. *)
Definition display_menu (all_games : list string) (exiting : bool)
    (events : list event)
  : option (outcome (string * option string) * bool) :=
  menu_loop (menu_options all_games) 0 exiting events.

(** [int(input_str)] on the strings the edit field can hold, an optional
    sign followed by decimal digits: [ValueError] when no digit follows. *)
Fixpoint digits_value (acc : Z) (s : string) : outcome Z :=
  match s with
  | EmptyString => Ok acc
  | String c rest =>
      match DigitSpan.int_of_char c with
      | Some d => digits_value (10 * acc + d) rest
      | None => Raise ValueError
      end
  end.

Definition py_int (s : string) : outcome Z :=
  let unsigned (s : string) :=
    match s with
    | EmptyString => Raise ValueError
    | _ => digits_value 0 s
    end in
  match s with
  | String "-" rest =>
      match unsigned rest with
      | Ok v => Ok (- v)
      | Raise e => Raise e
      end
  | String "+" rest => unsigned rest
  | _ => unsigned s
  end.

(** What [edit_challenges_per_session] leaves behind: the value of
    [settings['user_settings']['challenges_per_session']], whether
    [save_settings] was called, and [exiting[0]]. *)
Record Edited : Type := {
  challenges_per_session : Z;
  saved : bool;
  exiting : bool
}.

(** The edit loop of [edit_challenges_per_session]. *)
Fixpoint edit_loop (current : Z) (input_str : string)
    (events : list event) : option Edited :=
  match events with
  | [] => None
  | Interrupt :: _ =>
      Some {| challenges_per_session := current; saved := false;
              exiting := true |}
  | Key key :: events =>
      if (key =? Curses.KEY_ENTER) || (key =? 10) || (key =? 13) then
        if bool_decide (input_str = "") then
          edit_loop current input_str events
        else
          match py_int input_str with
          | Ok new_value =>
              if 0 <? new_value then
                Some {| challenges_per_session := new_value; saved := true;
                        exiting := false |}
              else edit_loop current input_str events
          | Raise _ => edit_loop current input_str events
          end
      else if key =? 27 then
        Some {| challenges_per_session := current; saved := false;
                exiting := false |}
      else if key =? 3 then
        Some {| challenges_per_session := current; saved := false;
                exiting := true |}
      else if (key =? Curses.KEY_BACKSPACE) || (key =? 127) || (key =? 8)
      then
        let input_str :=
          if bool_decide (input_str = "") then input_str
          else DigitSpan.drop_last input_str in
        edit_loop current input_str events
      else if (ord "0" <=? key) && (key <=? ord "9") then
        let input_str :=
          if (String.length input_str <? 3)%nat
          then input_str +:+ String (ascii_of_nat (Z.to_nat key)) ""
          else input_str in
        edit_loop current input_str events
      else edit_loop current input_str events
  end.

(** [edit_challenges_per_session]: the field opens on the current value. *)
Definition edit_challenges_per_session (current : Z)
    (events : list event) : option Edited :=
  edit_loop current (pretty current) events.

End MenuScreens.

(** The net movement of a list of navigation keys: up is -1, down is +1. *)
Definition is_up (key : Z) : bool :=
  (key =? Curses.KEY_UP) || (key =? ord "k").

Definition is_down (key : Z) : bool :=
  (key =? Curses.KEY_DOWN) || (key =? ord "j").

Definition net_movement (keys : list Z) : Z :=
  foldr (fun key n => (if is_up key then -1 else 1) + n) 0 keys.

(** A string of decimal digits. *)
Fixpoint all_digits (s : string) : bool :=
  match s with
  | EmptyString => true
  | String c rest =>
      match DigitSpan.int_of_char c with
      | Some _ => all_digits rest
      | None => false
      end
  end.

(** Clearing a two-digit field and typing 25. *)
Definition retype_25 : list event :=
  [Key 127; Key Curses.KEY_BACKSPACE; Key (ord "2"); Key (ord "5");
   Key 10].

(** * Properties *)

(** ** The monad and the random module *)

Section MonadFacts.
Context {S A B : Type}.

Lemma bind_Ok (m : M S A) (k : A -> M S B) s a s' :
  m s = (Ok a, s') -> bind m k s = k a s'.
Proof. intros H. unfold bind. by rewrite H. Qed.

Lemma bind_Raise (m : M S A) (k : A -> M S B) s e s' :
  m s = (Raise e, s') -> bind m k s = (Raise e, s').
Proof. intros H. unfold bind. by rewrite H. Qed.

Lemma bind_ret (a : A) (k : A -> M S B) s : bind (ret a) k s = k a s.
Proof. reflexivity. Qed.

End MonadFacts.

Lemma randint_Ok a b t :
  a <= b ->
  exists v, randint a b t = (Ok v, advance t) /\ a <= v <= b.
Proof.
  intros Hab. unfold randint.
  destruct (Z.leb_spec a b) as [_|]; [|lia].
  eexists. split; [reflexivity|].
  pose proof (Z.mod_pos_bound (Z.of_nat (t O)) (b - a + 1)). lia.
Qed.

Lemma choice_Ok {A} (l : list A) t :
  l <> [] -> exists x, choice l t = (Ok x, advance t) /\ x ∈ l.
Proof.
  destruct l as [|x l]; [done|]. intros _. unfold choice.
  eexists. split; [reflexivity|].
  apply list_elem_of_In, nth_In.
  apply Nat.mod_upper_bound. simpl. lia.
Qed.

Lemma choice_bool t :
  exists b : bool, choice [true; false] t = (Ok b, advance t).
Proof. destruct (choice_Ok [true; false] t) as (b & H & _); eauto. Qed.

Lemma repeatM_randint n a b t :
  a <= b ->
  exists l t', repeatM n (randint a b) t = (Ok l, t')
    /\ length l = n /\ Forall (fun v => a <= v <= b) l.
Proof.
  intros Hab. revert t. induction n as [|n IH]; intros t.
  - exists [], t. repeat split. constructor.
  - destruct (randint_Ok a b t Hab) as (v & Hv & Hr).
    destruct (IH (advance t)) as (l & t' & Hl & Hn & Hf).
    exists (v :: l), t'. simpl.
    rewrite (bind_Ok _ _ _ _ _ Hv), (bind_Ok _ _ _ _ _ Hl).
    repeat split; [simpl; congruence|by constructor].
Qed.

(** ** Digit span *)

Section DigitSpanFacts.
Import DigitSpan.

(** [d % 2 == 1] holds of the odd integers, negative ones included. *)
Lemma is_odd_spec d : is_odd d = true <-> Z.Odd d.
Proof.
  unfold is_odd, Z.Odd. rewrite Z.eqb_eq.
  split.
  - intros H. exists (d `div` 2). pose proof (Z.div_mod d 2). lia.
  - intros [k ->]. rewrite Z.add_comm, Z.mul_comm, Z.mod_add; done.
Qed.

Lemma filter_is_odd (l : list Z) :
  filter (fun d => is_odd d = true) l = filter Z.Odd l.
Proof.
  apply list_filter_iff. intros d. apply is_odd_spec.
Qed.

Lemma sorted_Sorted (l : list Z) : Sorted Z.le (sorted l).
Proof. apply (Sorted_merge_sort Z.le). Qed.

Lemma sorted_Permutation (l : list Z) : sorted l ≡ₚ l.
Proof. apply (merge_sort_Permutation Z.le). Qed.

Lemma sorted_unique (a l : list Z) :
  Sorted Z.le a -> a ≡ₚ l -> a = sorted l.
Proof.
  intros Ha Hp. apply (Sorted_unique Z.le); [done|apply sorted_Sorted|].
  by rewrite Hp, sorted_Permutation.
Qed.


(** C5. The expected answer is derived by exactly one rule, in the order
    backward (the reversed sequence), selective recall (the odd digits in
    their original order), ordering (the sequence sorted ascending), else
    the sequence itself: an answer is the expected one if and only if the
    rule of highest priority that applies derives it. In particular, with
    no flag set the expected answer is the stimulus. *)
Theorem get_expected_answer_priority (sequence : list Z) (config : Config) :
  (forall a, get_expected_answer sequence config = a
             <-> derived sequence config a)
  /\ (backward config = false -> selective_recall config = false ->
      ordering config = false ->
      get_expected_answer sequence config = sequence).
Proof.
  split.
  - intros a. unfold get_expected_answer. split.
    + intros <-.
      destruct (backward config) eqn:Hb; [by constructor|].
      destruct (selective_recall config) eqn:Hs.
      { rewrite filter_is_odd. by constructor. }
      destruct (ordering config) eqn:Ho; [|by constructor].
      apply by_ordering; auto using sorted_Sorted, sorted_Permutation.
    + intros [Hb|Hb Hs|a' Hb Hs Ho Hsort Hperm|Hb Hs Ho];
        rewrite ?Hb, ?Hs, ?Ho; try done.
      * by rewrite filter_is_odd.
      * symmetry. by apply sorted_unique.
  - intros Hb Hs Ho. unfold get_expected_answer. by rewrite Hb, Hs, Ho.
Qed.

End DigitSpanFacts.

Section DigitSpanGenerators.
Import DigitSpan.

(** One feature flag: drawn by a coin flip from the introduction level on,
    left alone below it. *)
Lemma flag_step (intro level : Z) (f : bool -> Config -> Config)
    (config : Config) t :
  exists (c : Config) t',
    (if intro <=? level
     then let* b := choice [true; false] in ret (f b config)
     else ret config) t = (Ok c, t')
    /\ (c = config \/ exists b, c = f b config).
Proof.
  destruct (intro <=? level).
  - destruct (choice_bool t) as [b Hb].
    exists (f b config), (advance t).
    rewrite (bind_Ok _ _ _ _ _ Hb). split; [done|eauto].
  - exists config, t. split; [done|by left].
Qed.

(** C4. Whatever the level, the meta-parameters and the coin flips, the
    generator returns a configuration, and that configuration obeys the
    mutual-exclusion policy: backward is off whenever selective recall or
    ordering is on, and selective recall is off whenever ordering is on. *)
Theorem generate_next_challenge_config_exclusion
    (meta_section : option Meta) (level : Z) (t : tape) :
  exists (config : Config) (t' : tape),
    generate_next_challenge_config meta_section level t = (Ok config, t')
    /\ ((selective_recall config = true \/ ordering config = true) ->
        backward config = false)
    /\ (ordering config = true -> selective_recall config = false).
Proof.
  unfold generate_next_challenge_config.
  set (meta := match meta_section with Some m => m | None => default_meta end).
  match goal with |- context [bind _ ?k] => set (k1 := k) end.
  match goal with |- context [bind ?m k1] => set (m1 := m) end.
  destruct (flag_step (backward_intro_level meta) level set_backward
              (set_inter_digit_delay
                 (pymax (1 # 10)
                    (base_delay_time meta
                     - inject_Z (level - 1)
                       * delay_time_reduction_per_level meta))
                 (set_display_time
                    (pymax (3 # 10)
                       (base_display_time meta
                        - inject_Z (level - 1)
                          * display_time_reduction_per_level meta))
                    (set_sequence_length
                       (min_digits_level_1 meta
                        + (level - 1) * max_additional_digits_per_level meta)
                       {| sequence_length := 0; display_time := 0;
                          inter_digit_delay := 0; backward := false;
                          interference_task := false;
                          selective_recall := false; ordering := false;
                          instruction := "" |}))) t)
    as (c1 & t1 & H1 & Hc1).
  assert (Hs1 : selective_recall c1 = false /\ ordering c1 = false).
  { destruct Hc1 as [->|[b ->]]; done. }
  clear Hc1. subst m1. rewrite (bind_Ok _ _ _ _ _ H1). subst k1. cbv beta.
  destruct (flag_step (interference_intro_level meta) level
              set_interference_task c1 t1) as (c2 & t2 & H2 & Hc2).
  assert (Hs2 : selective_recall c2 = false /\ ordering c2 = false).
  { destruct Hc2 as [->|[b ->]]; done. }
  clear Hc2 Hs1. rewrite (bind_Ok _ _ _ _ _ H2).
  (* selective recall *)
  assert (exists c3 t3,
    (if selective_recall_intro_level meta <=? level
     then let* b := choice [true; false] in
          let config := set_selective_recall b c2 in
          ret (if selective_recall config
               then set_backward false config else config)
     else ret c2) t2 = (Ok c3, t3)
    /\ ordering c3 = false
    /\ (selective_recall c3 = true -> backward c3 = false))
    as (c3 & t3 & H3 & Ho3 & Hsb3).
  { destruct (selective_recall_intro_level meta <=? level).
    - destruct (choice_bool t2) as [b Hb].
      rewrite (bind_Ok _ _ _ _ _ Hb).
      eexists _, _. split; [reflexivity|].
      destruct b; simpl; split; try done; apply Hs2.
    - exists c2, t2. split; [done|]. destruct Hs2 as [-> ->]. done. }
  rewrite (bind_Ok _ _ _ _ _ H3).
  (* ordering *)
  assert (exists c4 t4,
    (if ordering_intro_level meta <=? level
     then let* b := choice [true; false] in
          let config := set_ordering b c3 in
          ret (if ordering config
               then set_selective_recall false (set_backward false config)
               else config)
     else ret c3) t3 = (Ok c4, t4)
    /\ ((selective_recall c4 = true \/ ordering c4 = true) ->
        backward c4 = false)
    /\ (ordering c4 = true -> selective_recall c4 = false))
    as (c4 & t4 & H4 & Hx & Hy).
  { destruct (ordering_intro_level meta <=? level).
    - destruct (choice_bool t3) as [b Hb].
      rewrite (bind_Ok _ _ _ _ _ Hb).
      eexists _, _. split; [reflexivity|].
      destruct b; simpl;
        (split; [intros [?|?]; auto; congruence | congruence]).
    - exists c3, t3. split; [done|]. split.
      + intros [?|?]; [auto|congruence].
      + congruence. }
  rewrite (bind_Ok _ _ _ _ _ H4).
  exists (set_instruction (get_instruction_text c4) c4), t4.
  split; [reflexivity|]. simpl. auto.
Qed.

Lemma list_assign_Ok (sequence : list Z) (i v : Z) (t : tape) :
  0 <= i < Z.of_nat (length sequence) ->
  list_assign sequence i v t = (Ok (<[Z.to_nat i := v]> sequence), t).
Proof.
  intros Hi. unfold list_assign.
  destruct (Z.leb_spec 0 i); [|lia].
  destruct (Z.ltb_spec i (Z.of_nat (length sequence))); [|lia]. done.
Qed.

(** C6. With selective recall on and a sequence length of at least one,
    the stimulus generator returns, for every outcome of the draws, a
    sequence of exactly [sequence_length] digits, each between 0 and 9, at
    least one of which is odd. *)
Theorem generate_sequence_selective_recall (config : Config) (t : tape) :
  selective_recall config = true ->
  1 <= sequence_length config ->
  exists (sequence : list Z) (t' : tape),
    generate_sequence config t = (Ok sequence, t')
    /\ Z.of_nat (length sequence) = sequence_length config
    /\ Forall (fun d => 0 <= d <= 9) sequence
    /\ Exists Z.Odd sequence.
Proof.
  intros Hsel Hlen. unfold generate_sequence. rewrite Hsel.
  destruct (repeatM_randint (Z.to_nat (sequence_length config)) 0 9 t)
    as (l & t1 & Hl & Hn & Hf); [lia|].
  rewrite (bind_Ok _ _ _ _ _ Hl).
  destruct (existsb is_odd l) eqn:Hodd; simpl.
  - exists l, t1. repeat split; [lia|done|].
    apply existsb_exists in Hodd as (d & Hd & Hdo).
    apply Exists_exists. exists d. split; [by apply list_elem_of_In|].
    by apply is_odd_spec.
  - destruct (choice_Ok [1; 3; 5; 7; 9] t1) as (v & Hv & Hin); [done|].
    rewrite (bind_Ok _ _ _ _ _ Hv).
    destruct (randint_Ok 0 (sequence_length config - 1) (advance t1))
      as (i & Hi & Hr); [lia|].
    rewrite (bind_Ok _ _ _ _ _ Hi).
    rewrite list_assign_Ok by lia.
    exists (<[Z.to_nat i := v]> l), (advance (advance t1)).
    assert (Hlt : (Z.to_nat i < length l)%nat) by lia.
    assert (Hv9 : 0 <= v <= 9 /\ Z.Odd v).
    { rewrite <- is_odd_spec.
      repeat (apply elem_of_cons in Hin as [->|Hin]; [done|]).
      by apply elem_of_nil in Hin. }
    repeat split.
    + rewrite length_insert. lia.
    + apply Forall_insert; [done|apply Hv9].
    + apply Exists_exists. exists v. split; [|apply Hv9].
      apply list_elem_of_lookup. exists (Z.to_nat i).
      by apply list_lookup_insert_eq.
Qed.

(** An instance: [selective_config] on a tape of even draws, where the
    forced odd digit is needed. *)
Lemma generate_sequence_selective_recall_witness :
  selective_recall selective_config = true
  /\ 1 <= sequence_length selective_config
  /\ exists (sequence : list Z) (t' : tape),
       generate_sequence selective_config even_tape = (Ok sequence, t')
       /\ Z.of_nat (length sequence) = sequence_length selective_config
       /\ Forall (fun d => 0 <= d <= 9) sequence
       /\ Exists Z.Odd sequence.
Proof.
  split; [reflexivity|]. split; [cbn; lia|].
  apply (generate_sequence_selective_recall selective_config even_tape).
  - reflexivity.
  - cbn. lia.
Defined.

End DigitSpanGenerators.

(** ** Grading *)

Section Grading.
Import DigitSpan.




Section Cells.
Import SpatialPattern.

#[local] Instance cell_le_total : Total cell_le.
Proof. intros [a b] [c d]. unfold cell_le. simpl. lia. Qed.

#[local] Instance cell_le_trans : Transitive cell_le.
Proof. intros [a b] [c d] [e f]. unfold cell_le. simpl. lia. Qed.

#[local] Instance cell_le_antisymm : AntiSymm (=) cell_le.
Proof.
  intros [a b] [c d]. unfold cell_le. simpl. intros H1 H2.
  f_equal; lia.
Qed.

Lemma cells_sorted_Permutation (l : list cell) :
  SpatialPattern.sorted l ≡ₚ l.
Proof. apply (merge_sort_Permutation cell_le). Qed.

Lemma cells_sorted_eq_iff (l1 l2 : list cell) :
  SpatialPattern.sorted l1 = SpatialPattern.sorted l2 <-> l1 ≡ₚ l2.
Proof.
  split.
  - intros H.
    by rewrite <- (cells_sorted_Permutation l1), H, cells_sorted_Permutation.
  - intros H. apply (Sorted_unique cell_le);
      try apply (Sorted_merge_sort cell_le).
    by rewrite !cells_sorted_Permutation.
Qed.

(** On duplicate-free lists, comparing the sorted lists is comparing the
    sets of cells. *)
Lemma positions_match_set (selected_cells pattern : list cell) :
  NoDup selected_cells -> NoDup pattern ->
  positions_match selected_cells pattern = true
  <-> (forall p, p ∈ selected_cells <-> p ∈ pattern).
Proof.
  intros Hs Hp. unfold positions_match.
  rewrite bool_decide_eq_true, cells_sorted_eq_iff. split.
  - intros H p. by rewrite H.
  - intros H. by apply NoDup_Permutation.
Qed.


End Cells.


End Grading.

(** ** The answer loops *)

Section AnswerLoops.

(** C10. Whenever the digit-span answer loop returns, either it was left
    through a validated answer, and then the result is a success carrying
    exactly the expected answer and the measured time, or it was left for
    the menu or by cancellation, and then the result is a failure with
    response time 0 and an empty answer. No returned failure carries a
    submitted answer or a positive time. *)
Theorem digit_span_response_shape (sequence : list Z)
    (config : DigitSpan.Config) (elapsed : Q) (events : list event)
    (r : DigitSpan.Response) :
  DigitSpan.get_user_response sequence config elapsed events
  = Some (Ok r) ->
  (DigitSpan.success r = true
   /\ DigitSpan.user_answer r = DigitSpan.get_expected_answer sequence config
   /\ DigitSpan.response_time r = elapsed)
  \/ (DigitSpan.success r = false
      /\ DigitSpan.response_time r = 0%Q
      /\ DigitSpan.user_answer r = []).
Proof.
  unfold DigitSpan.get_user_response.
  generalize (DigitSpan.get_expected_answer sequence config).
  intros expected.
  (* the property holds from every state of the loop *)
  assert (Hloop :
    forall (user_input validation_feedback : string),
      DigitSpan.input_loop expected config elapsed user_input
        validation_feedback events = Some (Ok r) ->
      (DigitSpan.success r = true
       /\ DigitSpan.user_answer r = expected
       /\ DigitSpan.response_time r = elapsed)
      \/ (DigitSpan.success r = false
          /\ DigitSpan.response_time r = 0%Q
          /\ DigitSpan.user_answer r = [])); [|by apply Hloop].
  induction events as [|ev events IH]; intros user_input feedback;
    cbn [DigitSpan.input_loop];
    (* a pass that cannot redraw the field does not return *)
    (destruct (DigitSpan.max_input_len <=? String.length user_input)%nat;
     [done|]); [done|].
  destruct ev as [key|].
  2: { intros [= <-]. right. done. }
  (* Ctrl-C and M leave with the failure triple *)
  destruct (key =? 3); [intros [= <-]; right; done|].
  destruct (key_in key [ord "m"; ord "M"]); [intros [= <-]; right; done|].
  (* Enter leaves only on the expected answer *)
  destruct (key_in key [Curses.KEY_ENTER; 10; 13]).
  { case_bool_decide as Heq.
    - intros [= <-]. left. cbn. done.
    - apply IH. }
  (* every other key stays in the loop *)
  destruct ((key =? Curses.KEY_BACKSPACE) || (key =? 127)); [apply IH|].
  destruct ((ord "0" <=? key) && (key <=? ord "9")); apply IH.
Qed.

(** An instance: the round of [retry_keys]. *)
Lemma digit_span_response_shape_witness :
  DigitSpan.get_user_response [1; 2; 3] forward_config (5 # 2) retry_keys
  = Some (Ok retry_response)
  /\ ((DigitSpan.success retry_response = true
       /\ DigitSpan.user_answer retry_response
          = DigitSpan.get_expected_answer [1; 2; 3] forward_config
       /\ DigitSpan.response_time retry_response = 5 # 2)
      \/ (DigitSpan.success retry_response = false
          /\ DigitSpan.response_time retry_response = 0%Q
          /\ DigitSpan.user_answer retry_response = [])).
Proof.
  split; [vm_compute; reflexivity|].
  apply (digit_span_response_shape [1; 2; 3] forward_config (5 # 2)
           retry_keys retry_response).
  vm_compute. reflexivity.
Defined.

(** The loop does end once a key that leaves it is typed: M, here. *)
Lemma digit_input_loop_returns (expected : list Z)
    (config : DigitSpan.Config) (elapsed : Q) (events rest : list event) :
  forall user_input validation_feedback : string,
    exists r,
      DigitSpan.input_loop expected config elapsed user_input
        validation_feedback (events ++ Key (ord "m") :: rest) = Some r.
Proof.
  induction events as [|ev events IH]; intros user_input feedback.
  - cbn [app DigitSpan.input_loop].
    destruct (_ <=? _)%nat; [eauto|].
    change (ord "m" =? 3) with false.
    change (key_in (ord "m") [ord "m"; ord "M"]) with true.
    cbv iota. eauto.
  - cbn [app DigitSpan.input_loop].
    destruct (_ <=? _)%nat; [eauto|]. destruct ev as [key|]; [|eauto].
    repeat (match goal with
            | |- context [if ?b then _ else _] => destruct b
            end; eauto).
Qed.

(** The cells selected in the spatial game never repeat. *)
Lemma spatial_input_loop_NoDup (pattern : list SpatialPattern.cell)
    (config : SpatialPattern.Config) (elapsed : Q) (events : list event) :
  forall (cursor_pos : SpatialPattern.cell)
         (selected_cells : list SpatialPattern.cell)
         (r : SpatialPattern.Response),
    NoDup selected_cells ->
    SpatialPattern.input_loop pattern config elapsed cursor_pos
      selected_cells events = Some r ->
    NoDup (SpatialPattern.user_answer r)
    /\ (SpatialPattern.success r = true ->
        SpatialPattern.positions_match (SpatialPattern.user_answer r) pattern
        = true).
Proof.
  assert (Hrm : forall (x : SpatialPattern.cell) l,
             NoDup l -> NoDup (SpatialPattern.remove_first x l)).
  { intros x l. induction 1 as [|y l Hy Hl IH]; simpl; [constructor|].
    case_bool_decide; [done|]. constructor; [|done].
    intros Hin. apply Hy. clear -Hin.
    induction l as [|z l IHl]; simpl in *; [done|].
    case_bool_decide; [by right|].
    apply elem_of_cons in Hin as [->|Hin]; [by left|right; auto]. }
  induction events as [|ev events IH]; intros cursor sel r Hnd; [done|].
  destruct ev as [key|]; cbn [SpatialPattern.input_loop].
  2: { intros [= <-]. split; [constructor|done]. }
  destruct (key =? 3); [intros [= <-]; split; [constructor|done]|].
  destruct (key_in key [ord "m"; ord "M"]);
    [intros [= <-]; split; [constructor|done]|].
  destruct (key_in key [ord "s"; ord "S"; Curses.KEY_ENTER; 10; 13]);
    [intros [= <-]; split; done|].
  destruct (key =? ord " ").
  { apply IH. case_bool_decide as Hin; [by apply Hrm|].
    destruct (_ <? _); [|done].
    apply NoDup_app. repeat split; [done| |apply NoDup_singleton].
    intros x Hx Hx'. apply list_elem_of_singleton in Hx' as ->. done. }
  repeat (match goal with
          | |- context [if ?b then _ else _] => destruct b
          end; try (by apply IH)).
Qed.

(** A spatial round is a success only for the set of cells shown. *)
Lemma spatial_success_same_cells (pattern : list SpatialPattern.cell)
    (config : SpatialPattern.Config) (elapsed : Q) (events : list event)
    (r : SpatialPattern.Response) :
  NoDup pattern ->
  SpatialPattern.get_user_response pattern config elapsed events = Some r ->
  SpatialPattern.success r = true ->
  forall p, p ∈ SpatialPattern.user_answer r <-> p ∈ pattern.
Proof.
  intros Hp Hrun Hs.
  apply spatial_input_loop_NoDup in Hrun as [Hnd Hm]; [|constructor].
  by apply positions_match_set; auto.
Qed.

End AnswerLoops.

(** ** Spatial pattern *)

Section SpatialFacts.
Import SpatialPattern.

(** Sampling [k] elements from a pool of at least [k] never fails and
    yields a sub-multiset of the pool. *)
Lemma sample_go_Ok {A} (k : nat) :
  forall (pool : list A) (t : tape),
    (k <= length pool)%nat ->
    exists l t', sample_go k pool t = (Ok l, t')
                 /\ length l = k /\ l ⊆+ pool.
Proof.
  induction k as [|k IH]; intros pool t Hk.
  - exists [], t. repeat split. apply submseteq_nil_l.
  - destruct pool as [|x pool]; [simpl in Hk; lia|].
    cbn [sample_go].
    set (i := (t O mod length (x :: pool))%nat).
    assert (Hi : (i < length (x :: pool))%nat).
    { apply Nat.mod_upper_bound. simpl. lia. }
    destruct (lookup_lt_is_Some_2 _ _ Hi) as [y Hy].
    destruct (IH (delete i (x :: pool)) (advance t)) as (l & t' & Hl & Hn & Hs).
    { rewrite length_delete by eauto. simpl in *. lia. }
    exists (y :: l), t'.
    unfold bind at 1. unfold draw. fold i.
    rewrite (bind_Ok _ _ _ _ _ Hl).
    rewrite (nth_lookup_Some _ _ _ _ Hy).
    repeat split; [simpl; congruence|].
    rewrite (delete_Permutation _ _ _ Hy). by apply submseteq_skip.
Qed.

Lemma sample_Ok {A} (population : list A) (k : Z) (t : tape) :
  0 <= k <= Z.of_nat (length population) ->
  exists l t', sample population k t = (Ok l, t')
               /\ Z.of_nat (length l) = k /\ l ⊆+ population.
Proof.
  intros Hk. unfold sample.
  destruct (Z.ltb_spec k 0); [lia|].
  destruct (Z.ltb_spec (Z.of_nat (length population)) k); [lia|]. simpl.
  destruct (sample_go_Ok (Z.to_nat k) population t) as (l & t' & H1 & H2 & H3);
    [lia|].
  exists l, t'. repeat split; [done|lia|done].
Qed.

Lemma submseteq_NoDup {A} (l k : list A) : l ⊆+ k -> NoDup k -> NoDup l.
Proof.
  intros [k' Hk]%submseteq_Permutation Hnd.
  rewrite Hk in Hnd. by apply NoDup_app in Hnd as (? & _ & _).
Qed.

Lemma elem_of_all_positions (n : Z) (p : cell) :
  p ∈ all_positions n <-> (0 <= p.1 < n /\ 0 <= p.2 < n).
Proof.
  unfold all_positions. rewrite list_elem_of_bind. split.
  - intros (row & Hp & Hrow).
    apply list_elem_of_bind in Hp as (col & Hp & Hcol).
    apply list_elem_of_singleton in Hp as ->.
    apply elem_of_seqZ in Hrow, Hcol. simpl. lia.
  - intros [H1 H2]. exists p.1. split; [|apply elem_of_seqZ; lia].
    apply list_elem_of_bind. exists p.2.
    split; [|apply elem_of_seqZ; lia].
    destruct p. apply list_elem_of_singleton. done.
Qed.

Lemma NoDup_all_positions (n : Z) : NoDup (all_positions n).
Proof.
  unfold all_positions. apply NoDup_bind; [| |apply NoDup_seqZ].
  - intros r1 r2 p _ _ H1 H2.
    apply list_elem_of_bind in H1 as (c1 & H1 & _).
    apply list_elem_of_bind in H2 as (c2 & H2 & _).
    apply list_elem_of_singleton in H1, H2. congruence.
  - intros row _. apply NoDup_bind; [| |apply NoDup_seqZ].
    + intros c1 c2 p _ _ H1 H2.
      apply list_elem_of_singleton in H1, H2. congruence.
    + intros. apply NoDup_singleton.
Qed.

Lemma length_all_positions (n : Z) :
  length (all_positions n) = (Z.to_nat n * Z.to_nat n)%nat.
Proof.
  unfold all_positions.
  assert (Hinner : forall (row : Z) (l : list Z),
             length (l ≫= (fun col => [(row, col)])) = length l).
  { intros row l. induction l as [|c l IH]; [done|].
    rewrite bind_cons, length_app, IH. done. }
  assert (Houter : forall (l : list Z),
             length (l ≫= (fun row => seqZ 0 n ≫= (fun col => [(row, col)])))
             = (length l * Z.to_nat n)%nat).
  { intros l. induction l as [|r l IH]; [done|].
    rewrite bind_cons, length_app, IH, Hinner, length_seqZ. simpl. lia. }
  rewrite Houter, length_seqZ. done.
Qed.

Lemma assign_highlights_Ok (types : list highlight) (pattern : list cell) :
  types <> [] ->
  forall highlights t,
    exists hs t', assign_highlights types pattern highlights t = (Ok hs, t').
Proof.
  intros Hne. induction pattern as [|pos rest IH]; intros hs t.
  - exists hs, t. done.
  - destruct (choice_Ok types t Hne) as (h & Hh & _).
    cbn [assign_highlights]. rewrite (bind_Ok _ _ _ _ _ Hh). apply IH.
Qed.

(** The stimulus generator succeeds on every configuration whose pattern
    fits the grid. *)
Lemma generate_pattern_Ok (config : Config) (t : tape) :
  0 <= grid_size config ->
  0 <= pattern_size config <= grid_size config * grid_size config ->
  exists pattern highlights t',
    generate_pattern config t = (Ok (pattern, highlights), t')
    /\ Z.of_nat (length pattern) = pattern_size config
    /\ NoDup pattern
    /\ Forall (fun p => 0 <= p.1 < grid_size config
                        /\ 0 <= p.2 < grid_size config) pattern.
Proof.
  intros Hgrid Hsize. unfold generate_pattern.
  destruct (sample_Ok (all_positions (grid_size config))
              (pattern_size config) t) as (l & t1 & Hl & Hn & Hsub).
  { rewrite length_all_positions. nia. }
  rewrite (bind_Ok _ _ _ _ _ Hl).
  assert (Hperm : sorted l ≡ₚ l) by apply cells_sorted_Permutation.
  assert (Hgood : Z.of_nat (length (sorted l)) = pattern_size config
                  /\ NoDup (sorted l)
                  /\ Forall (fun p => 0 <= p.1 < grid_size config
                                      /\ 0 <= p.2 < grid_size config)
                            (sorted l)).
  { rewrite Hperm. split; [done|]. split.
    - eapply submseteq_NoDup; [done|apply NoDup_all_positions].
    - apply Forall_forall. intros p Hp.
      apply elem_of_all_positions. by eapply elem_of_submseteq. }
  destruct (use_multiple_highlights config).
  - destruct (sample_Ok HIGHLIGHT_PATTERNS
                (Z.min 3 (Z.of_nat (length HIGHLIGHT_PATTERNS))) t1)
      as (ts & t2 & Hts & Hnts & _); [simpl; lia|].
    rewrite (bind_Ok _ _ _ _ _ Hts).
    destruct (assign_highlights_Ok ts (sorted l)) with (highlights := (∅ : gmap cell highlight)) (t := t2)
      as (hs & t3 & Hhs).
    { intros ->. simpl in Hnts. lia. }
    rewrite (bind_Ok _ _ _ _ _ Hhs). eauto 10.
  - eauto 10.
Qed.

(** The sizes computed by the parameter generator. *)
Lemma spatial_config_shape (meta_section : option Meta) (level : Z)
    (t : tape) :
  let meta := match meta_section with Some m => m | None => default_meta end in
  let n := default 2 (grid_size_increase_every_n_levels meta) in
  let gs :=
    grid_size_base meta
    + Z.min ((level - 1) `div` n) (max_grid_size meta - grid_size_base meta) in
  let min_cells :=
    min_cells_level_1 meta
    + (level - 1) * max_additional_cells_per_level meta in
  let max_cells :=
    Z.min (min_cells + max_additional_cells_per_level meta) (gs * gs - 1) in
  n <> 0 -> min_cells <= max_cells ->
  exists config t',
    generate_next_challenge_config meta_section level t = (Ok config, t')
    /\ grid_size config = gs
    /\ min_cells <= pattern_size config <= max_cells.
Proof.
  intros meta n gs min_cells max_cells Hn Hle.
  unfold generate_next_challenge_config. fold meta. fold n.
  unfold floordiv. destruct (Z.eqb_spec n 0); [done|].
  rewrite bind_ret. fold gs. fold min_cells. fold max_cells.
  destruct (randint_Ok min_cells max_cells t Hle) as (ps & Hps & Hr).
  rewrite (bind_Ok _ _ _ _ _ Hps).
  set (t1 := advance t).
  assert (Hflag : forall intro t0,
            exists (b : bool) t0',
              (if intro <=? level then choice [true; false] else ret false) t0
              = (Ok b, t0')).
  { intros intro t0. destruct (intro <=? level).
    - destruct (choice_bool t0) as [b Hb]. eauto.
    - eauto. }
  destruct (Hflag (default 7 (interference_intro_level meta)) t1)
    as (b1 & t2 & Hb1).
  rewrite (bind_Ok _ _ _ _ _ Hb1).
  destruct (Hflag (default 5 (multiple_highlights_intro_level meta)) t2)
    as (b2 & t3 & Hb2).
  rewrite (bind_Ok _ _ _ _ _ Hb2).
  eexists _, _. split; [reflexivity|]. simpl. done.
Qed.

(** C7. For every level from 1 to 10 and the built-in meta-parameters (the
    fallback of the generator, the module's default settings and the
    default settings of the document store), the parameter generator
    returns, for every outcome of the draws, a configuration with
    1 <= pattern_size <= grid_size^2 - 1; on it the stimulus generator
    never fails: it returns pattern_size distinct cells of the grid. *)
Theorem spatial_pattern_size_fits_grid
    (meta_section : option Meta) (level : Z) (t : tape) :
  meta_section = None \/ meta_section = Some default_meta
  \/ meta_section = Some save_load_default_meta ->
  1 <= level <= 10 ->
  exists (config : Config) (t' : tape),
    generate_next_challenge_config meta_section level t = (Ok config, t')
    /\ 1 <= pattern_size config <= grid_size config * grid_size config - 1
    /\ forall t2 : tape,
         exists pattern highlights t3,
           generate_pattern config t2 = (Ok (pattern, highlights), t3)
           /\ Z.of_nat (length pattern) = pattern_size config
           /\ NoDup pattern
           /\ Forall (fun p => 0 <= p.1 < grid_size config
                               /\ 0 <= p.2 < grid_size config) pattern.
Proof.
  intros Hmeta Hlevel.
  assert (Hl : level = 1 \/ level = 2 \/ level = 3 \/ level = 4 \/ level = 5
               \/ level = 6 \/ level = 7 \/ level = 8 \/ level = 9
               \/ level = 10) by lia.
  assert (exists config t',
            generate_next_challenge_config meta_section level t
            = (Ok config, t')
            /\ 0 <= grid_size config
            /\ 1 <= pattern_size config
               <= grid_size config * grid_size config - 1)
    as (config & t' & Hgen & Hgrid & Hsize).
  { destruct (spatial_config_shape meta_section level t)
      as (config & t' & Hgen & Hgs & Hps).
    - destruct Hmeta as [-> | [-> | ->]]; done.
    - destruct Hmeta as [-> | [-> | ->]];
        repeat (destruct Hl as [-> | Hl]; [vm_compute; discriminate|]);
        subst level; vm_compute; discriminate.
    - exists config, t'. split; [done|]. rewrite Hgs. clear Hgen Hgs.
      destruct Hmeta as [-> | [-> | ->]];
        repeat (destruct Hl as [-> | Hl];
                [revert Hps; vm_compute Z.min; vm_compute Z.add; lia|]);
        subst level; revert Hps; vm_compute Z.min; vm_compute Z.add; lia. }
  exists config, t'. split; [done|]. split; [done|].
  intros t2. apply generate_pattern_Ok; lia.
Qed.

(** An instance: level 10 with the fallback meta-parameters. *)
Lemma spatial_pattern_size_fits_grid_witness :
  (@None Meta = None \/ @None Meta = Some default_meta
   \/ @None Meta = Some save_load_default_meta)
  /\ 1 <= 10 <= 10
  /\ exists (config : Config) (t' : tape),
       generate_next_challenge_config None 10 mixed_tape = (Ok config, t')
       /\ 1 <= pattern_size config
          <= grid_size config * grid_size config - 1
       /\ forall t2 : tape,
            exists pattern highlights t3,
              generate_pattern config t2 = (Ok (pattern, highlights), t3)
              /\ Z.of_nat (length pattern) = pattern_size config
              /\ NoDup pattern
              /\ Forall (fun p => 0 <= p.1 < grid_size config
                                  /\ 0 <= p.2 < grid_size config) pattern.
Proof.
  split; [left; reflexivity|]. split; [lia|].
  apply (spatial_pattern_size_fits_grid None 10 mixed_tape).
  - left. reflexivity.
  - lia.
Defined.

End SpatialFacts.

(** ** The document store *)

Section StoreFacts.
Import SaveLoad.
Context {D : Type}.
Variable ROOT_DIR : string.

Abbreviation abs := (get_absolute_path ROOT_DIR).

Lemma write_failures_None (path : string) (fs : @disk D) :
  path ∉ unwritable fs <-> write_failures fs !! path = None.
Proof. unfold unwritable. apply not_elem_of_dom. Qed.

Lemma write_failures_Some (path : string) (fs : @disk D)
    (stage : write_failure) :
  write_failures fs !! path = Some stage -> path ∈ unwritable fs.
Proof. unfold unwritable. intros H. apply elem_of_dom. eauto. Qed.

Lemma write_json_Ok (sync : bool) (path : string) (d : D) (fs : disk) :
  abs path ∉ unwritable fs ->
  write_json sync (abs path) d fs = (Ok tt, written ROOT_DIR path d fs).
Proof.
  intros H. apply write_failures_None in H. unfold write_json.
  by rewrite H.
Qed.

(** A write that fails: what is raised and what is left. A write that is
    not synchronised does not fail at [AtSync]. *)
Lemma write_json_Raise (sync : bool) (path : string) (d : D) (fs : @disk D)
    (stage : write_failure) :
  write_failures fs !! abs path = Some stage ->
  write_json sync (abs path) d fs
  = (if bool_decide (stage = AtSync) && negb sync then Ok tt
     else Raise OSError,
     after_failed_write ROOT_DIR stage path d fs).
Proof.
  intros H. unfold write_json. rewrite H.
  destruct stage, sync; done.
Qed.

(** A document that decodes is returned as it is. *)
Lemma load_json_file_present (path : string) (default : option D)
    (d : D) (fs : disk) :
  files fs !! abs path = Some (Json d) ->
  load_json_file ROOT_DIR path default fs = (Ok d, fs).
Proof.
  intros H. unfold load_json_file, try_except, bind, path_exists, read_json.
  rewrite H. rewrite bool_decide_eq_true_2 by eauto. by rewrite H.
Qed.

(** First load: the default is written and returned. *)
Lemma load_json_file_absent (path : string) (d : D) (fs : disk) :
  files fs !! abs path = None ->
  abs path ∉ unwritable fs ->
  load_json_file ROOT_DIR path (Some d) fs = (Ok d, written ROOT_DIR path d fs).
Proof.
  intros H Hw. unfold load_json_file, try_except, bind, path_exists.
  rewrite H. rewrite bool_decide_eq_false_2 by (by intros [? ?]).
  by rewrite write_json_Ok.
Qed.

(** First load on a path at which the write fails: the failure is caught
    and the default returned. *)
Lemma load_json_file_absent_unwritable (path : string) (d : D) (fs : disk)
    (stage : write_failure) :
  files fs !! abs path = None ->
  write_failures fs !! abs path = Some stage ->
  load_json_file ROOT_DIR path (Some d) fs
  = (Ok d, after_failed_write ROOT_DIR stage path d fs).
Proof.
  intros H Hw. unfold load_json_file, try_except, bind, path_exists.
  rewrite H. rewrite bool_decide_eq_false_2 by (by intros [? ?]).
  rewrite (write_json_Raise _ _ _ _ _ Hw). by destruct stage.
Qed.

(** Decode failure: the document is overwritten with the default. *)
Lemma load_json_file_garbled (path : string) (d : D) (fs : disk) :
  files fs !! abs path = Some Garbled ->
  abs path ∉ unwritable fs ->
  load_json_file ROOT_DIR path (Some d) fs = (Ok d, written ROOT_DIR path d fs).
Proof.
  intros H Hw. unfold load_json_file, try_except, bind, path_exists, read_json.
  rewrite H. rewrite bool_decide_eq_true_2 by eauto. rewrite H.
  by rewrite write_json_Ok.
Qed.

(** Decode failure on a path that cannot be written: the write made by
    the handler fails outside any [try], and the error reaches the
    caller. *)
Lemma load_json_file_garbled_unwritable (path : string) (d : D) (fs : disk)
    (stage : write_failure) :
  files fs !! abs path = Some Garbled ->
  write_failures fs !! abs path = Some stage ->
  load_json_file ROOT_DIR path (Some d) fs
  = (if bool_decide (stage = AtSync) then Ok d else Raise OSError,
     after_failed_write ROOT_DIR stage path d fs).
Proof.
  intros H Hw. unfold load_json_file, try_except, bind, path_exists, read_json.
  rewrite H. rewrite bool_decide_eq_true_2 by eauto. rewrite H.
  rewrite (write_json_Raise _ _ _ _ _ Hw). by destruct stage.
Qed.

(** A file that cannot be read: the default is returned, the file kept. *)
Lemma load_json_file_unreadable (path : string) (d : D) (fs : disk) :
  files fs !! abs path = Some Unreadable ->
  load_json_file ROOT_DIR path (Some d) fs = (Ok d, fs).
Proof.
  intros H. unfold load_json_file, try_except, bind, path_exists, read_json.
  rewrite H. rewrite bool_decide_eq_true_2 by eauto. by rewrite H.
Qed.

(** Without a default, text that does not decode is reported as such. *)
Lemma load_json_file_garbled_None (path : string) (fs : @disk D) :
  files fs !! abs path = Some Garbled ->
  load_json_file ROOT_DIR path None fs = (Raise JSONDecodeError, fs).
Proof.
  intros H. unfold load_json_file, try_except, bind, path_exists, read_json.
  rewrite H. rewrite bool_decide_eq_true_2 by eauto. by rewrite H.
Qed.

(** With a default, the load raises in that one situation only. *)
Lemma load_json_file_raises_only (path : string) (d : D) (fs fs' : disk)
    (e : exn) :
  load_json_file ROOT_DIR path (Some d) fs = (Raise e, fs') ->
  files fs !! abs path = Some Garbled /\ abs path ∈ unwritable fs
  /\ e = OSError.
Proof.
  destruct (files fs !! abs path) as [[d'| |]|] eqn:Hf.
  - by rewrite (load_json_file_present _ _ _ _ Hf).
  - destruct (write_failures fs !! abs path) as [stage|] eqn:Hw.
    + rewrite (load_json_file_garbled_unwritable _ _ _ _ Hf Hw).
      case_bool_decide; [done|]. intros [= <- _].
      split; [done|]. split; [|done]. by eapply write_failures_Some.
    + apply write_failures_None in Hw.
      by rewrite (load_json_file_garbled _ _ _ Hf Hw).
  - by rewrite (load_json_file_unreadable _ _ _ Hf).
  - destruct (write_failures fs !! abs path) as [stage|] eqn:Hw.
    + by rewrite (load_json_file_absent_unwritable _ _ _ _ Hf Hw).
    + apply write_failures_None in Hw.
      by rewrite (load_json_file_absent _ _ _ Hf Hw).
Qed.

(** Saving never raises: it answers [True] after a write, [False] after a
    failed one. *)
Lemma save_json_file_bool (path : string) (d : D) (fs : disk) :
  save_json_file ROOT_DIR path d fs
  = match write_failures fs !! abs path with
    | Some stage => (Ok false, after_failed_write ROOT_DIR stage path d fs)
    | None => (Ok true, written ROOT_DIR path d fs)
    end.
Proof.
  unfold save_json_file, try_except, bind.
  destruct (write_failures fs !! abs path) as [stage|] eqn:Hw.
  - rewrite (write_json_Raise _ _ _ _ _ Hw). by destruct stage.
  - apply write_failures_None in Hw. by rewrite write_json_Ok.
Qed.

Lemma save_json_file_True (path : string) (d : D) (fs : disk) :
  abs path ∉ unwritable fs ->
  save_json_file ROOT_DIR path d fs = (Ok true, written ROOT_DIR path d fs).
Proof.
  intros Hw. apply write_failures_None in Hw.
  by rewrite save_json_file_bool, Hw.
Qed.

End StoreFacts.

(** C9 (the code departs from the claim). A progress document whose text
    does not decode, at a path that cannot be written: loading it with a
    default raises [OSError] to the caller instead of returning the
    default, although the same write failure is swallowed when the
    document is absent. *)
Theorem load_json_file_corrupt_readonly_raises :
  SaveLoad.load_json_file "/app" "digit_span/digit_span.json"
    (Some (SaveLoad.DocProgress (SaveLoad.default_progress "digit_span")))
    corrupt_readonly_disk
  = (Raise OSError, corrupt_readonly_disk)
  /\ SaveLoad.load_json_file "/app" "digit_span/digit_span.json"
       (Some (SaveLoad.DocProgress (SaveLoad.default_progress "digit_span")))
       missing_readonly_disk
     = (Ok (SaveLoad.DocProgress (SaveLoad.default_progress "digit_span")),
        missing_readonly_disk).
Proof.
  split.
  - apply (load_json_file_garbled_unwritable "/app" _ _ _ SaveLoad.AtOpen);
      apply lookup_singleton_eq.
  - apply (load_json_file_absent_unwritable "/app" _ _ _ SaveLoad.AtOpen).
    + apply lookup_empty.
    + apply lookup_singleton_eq.
Qed.

(** ** The progress state machine *)

Section ProgressFacts.
Import SaveLoad GameSession.
Variable ROOT_DIR : string.

Abbreviation progress_file game :=
  (get_absolute_path ROOT_DIR (get_game_progress_path game)).
Abbreviation history_file game :=
  (get_absolute_path ROOT_DIR (get_game_history_path game)).

Lemma isabs_String (c : ascii) (s : string) :
  isabs (String c s) = bool_decide (c = "/"%char).
Proof.
  case_bool_decide as H; [by subst|].
  destruct c as [[] [] [] [] [] [] [] []]; done.
Qed.

Lemma foldr_app_inj (pres : list string) (s1 s2 : string) :
  foldr String.app s1 pres = foldr String.app s2 pres -> s1 = s2.
Proof.
  induction pres as [|a pres IH]; simpl; [done|].
  intros H. by apply IH, (inj (String.app a)).
Qed.

Local Ltac app_red :=
  repeat match goal with
    | |- context [String.append (String ?c ?a) ?b] =>
        change (String.append (String c a) b)
          with (String c (String.append a b))
    | |- context [String.append EmptyString ?b] =>
        change (String.append EmptyString b) with b
    end.

Lemma path_join_rel (a : string) (d : ascii) (s : string) :
  d <> "/"%char ->
  path_join a (String d s) = a +:+ sep a +:+ String d s.
Proof.
  intros Hd. unfold path_join, sep. rewrite isabs_String.
  rewrite bool_decide_eq_false_2 by done.
  destruct (_ || _); app_red; done.
Qed.

Lemma get_absolute_path_rel (d : ascii) (s : string) :
  d <> "/"%char ->
  get_absolute_path ROOT_DIR (String d s)
  = ROOT_DIR +:+ sep ROOT_DIR +:+ String d s.
Proof.
  intros Hd. unfold get_absolute_path. rewrite isabs_String.
  rewrite bool_decide_eq_false_2 by done. by apply path_join_rel.
Qed.

(** The file of a game is a fixed prefix followed by the file suffix. *)
Lemma game_path_shape (game : string) :
  exists pres : list string,
    forall (d : ascii) (s : string),
      d <> "/"%char ->
      get_absolute_path ROOT_DIR (path_join game (game +:+ String d s))
      = foldr String.append (String d s) pres.
Proof.
  destruct game as [|c game].
  - exists [ROOT_DIR; sep ROOT_DIR]. intros d s Hd. app_red.
    rewrite path_join_rel by done.
    change (sep "") with "". app_red.
    by rewrite get_absolute_path_rel.
  - destruct (decide (c = "/"%char)) as [Hc|Hc].
    + exists [String c game]. intros d s Hd. app_red.
      unfold path_join. rewrite isabs_String.
      rewrite bool_decide_eq_true_2 by done.
      unfold get_absolute_path. rewrite isabs_String.
      rewrite bool_decide_eq_true_2 by done. cbn [foldr]. by app_red.
    + exists [ROOT_DIR; sep ROOT_DIR; String c game; sep (String c game);
              String c game].
      intros d s Hd. app_red.
      rewrite path_join_rel by done. app_red.
      rewrite get_absolute_path_rel by done. cbn [foldr]. by app_red.
Qed.

(** The progress document and the history of a game live in two files. *)
Lemma progress_history_paths (game : string) :
  progress_file game <> history_file game.
Proof.
  unfold get_game_progress_path, get_game_history_path.
  destruct (game_path_shape game) as [pres Hpres].
  change ".json" with (String "."%char "json").
  change "_history.json" with (String "_"%char "history.json").
  rewrite !Hpres by done. intros H. by apply foldr_app_inj in H.
Qed.

Lemma load_stored {D} (path : string) (d0 d : D) (fs : disk) :
  (files fs !! get_absolute_path ROOT_DIR path = Some (Json d)
   \/ (files fs !! get_absolute_path ROOT_DIR path = None /\ d = d0)) ->
  get_absolute_path ROOT_DIR path ∉ unwritable fs ->
  exists fs',
    load_json_file ROOT_DIR path (Some d0) fs = (Ok d, fs')
    /\ files fs' !! get_absolute_path ROOT_DIR path = Some (Json d)
    /\ unwritable fs' = unwritable fs
    /\ forall q, q <> get_absolute_path ROOT_DIR path ->
                 files fs' !! q = files fs !! q.
Proof.
  intros [H|[H ->]] Hw.
  - exists fs. by rewrite (load_json_file_present _ _ _ _ _ H).
  - exists (written ROOT_DIR path d0 fs).
    rewrite (load_json_file_absent _ _ _ _ H Hw).
    repeat split; simpl.
    + apply lookup_insert_eq.
    + intros q Hq. by apply lookup_insert_ne.
Qed.

(** What one call of [update_progress] does to the disk. *)
Lemma update_progress_run (game : string) (p : ProgressRecord)
    (h : list HistoryEntry) (success : bool) (response_time : Q)
    (user_answer : answer) (now : string) (fs : disk)
    (level_before : Z) (p' : ProgressRecord) :
  stored ROOT_DIR fs game p h ->
  apply_result success response_time p = Ok (level_before, p') ->
  exists fs',
    update_progress ROOT_DIR game success response_time user_answer now fs
    = (Ok (level p', upgrade p'), fs')
    /\ stored ROOT_DIR fs' game p'
         (h ++ [{| h_timestamp := now; h_game := game;
                   h_level := level_before; h_success := success;
                   h_response_time := response_time;
                   h_upgrade_progress := upgrade p';
                   h_user_answer :=
                     if truthy user_answer then Some user_answer
                     else None |}]).
Proof.
  intros (Hp & Hh & Hwp & Hwh) Hres.
  pose proof (progress_history_paths game) as Hneq.
  unfold update_progress, load_game_progress.
  destruct (load_stored _ (DocProgress (default_progress game)) _ _
              (or_ind (fun H => or_introl H)
                 (fun H => or_intror (conj (proj1 H)
                                        (f_equal DocProgress (proj2 H)))) Hp)
              Hwp)
    as (fs1 & Hload & Hf1 & Hu1 & Ho1).
  rewrite (bind_Ok _ _ _ _ _ Hload). rewrite bind_ret.
  unfold lift at 1. unfold bind at 1. rewrite Hres.
  unfold save_game_progress. unfold bind at 1.
  rewrite save_json_file_True by (by rewrite Hu1).
  set (fs2 := written ROOT_DIR (get_game_progress_path game)
                (DocProgress p') fs1).
  unfold add_history_entry, load_game_history.
  destruct (load_stored (get_game_history_path game) (DocHistory [])
              (DocHistory h) fs2) as (fs3 & Hload3 & Hf3 & Hu3 & Ho3).
  { subst fs2. simpl. rewrite lookup_insert_ne by done.
    rewrite Ho1 by done.
    destruct Hh as [Hh|[Hh ->]]; [by left|by right]. }
  { change (unwritable fs2) with (unwritable fs1). by rewrite Hu1. }
  assert (Hu2 : unwritable fs3 = unwritable fs).
  { rewrite Hu3. change (unwritable fs2) with (unwritable fs1). done. }
  unfold bind at 1. unfold bind at 1. rewrite Hload3.
  unfold save_game_history.
  rewrite save_json_file_True by (by rewrite Hu2).
  eexists. split; [reflexivity|].
  unfold stored.
  change (unwritable (written _ _ _ fs3)) with (unwritable fs3).
  rewrite Hu2. simpl. split; [|split; [|split]]; [| |done..].
  - left. rewrite lookup_insert_ne by done.
    rewrite Ho3 by done. subst fs2. simpl. apply lookup_insert_eq.
  - left. apply lookup_insert_eq.
Qed.

End ProgressFacts.

Section ProgressTransition.
Import SaveLoad GameSession.

Local Ltac bool_hyps :=
  repeat match goal with
    | H : (_ && _) = true |- _ => apply andb_true_iff in H as [? ?]
    | H : (_ && _) = false |- _ => apply andb_false_iff in H
    | H : (_ <? _) = true |- _ => apply Z.ltb_lt in H
    | H : (_ <? _) = false |- _ => apply Z.ltb_ge in H
    | H : (_ <=? _) = true |- _ => apply Z.leb_le in H
    | H : (_ <=? _) = false |- _ => apply Z.leb_gt in H
    | H : (_ =? _) = true |- _ => apply Z.eqb_eq in H
    | H : (_ =? _) = false |- _ => apply Z.eqb_neq in H
    end.

(** The in-memory update is that transition, and hands back the level
    held before it. *)
Lemma apply_result_transition (success : bool) (response_time : Q)
    (p : ProgressRecord) :
  total_challenges p <> -1 ->
  exists p',
    apply_result success response_time p = Ok (level p, p')
    /\ transition success response_time p p'.
Proof.
  intros Htot. unfold apply_result, running_average.
  destruct success; cbn -[Z.add Z.sub Z.ltb Z.leb Z.eqb Qmult Qplus Qdiv];
    repeat (match goal with
            | |- context [if ?b then _ else _] =>
                lazymatch b with
                | decide _ => fail
                | context [if _ then _ else _] => fail
                | _ => destruct b eqn:?
                end
            end;
            cbn -[Z.add Z.sub Z.ltb Z.leb Z.eqb Qmult Qplus Qdiv]);
    bool_hyps; try lia;
    (eexists; split; [reflexivity|]);
    (constructor; cbn -[Z.add Z.sub Z.ltb Z.leb Z.eqb Qmult Qplus Qdiv];
     try done; try lia;
     repeat case_decide; repeat case_match; bool_hyps; try lia;
     try (repeat f_equal; lia)).
Qed.

End ProgressTransition.

Section ProgressTheorems.
Import SaveLoad GameSession.
Variable ROOT_DIR : string.

(** C1. One call of [update_progress] on the stored record of a game (a
    count of challenges is never negative) applies exactly the transition
    of the specification: the total is incremented; a success increments
    the successes, the streak and the upgrade counter, a failure resets
    the streak and decrements the counter; then the level goes up when the
    counter has reached 10 below level 10 (counter reset, highest level
    raised if exceeded), else down when it has reached -5 above level 1
    (counter reset), never both; the record is saved, and the entry
    appended to the history carries the level held before the change. *)
Theorem update_progress_applies_transition (game : string)
    (p : ProgressRecord) (h : list HistoryEntry) (success : bool)
    (response_time : Q) (user_answer : answer) (now : string)
    (fs : disk) :
  stored ROOT_DIR fs game p h ->
  0 <= total_challenges p ->
  exists (p' : ProgressRecord) (entry : HistoryEntry) (fs' : disk),
    update_progress ROOT_DIR game success response_time user_answer now fs
    = (Ok (level p', upgrade p'), fs')
    /\ stored ROOT_DIR fs' game p' (h ++ [entry])
    /\ transition success response_time p p'
    /\ h_level entry = level p
    /\ h_game entry = game
    /\ h_success entry = success
    /\ h_response_time entry = response_time
    /\ h_upgrade_progress entry = upgrade p'.
Proof.
  intros Hst Htot.
  destruct (apply_result_transition success response_time p)
    as (p' & Hres & Htr); [lia|].
  destruct (update_progress_run ROOT_DIR game p h success response_time
              user_answer now fs (level p) p' Hst Hres) as (fs' & Hrun & Hst').
  eexists p', _, fs'. split; [exact Hrun|]. split; [exact Hst'|].
  split; [exact Htr|]. done.
Qed.

Lemma Qsum_snoc (ts : list Q) (t : Q) :
  (Qsum (ts ++ [t]) == Qsum ts + t)%Q.
Proof.
  unfold Qsum. induction ts as [|x ts IH]; simpl.
  - ring.
  - rewrite IH. ring.
Qed.

Lemma inject_Z_nonzero (z : Z) : z <> 0 -> ~ (inject_Z z == 0)%Q.
Proof. unfold Qeq. simpl. lia. Qed.

(** The incremental formula of [update_progress] keeps the mean. *)
Lemma mean_snoc (avg : Q) (ts : list Q) (t : Q) :
  (avg == mean ts)%Q ->
  ((if Z.of_nat (length ts) =? 0 then t
    else (avg * inject_Z (Z.of_nat (length ts)) + t)
         / inject_Z (Z.of_nat (length ts) + 1))
   == mean (ts ++ [t]))%Q.
Proof.
  intros Havg. unfold mean. rewrite Qsum_snoc, length_app. simpl length.
  replace (Z.of_nat (length ts + 1)) with (Z.of_nat (length ts) + 1) by lia.
  destruct (Z.eqb_spec (Z.of_nat (length ts)) 0) as [H0|H0].
  - destruct ts; [|simpl in H0; lia]. simpl.
    change (inject_Z (Z.of_nat 0 + 1)) with 1%Q. field.
  - rewrite Havg. unfold mean. rewrite inject_Z_plus.
    pose proof (inject_Z_nonzero _ H0).
    assert (~ (inject_Z (Z.of_nat (length ts)) + inject_Z 1 == 0)%Q).
    { rewrite <- inject_Z_plus. apply inject_Z_nonzero. lia. }
    field. split; done.
Qed.

(** In exact arithmetic the incremental formula is the mean. *)
Lemma running_average_exact (avg : Q) (ts : list Q) (t : Q) :
  (avg == mean ts)%Q ->
  exists avg' : Q,
    running_average exact_arithmetic avg (Z.of_nat (length ts) + 1) t
    = Ok avg'
    /\ (avg' == mean (ts ++ [t]))%Q.
Proof.
  intros Havg. pose proof (mean_snoc avg ts t Havg) as Hm.
  unfold running_average.
  replace (Z.of_nat (length ts) + 1 - 1) with (Z.of_nat (length ts)) by lia.
  destruct (Z.of_nat (length ts) =? 0); [by eexists|].
  destruct (Z.eqb_spec (Z.of_nat (length ts) + 1) 0); [lia|].
  by eexists.
Qed.



End ProgressTheorems.

Section ProgressWitnesses.
Import SaveLoad GameSession.

Lemma stored_fresh (ROOT_DIR game : string) :
  stored ROOT_DIR fresh_disk game (default_progress game) [].
Proof.
  unfold stored, fresh_disk. cbn [files unwritable].
  split; [right; split; [apply lookup_empty|reflexivity]|].
  split; [right; split; [apply lookup_empty|reflexivity]|].
  split; apply not_elem_of_empty.
Defined.



(** An instance: the first digit-span round of a fresh installation, a
    success. *)
Lemma update_progress_applies_transition_witness :
  stored "/app" fresh_disk "digit_span" (default_progress "digit_span") []
  /\ 0 <= total_challenges (default_progress "digit_span")
  /\ exists (p' : ProgressRecord) (entry : HistoryEntry) (fs' : disk),
       update_progress "/app" "digit_span" true (5 # 2) (Digits [1; 2; 3])
         "2025-01-01T10:00:00" fresh_disk
       = (Ok (level p', upgrade p'), fs')
       /\ stored "/app" fs' "digit_span" p' ([] ++ [entry])
       /\ transition true (5 # 2) (default_progress "digit_span") p'
       /\ h_level entry = level (default_progress "digit_span")
       /\ h_game entry = "digit_span"
       /\ h_success entry = true
       /\ h_response_time entry = 5 # 2
       /\ h_upgrade_progress entry = upgrade p'.
Proof.
  split; [apply stored_fresh|]. split; [cbn; lia|].
  apply (update_progress_applies_transition "/app" "digit_span"
           (default_progress "digit_span") [] true (5 # 2)
           (Digits [1; 2; 3]) "2025-01-01T10:00:00" fresh_disk).
  - apply stored_fresh.
  - cbn. lia.
Defined.


(** That round takes the record to level 4 with the counter back at 0. *)
Lemma level_up_scenario :
  exists fs' : disk,
    update_progress "/app" "spatial_pattern" true (7 # 4)
      (Cells [(0, 1)]) "2025-01-01T10:05:00" level_3_disk
    = (Ok (4, 0), fs')
    /\ exists p' : ProgressRecord,
         files fs'
           !! get_absolute_path "/app"
                (get_game_progress_path "spatial_pattern")
         = Some (Json (DocProgress p'))
         /\ level p' = 4 /\ upgrade p' = 0
         /\ highest_level_reached p' = 4
         /\ total_challenges p' = 13.
Proof.
  eexists. split; [vm_compute; reflexivity|].
  eexists. split; [vm_compute; reflexivity|]. done.
Qed.


End ProgressWitnesses.

(** ** The session queue *)

Section SessionFacts.
Import GameSession MainMenu Wrapper.

Lemma repeatM_length {S A} (n : nat) (m : M S A) :
  forall s l s', repeatM n m s = (Ok l, s') -> length l = n.
Proof.
  induction n as [|n IH]; intros s l s'; cbn [repeatM]; unfold bind, ret.
  - by intros [= <- _].
  - destruct (m s) as [[a|e] s1]; [|done].
    destruct (repeatM n m s1) as [[l1|e] s2] eqn:Hl; [|done].
    intros [= <- _]. simpl. f_equal. eauto.
Qed.

(** A single-game session is the chosen game, [challenges_per_session]
    times over. *)
Lemma get_game_for_session_single (settings : UserSettings) (game : string)
    (all_games strategy_1_games strategy_2_games : list string) (t : tape) :
  get_game_for_session settings "game" game
    all_games strategy_1_games strategy_2_games t
  = (Ok (replicate (Z.to_nat (challenges_per_session settings)) game), t).
Proof. reflexivity. Qed.

Lemma four_more_length (st : session_type) (current_game : string)
    (ALL S1 S2 : list string) (t t' : tape) (more : list string) :
  four_more st current_game ALL S1 S2 t = (Ok more, t') ->
  length more = 4%nat /\ (st = single -> more = replicate 4 current_game).
Proof.
  destruct st; cbn [four_more].
  - unfold ret. by intros [= <- _].
  - intros H. split; [by eapply repeatM_length|done].
  - intros H. split; [by eapply repeatM_length|done].
  - intros H. split; [by eapply repeatM_length|done].
Qed.

Lemma decision_loop_spec (sh : prompt) (st : session_type)
    (queue : list string) (current_game : string)
    (ALL S1 S2 : list string) (events : list event) (t t' : tape)
    (c : Continuation) :
  decision_loop sh st queue current_game ALL S1 S2 events t
  = (Ok (Some c), t') ->
  shown c = sh
  /\ (continue_session c = true ->
      exists more,
        four_more st current_game ALL S1 S2 t = (Ok more, t')
        /\ GameSession.games_queue c = queue ++ more)
  /\ (continue_session c = false -> GameSession.games_queue c = queue).
Proof.
  induction events as [|ev events IH]; [done|].
  destruct ev as [key|]; cbn [decision_loop].
  2: { intros [= <- _]. done. }
  destruct (_ || _); [intros [= <- _]; done|].
  destruct (key_in key [ord "m"; ord "M"]); [intros [= <- _]; done|].
  destruct (key_in key [ord "y"; ord "Y"]).
  { unfold bind.
    destruct (four_more st current_game ALL S1 S2 t) as [[more|e] t1];
      [|done].
    intros [= <- <-]. cbn. split; [done|]. split; [eauto|done]. }
  destruct (key_in key [ord "n"; ord "N"]); [intros [= <- _]; done|].
  destruct (key_in key [ord "p"; ord "P"]); [intros [= <- _]; done|].
  exact IH.
Qed.

(** What one call of [handle_session_continuation] does to the queue. *)
Lemma handle_session_continuation_spec
    (queue : list string) (challenges_completed : Z)
    (current_game : string) (ALL S1 S2 : list string)
    (events : list event) (t t' : tape) (c : Continuation) :
  handle_session_continuation queue challenges_completed current_game
    ALL S1 S2 events t = (Ok (Some c), t') ->
  (shown c <> PressAnyKeyPrompt <-> queue = [])
  /\ (queue = [] -> continue_session c = true ->
      exists more,
        GameSession.games_queue c = queue ++ more
        /\ length more = 4%nat
        /\ (current_game ∈ ALL -> more = replicate 4 current_game))
  /\ (queue <> [] \/ continue_session c = false ->
      GameSession.games_queue c = queue).
Proof.
  unfold handle_session_continuation.
  set (st := if bool_decide (current_game ∈ ALL) then single
             else if bool_decide (current_game ∈ S1) then strategy1
             else if bool_decide (current_game ∈ S2) then strategy2
             else random_all).
  assert (Hst : current_game ∈ ALL -> st = single).
  { intros H. subst st. by rewrite bool_decide_eq_true_2. }
  assert (Hloop : forall sh,
    sh <> PressAnyKeyPrompt -> queue = [] ->
    decision_loop sh st queue current_game ALL S1 S2 events t
    = (Ok (Some c), t') ->
    (shown c <> PressAnyKeyPrompt <-> queue = [])
    /\ (queue = [] -> continue_session c = true ->
        exists more,
          GameSession.games_queue c = queue ++ more
          /\ length more = 4%nat
          /\ (current_game ∈ ALL -> more = replicate 4 current_game))
    /\ (queue <> [] \/ continue_session c = false ->
        GameSession.games_queue c = queue)).
  { intros sh Hsh Hq Hrun.
    apply decision_loop_spec in Hrun as (Hshown & Hyes & Hno).
    split; [rewrite Hshown; done|]. split.
    - intros _ Hc. destruct (Hyes Hc) as (more & Hmore & Hqueue).
      apply four_more_length in Hmore as [Hlen Hsingle].
      exists more. auto.
    - intros [Hne|Hc]; [done|auto]. }
  case_bool_decide as Hq.
  - destruct (challenges_completed mod 10 =? 0); cbn [andb];
      by apply Hloop.
  - cbn [andb].
    destruct events as [|[key|] rest]; [done| |].
    + destruct (_ || _); [intros [= <- _]; cbn; split; [done|auto]; split; [done|auto]|].
      destruct (key_in key [ord "m"; ord "M"]);
        intros [= <- _]; cbn; (split; [done|]); split; done.
    + intros [= <- _]. cbn. split; [done|]. split; done.
Qed.

Lemma repeatM_choice (n : nat) (pool : list string) (t : tape) :
  pool <> [] ->
  exists queue,
    repeatM n (choice pool) t = (Ok queue, Nat.iter n advance t)
    /\ length queue = n /\ Forall (fun g => g ∈ pool) queue.
Proof.
  intros Hne. revert t. induction n as [|n IH]; intros t.
  - exists []. repeat split. constructor.
  - destruct (choice_Ok pool t Hne) as (g & Hg & Hin).
    destruct (IH (advance t)) as (queue & Hq & Hlen & Hall).
    exists (g :: queue). cbn [repeatM].
    rewrite (bind_Ok _ _ _ _ _ Hg), (bind_Ok _ _ _ _ _ Hq).
    split.
    + unfold ret. by rewrite Nat.iter_succ_r.
    + split; [simpl; congruence|by constructor].
Qed.

(** Every challenge of a session started from the menu is a game of the
    menu. *)
Lemma of_kind_on_menu (kind : session_kind) (game : string) :
  kind_on_menu kind -> of_kind kind game -> game ∈ ALL_GAMES.
Proof.
  destruct kind as [g|category]; cbn [kind_on_menu of_kind].
  - by intros ? ->.
  - intros _. unfold category_games, ALL_GAMES.
    repeat case_bool_decide; set_solver.
Qed.

(** C8, as the code has it. A session started from the menu holds
    [challenges_per_session] challenges of its kind (the chosen game, or
    games of the chosen category). After a round the continuation
    decision is presented exactly when the queue is empty, whatever the
    number of challenges completed; on the extend outcome exactly 4
    challenges of the kind of the session are appended at the back of
    the queue, which are the game itself in a single-game session; on
    every other outcome the queue is left as it is. *)
Theorem continuation_decision_on_empty_queue (kind : session_kind) :
  kind_on_menu kind ->
  (forall (settings : UserSettings) (t : tape),
     exists (queue : list string) (t' : tape),
       get_game_for_session settings (menu_choice kind).1
         (menu_choice kind).2
         ALL_GAMES STRATEGY_1_GAMES STRATEGY_2_GAMES t = (Ok queue, t')
       /\ length queue = Z.to_nat (challenges_per_session settings)
       /\ Forall (of_kind kind) queue)
  /\ (forall (queue : list string) (challenges_completed : Z)
             (current_game : string) (events : list event) (t t' : tape)
             (c : Continuation),
        of_kind kind current_game ->
        Forall (of_kind kind) queue ->
        handle_session_continuation queue challenges_completed current_game
          ALL_GAMES STRATEGY_1_GAMES STRATEGY_2_GAMES events t
        = (Ok (Some c), t') ->
        (shown c <> PressAnyKeyPrompt <-> queue = [])
        /\ (queue = [] -> continue_session c = true ->
            exists more,
              GameSession.games_queue c = queue ++ more
              /\ length more = 4%nat
              /\ Forall (of_kind kind) more)
        /\ (queue <> [] \/ continue_session c = false ->
            GameSession.games_queue c = queue)
        /\ Forall (of_kind kind) (GameSession.games_queue c)).
Proof.
  intros Hmenu. split.
  - intros settings t. destruct kind as [game|category]; cbn [menu_choice].
    + eexists _, t. split; [apply get_game_for_session_single|].
      split; [apply length_replicate|].
      apply Forall_forall. intros g Hg.
      by apply elem_of_replicate in Hg as [-> _].
    + assert (Hrun : get_game_for_session settings "random" category
                       ALL_GAMES STRATEGY_1_GAMES STRATEGY_2_GAMES
                     = repeatM (Z.to_nat (challenges_per_session settings))
                         (choice (category_games category))).
      { unfold get_game_for_session, category_games. cbn [bool_decide].
        rewrite bool_decide_eq_false_2 by done.
        rewrite bool_decide_eq_true_2 by done.
        repeat case_bool_decide; done. }
      destruct (repeatM_choice (Z.to_nat (challenges_per_session settings))
                  (category_games category) t)
        as (queue & Hq & Hlen & Hall).
      { unfold category_games. repeat case_bool_decide; done. }
      exists queue, (Nat.iter (Z.to_nat (challenges_per_session settings))
                       advance t).
      cbn [fst snd]. rewrite Hrun. done.
  - intros queue challenges_completed current_game events t t' c
      Hgame Hqueue Hrun.
    pose proof (of_kind_on_menu kind current_game Hmenu Hgame) as Hin.
    destruct (handle_session_continuation_spec _ _ _ _ _ _ _ _ _ _ Hrun)
      as (Hshown & Hyes & Hno).
    assert (Hfour : Forall (of_kind kind) (replicate 4 current_game)).
    { apply Forall_forall. intros g Hg.
      by apply elem_of_replicate in Hg as [-> _]. }
    split; [exact Hshown|]. split; [|split; [exact Hno|]].
    + intros Hq Hc. destruct (Hyes Hq Hc) as (more & Hmore & Hlen & Hcopies).
      exists more. split; [done|]. split; [done|]. by rewrite (Hcopies Hin).
    + destruct (decide (queue = [])) as [Hq|Hq].
      * destruct (decide (continue_session c = true)) as [Hc|Hc].
        -- destruct (Hyes Hq Hc) as (more & -> & _ & Hcopies).
           rewrite (Hcopies Hin). by apply Forall_app.
        -- apply not_true_is_false in Hc. rewrite Hno by auto. done.
      * rewrite Hno by auto. done.
Qed.

End SessionFacts.

Section SessionCounterexample.
Import GameSession MainMenu Wrapper.

(** After round 20 of that session two games are still queued and the
    plain pause is shown. *)
Lemma twenty_rounds_trace :
  exists trace,
    start_game_session (replicate 10 "digit_span")
      ALL_GAMES STRATEGY_1_GAMES STRATEGY_2_GAMES twenty_rounds (fun _ => O)
    = (Ok trace, fun _ => O)
    /\ trace !! 9%nat = Some (10, SessionCompletePrompt)
    /\ trace !! 13%nat = Some (14, ContinuePlayingPrompt)
    /\ trace !! 19%nat = Some (20, PressAnyKeyPrompt).
Proof. eexists. split; [vm_compute; reflexivity|]. repeat split. Qed.

(** After a spatial pattern in a session of the first category, Y appends
    the spatial pattern four times and draws nothing, where four picks
    from the category on the same tape are other games. *)
Lemma extend_after_spatial_pattern :
  handle_session_continuation [] 10 "spatial_pattern"
    ALL_GAMES STRATEGY_1_GAMES STRATEGY_2_GAMES [Key (ord "y")]
    counting_tape = (Ok (Some extended_session), counting_tape)
  /\ fst (repeatM 4 (select_random_game (category_games "strategy1"))
            counting_tape)
     = Ok ["n_back"; "spatial_pattern"; "digit_span"; "n_back"].
Proof. split; vm_compute; reflexivity. Qed.

(** C8 fails as stated, in both halves. *)
Lemma continuation_policy_counterexample :
  ~ decision_at_multiples_of_batch /\ ~ extension_by_random_picks.
Proof.
  split.
  - intros H.
    destruct twenty_rounds_trace as (trace & Hrun & _ & _ & H20).
    apply (H {| challenges_per_session := 10; current_user := "default" |}
             "digit_span" twenty_rounds (fun _ => O) (fun _ => O)
             (fun _ => O) (replicate 10 "digit_span") trace)
      with (k := 20) (shown := PressAnyKeyPrompt).
    + unfold ALL_GAMES, STRATEGY_1_GAMES. set_solver.
    + cbn. lia.
    + apply get_game_for_session_single.
    + exact Hrun.
    + by eapply list_elem_of_lookup_2.
    + reflexivity.
    + reflexivity.
  - intros H.
    destruct extend_after_spatial_pattern as (Hrun & Hpicks).
    assert (Hin : of_kind (RandomPicks "strategy1") "spatial_pattern").
    { cbn. unfold STRATEGY_1_GAMES. set_solver. }
    pose proof (H (RandomPicks "strategy1") 10 "spatial_pattern" [] _ _ _
                  I Hin Hrun) as Heq.
    cbv beta iota in Heq. rewrite Heq in Hpicks.
    cbn [fst extended_session GameSession.games_queue] in Hpicks.
    discriminate Hpicks.
Qed.

(** An instance: a session of random picks from the first category. *)
Lemma continuation_decision_on_empty_queue_witness :
  kind_on_menu (RandomPicks "strategy1")
  /\ (forall (settings : UserSettings) (t : tape),
        exists (queue : list string) (t' : tape),
          get_game_for_session settings
            (menu_choice (RandomPicks "strategy1")).1
            (menu_choice (RandomPicks "strategy1")).2
            ALL_GAMES STRATEGY_1_GAMES STRATEGY_2_GAMES t = (Ok queue, t')
          /\ length queue = Z.to_nat (challenges_per_session settings)
          /\ Forall (of_kind (RandomPicks "strategy1")) queue)
  /\ (forall (queue : list string) (challenges_completed : Z)
             (current_game : string) (events : list event) (t t' : tape)
             (c : Continuation),
        of_kind (RandomPicks "strategy1") current_game ->
        Forall (of_kind (RandomPicks "strategy1")) queue ->
        handle_session_continuation queue challenges_completed current_game
          ALL_GAMES STRATEGY_1_GAMES STRATEGY_2_GAMES events t
        = (Ok (Some c), t') ->
        (shown c <> PressAnyKeyPrompt <-> queue = [])
        /\ (queue = [] -> continue_session c = true ->
            exists more,
              GameSession.games_queue c = queue ++ more
              /\ length more = 4%nat
              /\ Forall (of_kind (RandomPicks "strategy1")) more)
        /\ (queue <> [] \/ continue_session c = false ->
            GameSession.games_queue c = queue)
        /\ Forall (of_kind (RandomPicks "strategy1"))
             (GameSession.games_queue c)).
Proof.
  split; [exact I|].
  apply (continuation_decision_on_empty_queue (RandomPicks "strategy1") I).
Defined.

End SessionCounterexample.

(** * Further properties *)

(** ** More on the digit-span generators *)

Section DigitSpanGeneratorShape.
Import DigitSpan.

Lemma pymax_floor (a b : Q) : (a <= pymax a b)%Q.
Proof.
  unfold pymax. destruct (Qlt_le_dec a b).
  - by apply Qlt_le_weak.
  - apply Qle_refl.
Qed.

(** What the parameter generator returns: the sizes and timings computed
    from the level, and flags that can only be on from their introduction
    level. *)
Lemma digit_config_shape (meta_section : option Meta) (level : Z) (t : tape) :
  let meta := match meta_section with Some m => m | None => default_meta end in
  exists (config : Config) (t' : tape),
    generate_next_challenge_config meta_section level t = (Ok config, t')
    /\ sequence_length config
       = min_digits_level_1 meta
         + (level - 1) * max_additional_digits_per_level meta
    /\ display_time config
       = pymax (3 # 10)
           (base_display_time meta
            - inject_Z (level - 1) * display_time_reduction_per_level meta)
    /\ inter_digit_delay config
       = pymax (1 # 10)
           (base_delay_time meta
            - inject_Z (level - 1) * delay_time_reduction_per_level meta)
    /\ (backward config = true -> backward_intro_level meta <= level)
    /\ (interference_task config = true ->
        interference_intro_level meta <= level)
    /\ (selective_recall config = true ->
        selective_recall_intro_level meta <= level)
    /\ (ordering config = true -> ordering_intro_level meta <= level)
    /\ instruction config = get_instruction_text config.
Proof.
  intros meta. unfold generate_next_challenge_config. fold meta.
  destruct (Z.leb_spec (backward_intro_level meta) level);
    destruct (Z.leb_spec (interference_intro_level meta) level);
    destruct (Z.leb_spec (selective_recall_intro_level meta) level);
    destruct (Z.leb_spec (ordering_intro_level meta) level);
    unfold choice, bind, draw, ret;
    cbn [length];
    repeat match goal with
      | |- context [nth ?i [true; false] true] =>
          destruct (nth i [true; false] true)
      end;
    cbn [selective_recall ordering set_selective_recall set_ordering
         set_backward set_interference_task];
    (eexists _, _; split; [reflexivity|]);
    cbn [sequence_length display_time inter_digit_delay backward
         interference_task selective_recall ordering instruction
         set_sequence_length set_display_time set_inter_digit_delay
         set_backward set_interference_task set_selective_recall
         set_ordering set_instruction];
    repeat split; try done; try lia.
Qed.

(** X1. For every level, every meta-parameter section and every outcome
    of the draws, the digit-span configuration shows each digit for at
    least 0.3 s and pauses for at least 0.1 s between digits. *)
Theorem digit_span_timing_floors
    (meta_section : option Meta) (level : Z) (t : tape) :
  exists (config : Config) (t' : tape),
    generate_next_challenge_config meta_section level t = (Ok config, t')
    /\ (3 # 10 <= display_time config)%Q
    /\ (1 # 10 <= inter_digit_delay config)%Q.
Proof.
  destruct (digit_config_shape meta_section level t)
    as (config & t' & Hgen & _ & Hd & Hi & _).
  exists config, t'. split; [done|].
  rewrite Hd, Hi. split; apply pymax_floor.
Qed.

(** X2. A feature flag of the digit-span configuration is never on below
    its introduction level, and the sequence length grows linearly with
    the level; in particular below every introduction level the task is
    plain forward recall, whose expected answer is the stimulus. *)
Theorem digit_span_flags_from_intro_level
    (meta_section : option Meta) (level : Z) (t : tape) :
  let meta := match meta_section with Some m => m | None => default_meta end in
  exists (config : Config) (t' : tape),
    generate_next_challenge_config meta_section level t = (Ok config, t')
    /\ sequence_length config
       = min_digits_level_1 meta
         + (level - 1) * max_additional_digits_per_level meta
    /\ (level < backward_intro_level meta -> backward config = false)
    /\ (level < interference_intro_level meta ->
        interference_task config = false)
    /\ (level < selective_recall_intro_level meta ->
        selective_recall config = false)
    /\ (level < ordering_intro_level meta -> ordering config = false)
    /\ (level < backward_intro_level meta ->
        level < selective_recall_intro_level meta ->
        level < ordering_intro_level meta ->
        forall sequence, get_expected_answer sequence config = sequence).
Proof.
  intros meta.
  destruct (digit_config_shape meta_section level t)
    as (config & t' & Hgen & Hlen & _ & _ & Hb & Hi & Hs & Ho & _).
  fold meta in Hlen, Hb, Hi, Hs, Ho.
  assert (Hoff : forall b n, (b = true -> n <= level) -> level < n -> b = false).
  { intros [] n Hn Hlt; [specialize (Hn eq_refl); lia|done]. }
  exists config, t'. split; [done|]. split; [done|].
  split; [eauto|]. split; [eauto|]. split; [eauto|]. split; [eauto|].
  intros H1 H2 H3 sequence. unfold get_expected_answer.
  rewrite (Hoff _ _ Hb H1), (Hoff _ _ Hs H2), (Hoff _ _ Ho H3). done.
Qed.

End DigitSpanGeneratorShape.

Section DigitSpanSequences.
Import DigitSpan.

(** X3. Without selective recall the stimulus generator never fails: it
    returns as many digits as the configuration asks for, none for a
    length of zero or less, each between 0 and 9. *)
Theorem generate_sequence_plain (config : Config) (t : tape) :
  selective_recall config = false ->
  exists (sequence : list Z) (t' : tape),
    generate_sequence config t = (Ok sequence, t')
    /\ Z.of_nat (length sequence) = Z.max 0 (sequence_length config)
    /\ Forall (fun d => 0 <= d <= 9) sequence.
Proof.
  intros Hsel. unfold generate_sequence. rewrite Hsel.
  destruct (repeatM_randint (Z.to_nat (sequence_length config)) 0 9 t)
    as (l & t1 & Hl & Hn & Hf); [lia|].
  rewrite (bind_Ok _ _ _ _ _ Hl).
  exists l, t1. repeat split; [lia|done].
Qed.

Lemma generate_sequence_plain_witness :
  selective_recall forward_config = false
  /\ exists (sequence : list Z) (t' : tape),
       generate_sequence forward_config mixed_tape = (Ok sequence, t')
       /\ Z.of_nat (length sequence)
          = Z.max 0 (sequence_length forward_config)
       /\ Forall (fun d => 0 <= d <= 9) sequence.
Proof.
  split; [reflexivity|].
  apply (generate_sequence_plain forward_config mixed_tape). reflexivity.
Defined.

(** X4. With selective recall on and a sequence length of zero or less
    the stimulus generator raises [ValueError]: there is no position at
    which the odd digit could be forced. *)
Theorem generate_sequence_selective_empty (config : Config) (t : tape) :
  selective_recall config = true ->
  sequence_length config <= 0 ->
  fst (generate_sequence config t) = Raise ValueError.
Proof.
  intros Hsel Hlen. unfold generate_sequence. rewrite Hsel.
  replace (Z.to_nat (sequence_length config)) with O by lia.
  cbn [repeatM]. rewrite bind_ret. cbn [existsb negb].
  unfold bind, choice, draw, ret, randint.
  destruct (Z.leb_spec 0 (sequence_length config - 1)); [lia|]. done.
Qed.

Lemma generate_sequence_selective_empty_witness :
  selective_recall empty_selective_config = true
  /\ sequence_length empty_selective_config <= 0
  /\ fst (generate_sequence empty_selective_config mixed_tape)
     = Raise ValueError.
Proof.
  split; [reflexivity|]. split; [cbn; lia|].
  apply (generate_sequence_selective_empty empty_selective_config mixed_tape).
  - reflexivity.
  - cbn. lia.
Defined.

(** The expected answer holds no digit that was not shown, and no digit
    more often than it was shown. *)
Lemma get_expected_answer_submseteq (sequence : list Z) (config : Config) :
  get_expected_answer sequence config ⊆+ sequence.
Proof.
  unfold get_expected_answer.
  destruct (backward config).
  { apply Permutation_submseteq. by rewrite reverse_Permutation. }
  destruct (selective_recall config).
  { apply sublist_submseteq, sublist_filter. }
  destruct (ordering config); [|done].
  apply Permutation_submseteq, sorted_Permutation.
Qed.

(** X5. The expected answer is made of the digits shown: it never holds
    a digit more often than the stimulus does, and outside selective
    recall (or under backward recall, which takes precedence) it is a
    rearrangement of the whole stimulus, so of the same length. *)
Theorem get_expected_answer_rearranges (sequence : list Z) (config : Config) :
  get_expected_answer sequence config ⊆+ sequence
  /\ (backward config = true \/ selective_recall config = false ->
      get_expected_answer sequence config ≡ₚ sequence
      /\ length (get_expected_answer sequence config) = length sequence).
Proof.
  split; [apply get_expected_answer_submseteq|].
  intros Hmode.
  assert (Hp : get_expected_answer sequence config ≡ₚ sequence).
  { unfold get_expected_answer.
    destruct (backward config); [apply reverse_Permutation|].
    destruct Hmode as [? | ->]; [done|].
    destruct (ordering config); [apply sorted_Permutation|done]. }
  split; [done|]. by rewrite Hp.
Qed.

(** The generator's guarantee for selective recall, on any tape. *)
Lemma generate_sequence_has_odd (config : Config) (t : tape) :
  selective_recall config = true ->
  1 <= sequence_length config ->
  exists (sequence : list Z) (t' : tape),
    generate_sequence config t = (Ok sequence, t')
    /\ sequence <> []
    /\ Exists Z.Odd sequence.
Proof.
  intros Hsel Hlen. unfold generate_sequence. rewrite Hsel.
  destruct (repeatM_randint (Z.to_nat (sequence_length config)) 0 9 t)
    as (l & t1 & Hl & Hn & Hf); [lia|].
  rewrite (bind_Ok _ _ _ _ _ Hl).
  assert (Hne : l <> []) by (intros ->; simpl in Hn; lia).
  destruct (existsb is_odd l) eqn:Hodd; cbn [negb].
  - exists l, t1. repeat split; [done|].
    apply existsb_exists in Hodd as (d & Hd & Hdo).
    apply Exists_exists. exists d. split; [by apply list_elem_of_In|].
    by apply is_odd_spec.
  - destruct (choice_Ok [1; 3; 5; 7; 9] t1) as (v & Hv & Hin); [done|].
    rewrite (bind_Ok _ _ _ _ _ Hv).
    destruct (randint_Ok 0 (sequence_length config - 1) (advance t1))
      as (i & Hi & Hr); [lia|].
    rewrite (bind_Ok _ _ _ _ _ Hi).
    rewrite list_assign_Ok by lia.
    eexists _, _. split; [reflexivity|].
    assert (Hlt : (Z.to_nat i < length l)%nat) by lia.
    split.
    + intros Hnil. apply (f_equal length) in Hnil.
      rewrite length_insert in Hnil. simpl in Hnil. lia.
    + apply Exists_exists. exists v. split.
      * apply list_elem_of_lookup. exists (Z.to_nat i).
        by apply list_lookup_insert_eq.
      * rewrite <- is_odd_spec.
        repeat (apply elem_of_cons in Hin as [->|Hin]; [done|]).
        by apply elem_of_nil in Hin.
Qed.

(** X6. Generator and evaluator fit together: for a selective-recall
    configuration of length at least one, whatever the draws, the
    expected answer of the generated stimulus is not empty; when backward
    recall is off it consists of odd digits only. *)
Theorem selective_recall_answer_nonempty (config : Config) (t : tape) :
  selective_recall config = true ->
  1 <= sequence_length config ->
  exists (sequence : list Z) (t' : tape),
    generate_sequence config t = (Ok sequence, t')
    /\ get_expected_answer sequence config <> []
    /\ (backward config = false ->
        Forall Z.Odd (get_expected_answer sequence config)).
Proof.
  intros Hsel Hlen.
  destruct (generate_sequence_has_odd config t Hsel Hlen)
    as (sequence & t' & Hgen & Hne & Hodd).
  exists sequence, t'. split; [done|].
  unfold get_expected_answer. rewrite Hsel.
  destruct (backward config).
  - split; [|done]. intros Hr. apply Hne.
    apply (f_equal reverse) in Hr. by rewrite reverse_involutive in Hr.
  - split.
    + apply Exists_exists in Hodd as (d & Hd & Hdo).
      intros Hnil.
      assert (Hin : d ∈ filter (fun d => is_odd d = true) sequence).
      { apply list_elem_of_filter. split; [by apply is_odd_spec|done]. }
      rewrite Hnil in Hin. by apply elem_of_nil in Hin.
    + intros _. apply Forall_forall. intros d Hd.
      apply list_elem_of_filter in Hd as [Hd _]. by apply is_odd_spec.
Qed.

Lemma selective_recall_answer_nonempty_witness :
  selective_recall selective_config = true
  /\ 1 <= sequence_length selective_config
  /\ exists (sequence : list Z) (t' : tape),
       generate_sequence selective_config even_tape = (Ok sequence, t')
       /\ get_expected_answer sequence selective_config <> []
       /\ (backward selective_config = false ->
           Forall Z.Odd (get_expected_answer sequence selective_config)).
Proof.
  split; [reflexivity|]. split; [cbn; lia|].
  apply (selective_recall_answer_nonempty selective_config even_tape).
  - reflexivity.
  - cbn. lia.
Defined.

End DigitSpanSequences.

(** ** More on the digit-span answer loop *)

Section DigitSpanTyping.
Import DigitSpan DigitSpanDisplay.

Lemma digits_of_length (s : string) (l : list Z) :
  digits_of s = Some l -> length l = String.length s.
Proof.
  revert l. induction s as [|c s IH]; intros l; cbn [digits_of].
  - by intros [= <-].
  - destruct (int_of_char c); [|done].
    destruct (digits_of s) as [l'|]; [|done].
    intros [= <-]. simpl. f_equal. by apply IH.
Qed.

Lemma parse_answer_length (s : string) :
  (length (parse_answer s) <= String.length s)%nat.
Proof.
  unfold parse_answer. destruct (digits_of s) as [l|] eqn:Hl.
  - by rewrite (digits_of_length _ _ Hl).
  - simpl. lia.
Qed.

Lemma drop_last_length (s : string) :
  (String.length (drop_last s) <= String.length s)%nat.
Proof.
  induction s as [|c s IH]; [done|].
  destruct s as [|c' s]; [simpl; lia|].
  change (drop_last (String c (String c' s)))
    with (String c (drop_last (String c' s))).
  simpl in *. lia.
Qed.

Lemma snoc_length (s : string) (c : ascii) :
  String.length (s +:+ String c "") = S (String.length s).
Proof. induction s as [|c' s IH]; [done|]. simpl. by rewrite IH. Qed.

Lemma digits_of_snoc (s : string) (c : ascii) (l : list Z) (v : Z) :
  digits_of s = Some l -> int_of_char c = Some v ->
  digits_of (s +:+ String c "") = Some (l ++ [v]).
Proof.
  revert l. induction s as [|c' s IH]; intros l.
  - intros [= <-] Hc.
    change ("" +:+ String c "") with (String c "").
    cbn [digits_of]. by rewrite Hc.
  - cbn [digits_of]. destruct (int_of_char c') as [v'|] eqn:Hc'; [|done].
    destruct (digits_of s) as [l'|] eqn:Hs; [|done].
    intros [= <-] Hc.
    change (String c' s +:+ String c "") with (String c' (s +:+ String c "")).
    cbn [digits_of]. rewrite Hc'.
    by rewrite (IH l' eq_refl Hc).
Qed.

(** Typing a digit appends it to the buffer while the buffer has room. *)
Lemma digit_key_step (expected : list Z) (config : Config) (elapsed : Q)
    (user_input feedback : string) (events : list event) (d : Z) :
  0 <= d <= 9 ->
  (String.length user_input < max_input_len)%nat ->
  input_loop expected config elapsed user_input feedback
    (Key (ord "0" + d) :: events)
  = input_loop expected config elapsed
      (user_input +:+ String (ascii_of_nat (Z.to_nat (ord "0" + d))) "")
      feedback events
  /\ int_of_char (ascii_of_nat (Z.to_nat (ord "0" + d))) = Some d.
Proof.
  intros Hd Hlen.
  assert (Hcases : d = 0 \/ d = 1 \/ d = 2 \/ d = 3 \/ d = 4 \/ d = 5
                   \/ d = 6 \/ d = 7 \/ d = 8 \/ d = 9) by lia.
  assert (Hg : (max_input_len <=? String.length user_input)%nat = false)
    by (by apply Nat.leb_gt).
  assert (Hl : (String.length user_input <? max_input_len)%nat = true)
    by (by apply Nat.ltb_lt).
  cbn [input_loop]. rewrite Hg, Hl.
  repeat (destruct Hcases as [-> | Hcases]; [split; reflexivity|]).
  subst d. split; reflexivity.
Qed.

(** A full field ends the round: the next pass cannot redraw it. *)
Lemma full_field_raises (expected : list Z) (config : Config) (elapsed : Q)
    (user_input feedback : string) (events : list event) :
  (max_input_len <= String.length user_input)%nat ->
  input_loop expected config elapsed user_input feedback events
  = Some (Raise CursesError).
Proof.
  intros Hlen.
  assert (Hg : (max_input_len <=? String.length user_input)%nat = true)
    by (by apply Nat.leb_le).
  destruct events; cbn [input_loop]; by rewrite Hg.
Qed.

Lemma typing_digits (expected : list Z) (config : Config) (elapsed : Q)
    (feedback : string) (events : list event) (digits : list Z) :
  forall (user_input : string) (typed : list Z),
    digits_of user_input = Some typed ->
    Forall (fun d => 0 <= d <= 9) digits ->
    (String.length user_input + length digits <= max_input_len)%nat ->
    exists user_input',
      digits_of user_input' = Some (typed ++ digits)
      /\ input_loop expected config elapsed user_input feedback
           (digit_keys digits ++ events)
         = input_loop expected config elapsed user_input' feedback events.
Proof.
  induction digits as [|d digits IH]; intros user_input typed Htyped Hd Hlen.
  - exists user_input. by rewrite app_nil_r.
  - apply Forall_cons in Hd as [Hd Hds].
    destruct (digit_key_step expected config elapsed user_input feedback
                (digit_keys digits ++ events) d Hd) as [Hstep Hchar].
    { simpl in Hlen. lia. }
    cbn [digit_keys fmap list_fmap app]. fold (digit_keys digits).
    rewrite Hstep.
    destruct (IH (user_input
                  +:+ String (ascii_of_nat (Z.to_nat (ord "0" + d))) "")
                 (typed ++ [d])) as (ui' & Hui' & Hrun).
    + by apply digits_of_snoc.
    + done.
    + rewrite snoc_length. simpl in Hlen. lia.
    + exists ui'. split; [by rewrite Hui', <- app_assoc|done].
Qed.

(** X7. The answer loop accepts the right answer: typing the digits of the
    expected answer (fewer than 20 of them, each between 0 and 9) and
    Enter ends the round at once as a success carrying that answer and
    the measured time, whatever is typed afterwards. *)
Theorem typing_expected_answer_succeeds (sequence : list Z)
    (config : Config) (elapsed : Q) (rest : list event) :
  Forall (fun d => 0 <= d <= 9) sequence ->
  (length (get_expected_answer sequence config) < max_input_len)%nat ->
  get_user_response sequence config elapsed
    (digit_keys (get_expected_answer sequence config) ++ Key 10 :: rest)
  = Some (Ok {| success := true; response_time := elapsed;
                user_answer := get_expected_answer sequence config;
                wm_exit := false |}).
Proof.
  intros Hseq Hlen. unfold get_user_response.
  set (expected := get_expected_answer sequence config) in *.
  assert (Hexp : Forall (fun d => 0 <= d <= 9) expected).
  { apply Forall_forall. intros d Hd.
    eapply Forall_forall in Hseq; [exact Hseq|].
    eapply elem_of_submseteq; [exact Hd|].
    apply get_expected_answer_submseteq. }
  destruct (typing_digits expected config elapsed "" (Key 10 :: rest)
              expected "" [] eq_refl Hexp) as (ui & Hui & Hrun).
  { simpl. lia. }
  rewrite Hrun. simpl in Hui.
  assert (Hparse : parse_answer ui = expected).
  { unfold parse_answer. by rewrite Hui. }
  assert (Hg : (max_input_len <=? String.length ui)%nat = false).
  { apply Nat.leb_gt. by rewrite <- (digits_of_length _ _ Hui). }
  cbn [input_loop]. rewrite Hg.
  change (10 =? 3) with false.
  change (key_in 10 [ord "m"; ord "M"]) with false.
  change (key_in 10 [Curses.KEY_ENTER; 10; 13]) with true.
  cbv iota. rewrite Hparse.
  rewrite bool_decide_eq_true_2 by done. done.
Qed.

Lemma typing_expected_answer_succeeds_witness :
  Forall (fun d => 0 <= d <= 9) three_digits
  /\ (length (get_expected_answer three_digits forward_config)
      < max_input_len)%nat
  /\ get_user_response three_digits forward_config (5 # 2)
       (digit_keys (get_expected_answer three_digits forward_config)
        ++ Key 10 :: [])
     = Some (Ok {| success := true; response_time := 5 # 2;
                   user_answer :=
                     get_expected_answer three_digits forward_config;
                   wm_exit := false |}).
Proof.
  assert (H1 : Forall (fun d => 0 <= d <= 9) three_digits).
  { unfold three_digits. repeat constructor; lia. }
  assert (H2 : (length (get_expected_answer three_digits forward_config)
                < max_input_len)%nat).
  { vm_compute. lia. }
  split; [exact H1|]. split; [exact H2|].
  apply (typing_expected_answer_succeeds three_digits forward_config (5 # 2) []
           H1 H2).
Defined.

(** X8. The input field cannot hold 20 digits: the pass that follows the
    twentieth digit raises [curses.error] when it redraws the field. So
    an expected answer of 20 digits or more can never be submitted: every
    round on it that returns is a failure, and typing the answer ends the
    round with that error. *)
Theorem long_answer_never_succeeds (sequence : list Z) (config : Config)
    (elapsed : Q) :
  Forall (fun d => 0 <= d <= 9) sequence ->
  (max_input_len <= length (get_expected_answer sequence config))%nat ->
  (forall (events : list event) (r : Response),
     get_user_response sequence config elapsed events = Some (Ok r) ->
     success r = false)
  /\ (forall rest : list event,
        get_user_response sequence config elapsed
          (digit_keys (get_expected_answer sequence config) ++ rest)
        = Some (Raise CursesError)).
Proof.
  intros Hseq Hlong. unfold get_user_response.
  set (expected := get_expected_answer sequence config) in *.
  assert (Hexp : Forall (fun d => 0 <= d <= 9) expected).
  { apply Forall_forall. intros d Hd.
    eapply Forall_forall in Hseq; [exact Hseq|].
    eapply elem_of_submseteq; [exact Hd|].
    apply get_expected_answer_submseteq. }
  clearbody expected. split.
  - intros events r.
    assert (Hloop :
      forall user_input feedback,
        input_loop expected config elapsed user_input feedback events
        = Some (Ok r) ->
        success r = false); [|by apply Hloop].
    induction events as [|ev events IH]; intros user_input feedback;
      cbn [input_loop];
      (destruct (Nat.leb_spec max_input_len (String.length user_input))
         as [|Hui]; [done|]); [done|].
    destruct ev as [key|]; [|by intros [= <-]].
    destruct (key =? 3); [by intros [= <-]|].
    destruct (key_in key [ord "m"; ord "M"]); [by intros [= <-]|].
    destruct (key_in key [Curses.KEY_ENTER; 10; 13]).
    { case_bool_decide as Heq; [|by apply IH].
      pose proof (parse_answer_length user_input). rewrite Heq in *. lia. }
    destruct ((key =? Curses.KEY_BACKSPACE) || (key =? 127)); [apply IH|].
    destruct ((ord "0" <=? key) && (key <=? ord "9")); apply IH.
  - intros rest.
    assert (Hsplit : digit_keys expected
                     = digit_keys (take max_input_len expected)
                       ++ digit_keys (drop max_input_len expected)).
    { unfold digit_keys. by rewrite <- fmap_app, take_drop. }
    rewrite Hsplit, <- app_assoc.
    destruct (typing_digits expected config elapsed ""
                (digit_keys (drop max_input_len expected) ++ rest)
                (take max_input_len expected) "" [] eq_refl)
      as (ui & Hui & Hrun).
    + by apply Forall_take.
    + rewrite length_take. cbn [String.length Nat.add]. lia.
    + rewrite Hrun. apply full_field_raises.
      rewrite <- (digits_of_length _ _ Hui). cbn [app].
      rewrite length_take. lia.
Qed.

Lemma long_answer_never_succeeds_witness :
  Forall (fun d => 0 <= d <= 9) long_sequence
  /\ (max_input_len
      <= length (get_expected_answer long_sequence forward_config))%nat
  /\ get_user_response long_sequence forward_config (5 # 2)
       [Key 55; Key 55; Key 10; Key (ord "m")]
     = Some (Ok menu_response)
  /\ (forall (events : list event) (r : Response),
        get_user_response long_sequence forward_config (5 # 2) events
        = Some (Ok r) ->
        success r = false)
  /\ (forall rest : list event,
        get_user_response long_sequence forward_config (5 # 2)
          (digit_keys (get_expected_answer long_sequence forward_config)
           ++ rest)
        = Some (Raise CursesError)).
Proof.
  assert (H1 : Forall (fun d => 0 <= d <= 9) long_sequence).
  { apply Forall_forall. intros d Hd.
    apply elem_of_replicate in Hd as [-> _]. lia. }
  assert (H2 : (max_input_len
                <= length (get_expected_answer long_sequence
                             forward_config))%nat).
  { vm_compute. lia. }
  split; [exact H1|]. split; [exact H2|].
  split; [vm_compute; reflexivity|].
  apply (long_answer_never_succeeds long_sequence forward_config (5 # 2)
           H1 H2).
Defined.

Lemma pretty_digit (d : Z) :
  0 <= d <= 9 ->
  pretty d = String (ascii_of_nat (Z.to_nat (ord "0" + d))) "".
Proof.
  intros Hd.
  assert (Hcases : d = 0 \/ d = 1 \/ d = 2 \/ d = 3 \/ d = 4 \/ d = 5
                   \/ d = 6 \/ d = 7 \/ d = 8 \/ d = 9) by lia.
  repeat (destruct Hcases as [-> | Hcases]; [vm_compute; reflexivity|]).
  subst d. vm_compute. reflexivity.
Qed.

Lemma digits_of_join_digits (l : list Z) :
  Forall (fun d => 0 <= d <= 9) l -> digits_of (join_digits l) = Some l.
Proof.
  induction 1 as [|d l Hd Hl IH]; [done|].
  cbn [join_digits foldr]. fold (join_digits l).
  rewrite (pretty_digit d Hd).
  change (String ?c "" +:+ ?s) with (String c s).
  cbn [digits_of].
  destruct (digit_key_step [] forward_config 0 "" "" [] d Hd) as [_ ->];
    [by apply Nat.ltb_lt|].
  by rewrite IH.
Qed.

(** X9. The correct answer shown on the result screen reads back as the
    expected answer: for a stored stimulus of digits and a stored
    configuration, parsing the displayed text digit by digit, as the
    answer loop does, gives exactly the expected answer. *)
Theorem correct_answer_reads_back (current_sequence : list Z)
    (config : Config) :
  current_sequence <> [] ->
  Forall (fun d => 0 <= d <= 9) current_sequence ->
  parse_answer (get_correct_answer current_sequence (Some config))
  = get_expected_answer current_sequence config.
Proof.
  intros Hne Hseq. unfold get_correct_answer.
  rewrite bool_decide_eq_false_2 by done. cbv zeta.
  unfold parse_answer. rewrite digits_of_join_digits; [done|].
  apply Forall_forall. intros d Hd.
  eapply Forall_forall in Hseq; [exact Hseq|].
  eapply elem_of_submseteq; [exact Hd|].
  apply get_expected_answer_submseteq.
Qed.

Lemma correct_answer_reads_back_witness :
  three_digits <> []
  /\ Forall (fun d => 0 <= d <= 9) three_digits
  /\ parse_answer (get_correct_answer three_digits (Some selective_config))
     = get_expected_answer three_digits selective_config.
Proof.
  assert (H1 : three_digits <> []) by discriminate.
  assert (H2 : Forall (fun d => 0 <= d <= 9) three_digits).
  { unfold three_digits. repeat constructor; lia. }
  split; [exact H1|]. split; [exact H2|].
  apply (correct_answer_reads_back three_digits selective_config H1 H2).
Defined.

End DigitSpanTyping.

(** ** The interference task *)

Section InterferenceFacts.
Import Interference.

(** X10. The interference problem is either a sum or a difference of two
    numbers from 1 to 20, the larger operand of a difference shown first;
    its answer therefore lies between 0 and 40, and 0 does occur. *)
Theorem interference_answer_range (t : tape) :
  (exists (text : string) (answer : Z) (t' : tape),
     show_interference_task_problem t = (Ok (text, answer), t')
     /\ 0 <= answer <= 40
     /\ exists a b : Z,
          1 <= a <= 20 /\ 1 <= b <= 20
          /\ ((text = pretty a +:+ " + " +:+ pretty b +:+ " = ?"
               /\ answer = a + b)
              \/ (text = pretty a +:+ " - " +:+ pretty b +:+ " = ?"
                  /\ answer = a - b /\ b <= a)))
  /\ exists (t0 : tape) (text : string),
       fst (show_interference_task_problem t0) = Ok (text, 0).
Proof.
  split.
  - unfold show_interference_task_problem.
    destruct (randint_Ok 1 20 t) as (n1 & H1 & R1); [lia|].
    destruct (randint_Ok 1 20 (advance t)) as (n2 & H2 & R2); [lia|].
    destruct (choice_Ok ["+"; "-"] (advance (advance t))) as (op & Hop & Hin);
      [done|].
    rewrite (bind_Ok _ _ _ _ _ H1), (bind_Ok _ _ _ _ _ H2),
      (bind_Ok _ _ _ _ _ Hop).
    case_bool_decide as Hplus.
    + eexists _, _, _. split; [reflexivity|]. split; [lia|].
      exists n1, n2. split; [done|]. split; [done|]. by left.
    + destruct (Z.ltb_spec n1 n2); cbn [fst snd].
      * eexists _, _, _. split; [reflexivity|]. split; [lia|].
        exists n2, n1. split; [done|]. split; [done|]. right.
        split; [done|]. split; [done|]. lia.
      * eexists _, _, _. split; [reflexivity|]. split; [lia|].
        exists n1, n2. split; [done|]. split; [done|]. right.
        split; [done|]. split; [done|]. lia.
  - exists (fun n => match n with 2%nat => 1%nat | _ => O end).
    eexists. vm_compute. reflexivity.
Qed.

End InterferenceFacts.

(** ** More on the spatial-pattern generators *)

Section SpatialGeneratorOutcome.
Import SpatialPattern.

#[local] Existing Instance cell_le_total.
#[local] Existing Instance cell_le_trans.
#[local] Existing Instance cell_le_antisymm.

(** The three ways the parameter generator can end. *)
Lemma spatial_config_outcome (meta_section : option Meta) (level : Z)
    (t : tape) :
  let meta := match meta_section with Some m => m | None => default_meta end in
  let n := default 2 (grid_size_increase_every_n_levels meta) in
  let gs :=
    grid_size_base meta
    + Z.min ((level - 1) `div` n) (max_grid_size meta - grid_size_base meta) in
  let min_cells :=
    min_cells_level_1 meta
    + (level - 1) * max_additional_cells_per_level meta in
  let max_cells :=
    Z.min (min_cells + max_additional_cells_per_level meta) (gs * gs - 1) in
  (n = 0 ->
   generate_next_challenge_config meta_section level t
   = (Raise ZeroDivisionError, t))
  /\ (n <> 0 -> max_cells < min_cells ->
      generate_next_challenge_config meta_section level t
      = (Raise ValueError, t))
  /\ (n <> 0 -> min_cells <= max_cells ->
      exists config t',
        generate_next_challenge_config meta_section level t = (Ok config, t')
        /\ grid_size config = gs
        /\ min_cells <= pattern_size config <= max_cells
        /\ display_time config
           = pymax (1 # 2)
               (display_time_base meta
                - inject_Z (level - 1)
                  * display_time_reduction_per_level meta)
        /\ (interference config = true ->
            default 7 (interference_intro_level meta) <= level)
        /\ (use_multiple_highlights config = true ->
            default 5 (multiple_highlights_intro_level meta) <= level)).
Proof.
  intros meta n gs min_cells max_cells.
  unfold generate_next_challenge_config. fold meta. fold n.
  unfold floordiv. split; [|split].
  - intros ->. done.
  - intros Hn Hlt. destruct (Z.eqb_spec n 0); [done|].
    rewrite bind_ret. fold gs. fold min_cells. fold max_cells.
    unfold randint. destruct (Z.leb_spec min_cells max_cells); [lia|]. done.
  - intros Hn Hle. destruct (Z.eqb_spec n 0); [done|].
    rewrite bind_ret. fold gs. fold min_cells. fold max_cells.
    destruct (randint_Ok min_cells max_cells t Hle) as (ps & Hps & Hr).
    rewrite (bind_Ok _ _ _ _ _ Hps).
    destruct (Z.leb_spec (default 7 (interference_intro_level meta)) level);
      destruct (Z.leb_spec (default 5 (multiple_highlights_intro_level meta))
                  level);
      unfold choice, bind, draw, ret; cbn [length];
      repeat match goal with
        | |- context [nth ?i [true; false] true] =>
            destruct (nth i [true; false] true)
        end;
      (eexists _, _; split; [reflexivity|]);
      cbn [grid_size pattern_size display_time interference
           use_multiple_highlights];
      repeat split; try done; try lia.
Qed.

(** X11. Whenever the spatial parameter generator returns, for any level
    and any meta-parameters, the pattern is strictly smaller than the
    grid (pattern_size <= grid_size^2 - 1) and is shown for at least
    0.5 s. *)
Theorem spatial_config_clamped (meta_section : option Meta) (level : Z)
    (t t' : tape) (config : Config) :
  generate_next_challenge_config meta_section level t = (Ok config, t') ->
  pattern_size config <= grid_size config * grid_size config - 1
  /\ (1 # 2 <= display_time config)%Q.
Proof.
  intros Hgen.
  destruct (spatial_config_outcome meta_section level t) as (H0 & Hv & Hok).
  cbv zeta in *.
  set (meta := match meta_section with Some m => m | None => default_meta end)
    in *.
  set (n := default 2 (grid_size_increase_every_n_levels meta)) in *.
  destruct (decide (n = 0)) as [Hn|Hn].
  { rewrite (H0 Hn) in Hgen. done. }
  match type of Hv with _ -> ?a < ?b -> _ =>
    destruct (decide (a < b)) as [Hlt|Hge] end.
  { rewrite (Hv Hn Hlt) in Hgen. done. }
  destruct (Hok Hn) as (c & t1 & Hc & Hgs & Hps & Hdt & _); [lia|].
  rewrite Hc in Hgen. injection Hgen as <- <-.
  rewrite Hgs, Hdt. split; [lia|apply pymax_floor].
Qed.

Lemma spatial_config_clamped_witness :
  generate_next_challenge_config None 10 mixed_tape
  = (Ok level_10_spatial_config, advance (advance (advance mixed_tape)))
  /\ pattern_size level_10_spatial_config
     <= grid_size level_10_spatial_config * grid_size level_10_spatial_config
        - 1
  /\ (1 # 2 <= display_time level_10_spatial_config)%Q.
Proof.
  assert (H : generate_next_challenge_config None 10 mixed_tape
              = (Ok level_10_spatial_config,
                 advance (advance (advance mixed_tape)))).
  { reflexivity. }
  split; [exact H|].
  apply (spatial_config_clamped None 10 mixed_tape _ _ H).
Defined.

(** X12. With the built-in meta-parameters and a level of at least 1, the
    spatial parameter generator returns a configuration exactly up to
    level 23; from level 24 on the smallest pattern no longer fits the
    7 x 7 grid and the draw of the pattern size raises [ValueError]. *)
Theorem spatial_generator_level_limit (level : Z) (t : tape) :
  1 <= level ->
  (level <= 23 ->
   exists config t',
     generate_next_challenge_config None level t = (Ok config, t'))
  /\ (24 <= level ->
      generate_next_challenge_config None level t = (Raise ValueError, t)).
Proof.
  intros Hlevel.
  destruct (spatial_config_outcome None level t) as (_ & Hv & Hok).
  cbn -[Z.div Z.min Z.mul Z.add Z.sub Z.lt Z.le generate_next_challenge_config]
    in Hv, Hok.
  assert (Hdiv : (level <= 8 -> 0 <= (level - 1) `div` 2 <= 3
                                /\ level - 1 <= 2 * ((level - 1) `div` 2) + 1)
                 /\ (9 <= level -> 4 <= (level - 1) `div` 2)).
  { pose proof (Z.div_mod (level - 1) 2 ltac:(lia)).
    pose proof (Z.mod_pos_bound (level - 1) 2 ltac:(lia)). lia. }
  destruct Hdiv as [Hlow Hhigh].
  split.
  - intros H23. destruct Hok as (config & t' & Hgen & _); [lia| |eauto].
    destruct (decide (level <= 8)) as [H8|H8].
    + destruct (Hlow H8) as [Hq Hq']. rewrite Z.min_l by lia. nia.
    + rewrite (Z.min_r ((level - 1) `div` 2)) by lia. lia.
  - intros H24. apply Hv; [lia|].
    rewrite (Z.min_r ((level - 1) `div` 2)) by lia. lia.
Qed.

Lemma spatial_generator_level_limit_witness :
  1 <= 24
  /\ (24 <= 23 ->
      exists config t',
        generate_next_challenge_config None 24 mixed_tape = (Ok config, t'))
  /\ (24 <= 24 ->
      generate_next_challenge_config None 24 mixed_tape
      = (Raise ValueError, mixed_tape)).
Proof.
  split; [lia|].
  apply (spatial_generator_level_limit 24 mixed_tape). lia.
Defined.

(** X13. A settings file that sets [grid_size_increase_every_n_levels] to
    0 makes the spatial parameter generator raise [ZeroDivisionError], at
    every level and before any draw. *)
Theorem spatial_generator_zero_step (meta : Meta) (level : Z) (t : tape) :
  grid_size_increase_every_n_levels meta = Some 0 ->
  generate_next_challenge_config (Some meta) level t
  = (Raise ZeroDivisionError, t).
Proof.
  intros H0.
  destruct (spatial_config_outcome (Some meta) level t) as (Hz & _).
  apply Hz. by rewrite H0.
Qed.

Lemma spatial_generator_zero_step_witness :
  grid_size_increase_every_n_levels zero_step_meta = Some 0
  /\ generate_next_challenge_config (Some zero_step_meta) 3 mixed_tape
     = (Raise ZeroDivisionError, mixed_tape).
Proof.
  split; [reflexivity|].
  apply (spatial_generator_zero_step zero_step_meta 3 mixed_tape).
  reflexivity.
Defined.

End SpatialGeneratorOutcome.

Section SpatialStimulus.
Import SpatialPattern.

#[local] Existing Instance cell_le_total.
#[local] Existing Instance cell_le_trans.
#[local] Existing Instance cell_le_antisymm.

Lemma sample_go_sub {A} (k : nat) :
  forall (pool : list A) (t t' : tape) (l : list A),
    sample_go k pool t = (Ok l, t') -> length l = k /\ l ⊆+ pool.
Proof.
  induction k as [|k IH]; intros pool t t' l; cbn [sample_go].
  - unfold ret. intros [= <- _]. split; [done|apply submseteq_nil_l].
  - destruct pool as [|x pool]; [done|].
    unfold bind at 1. unfold draw.
    set (i := (t O mod length (x :: pool))%nat).
    assert (Hi : (i < length (x :: pool))%nat).
    { apply Nat.mod_upper_bound. simpl. lia. }
    destruct (lookup_lt_is_Some_2 _ _ Hi) as [y Hy].
    unfold bind.
    destruct (sample_go k (delete i (x :: pool)) (advance t))
      as [[rest|e] t1] eqn:Hrest; [|done].
    unfold ret. intros [= <- _].
    apply IH in Hrest as [Hlen Hsub].
    pose proof (nth_lookup_Some _ _ x _ Hy) as Hnth.
    cbn [nth] in Hnth. rewrite Hnth.
    split; [simpl; congruence|].
    rewrite (delete_Permutation _ _ _ Hy). by apply submseteq_skip.
Qed.

Lemma sample_sub {A} (population : list A) (k : Z) (t t' : tape)
    (l : list A) :
  sample population k t = (Ok l, t') ->
  Z.of_nat (length l) = k /\ l ⊆+ population.
Proof.
  unfold sample. destruct (_ || _) eqn:Hbad; [done|].
  apply orb_false_iff in Hbad as [Hneg Hbig]. apply Z.ltb_ge in Hneg.
  intros [Hlen Hsub]%sample_go_sub. split; [lia|done].
Qed.

Lemma assign_highlights_spec (types : list highlight) (pattern : list cell) :
  forall (hs hs' : gmap cell highlight) (t t' : tape),
    assign_highlights types pattern hs t = (Ok hs', t') ->
    dom hs' = dom hs ∪ list_to_set pattern
    /\ forall p h, hs' !! p = Some h -> hs !! p = Some h \/ h ∈ types.
Proof.
  induction pattern as [|pos rest IH]; intros hs hs' t t';
    cbn [assign_highlights].
  - unfold ret. intros [= <- _]. split; [set_solver|auto].
  - unfold bind.
    destruct (choice types t) as [[h|e] t1] eqn:Hh; [|done].
    intros Hrun. apply IH in Hrun as [Hdom Hval].
    assert (Hin : h ∈ types).
    { destruct types as [|x types]; [done|].
      destruct (choice_Ok (x :: types) t) as (h' & Hh' & Hin'); [done|].
      rewrite Hh' in Hh. by injection Hh as <- _. }
    split.
    + rewrite Hdom, dom_insert_L. set_solver.
    + intros p h0 Hp. destruct (Hval p h0 Hp) as [Hold|?]; [|by right].
      destruct (decide (pos = p)) as [->|Hne].
      * rewrite lookup_insert_eq in Hold. injection Hold as <-. by right.
      * rewrite lookup_insert_ne in Hold by done. by left.
Qed.

Lemma solid_highlights_spec (pattern : list cell) :
  forall hs : gmap cell highlight,
    dom (foldl (fun hs pos => <[pos := SolidFill]> hs) hs pattern)
    = dom hs ∪ list_to_set pattern
    /\ forall p h,
         foldl (fun hs pos => <[pos := SolidFill]> hs) hs pattern !! p
         = Some h ->
         hs !! p = Some h \/ h = SolidFill.
Proof.
  induction pattern as [|pos rest IH]; intros hs; cbn [foldl].
  - split; [set_solver|auto].
  - destruct (IH (<[pos := SolidFill]> hs)) as [Hdom Hval]. split.
    + rewrite Hdom, dom_insert_L. set_solver.
    + intros p h Hp. destruct (Hval p h Hp) as [Hold|?]; [|by right].
      destruct (decide (pos = p)) as [->|Hne].
      * rewrite lookup_insert_eq in Hold. injection Hold as <-. by right.
      * rewrite lookup_insert_ne in Hold by done. by left.
Qed.

(** X14. Whenever the stimulus generator returns, the pattern is a
    strictly increasing (lexicographically sorted, duplicate-free) list of
    [pattern_size] cells of the grid, every cell of the pattern and no
    other has a highlight, a single style is used unless multiple
    highlights are on, and then the cells share at most 3 styles of the
    palette. *)
Theorem generate_pattern_stimulus (config : Config) (t t' : tape)
    (pattern : list cell) (highlights : gmap cell highlight) :
  generate_pattern config t = (Ok (pattern, highlights), t') ->
  Sorted cell_le pattern
  /\ NoDup pattern
  /\ Z.of_nat (length pattern) = pattern_size config
  /\ Forall (fun p => 0 <= p.1 < grid_size config
                      /\ 0 <= p.2 < grid_size config) pattern
  /\ dom highlights = list_to_set pattern
  /\ (use_multiple_highlights config = false ->
      forall p h, highlights !! p = Some h -> h = SolidFill)
  /\ exists styles : list highlight,
       length styles = 3%nat /\ styles ⊆+ HIGHLIGHT_PATTERNS
       /\ (use_multiple_highlights config = true ->
           forall p h, highlights !! p = Some h -> h ∈ styles).
Proof.
  unfold generate_pattern.
  unfold bind at 1.
  destruct (sample (all_positions (grid_size config)) (pattern_size config) t)
    as [[l|e] t1] eqn:Hl; [|done].
  apply sample_sub in Hl as [Hlen Hsub].
  assert (Hperm : sorted l ≡ₚ l) by apply cells_sorted_Permutation.
  assert (Hbase : Sorted cell_le (sorted l) /\ NoDup (sorted l)
                  /\ Z.of_nat (length (sorted l)) = pattern_size config
                  /\ Forall (fun p => 0 <= p.1 < grid_size config
                                      /\ 0 <= p.2 < grid_size config)
                            (sorted l)).
  { split; [apply (Sorted_merge_sort cell_le)|]. rewrite Hperm.
    split; [eapply submseteq_NoDup; [done|apply NoDup_all_positions]|].
    split; [done|].
    apply Forall_forall. intros p Hp.
    apply elem_of_all_positions. by eapply elem_of_submseteq. }
  destruct Hbase as (B1 & B2 & B3 & B4).
  destruct (use_multiple_highlights config).
  - unfold bind at 1.
    destruct (sample HIGHLIGHT_PATTERNS
                (Z.min 3 (Z.of_nat (length HIGHLIGHT_PATTERNS))) t1)
      as [[types|e] t2] eqn:Hty; [|done].
    apply sample_sub in Hty as [Htl Hts].
    assert (Htl3 : length types = 3%nat).
    { change (Z.min 3 (Z.of_nat (length HIGHLIGHT_PATTERNS))) with 3 in Htl.
      lia. }
    unfold bind.
    destruct (assign_highlights types (sorted l) ∅ t2) as [[hs|e] t3] eqn:Hhs;
      [|done].
    unfold ret. intros [= <- <- _].
    apply assign_highlights_spec in Hhs as [Hdom Hval].
    split; [done|]. split; [done|]. split; [done|]. split; [done|].
    split; [rewrite Hdom; set_solver|]. split; [done|].
    exists types. split; [exact Htl3|]. split; [done|].
    intros _ p h Hp. destruct (Hval p h Hp) as [Hemp|?]; [|done].
    by rewrite lookup_empty in Hemp.
  - unfold ret. intros [= <- <- _].
    destruct (solid_highlights_spec (sorted l) ∅) as [Hdom Hval].
    split; [done|]. split; [done|]. split; [done|]. split; [done|].
    split; [rewrite Hdom; set_solver|]. split.
    + intros _ p h Hp. destruct (Hval p h Hp) as [Hemp|?]; [|done].
      by rewrite lookup_empty in Hemp.
    + exists (take 3 HIGHLIGHT_PATTERNS). split; [done|].
      split; [|done]. apply sublist_submseteq, sublist_take.
Qed.

(** X15. The stimulus generator raises [ValueError] exactly when it is
    asked for a negative number of cells or for more cells than the grid
    has; otherwise it returns. *)
Theorem generate_pattern_fails_iff (config : Config) (t : tape) :
  0 <= grid_size config ->
  fst (generate_pattern config t) = Raise ValueError
  <-> (pattern_size config < 0
       \/ grid_size config * grid_size config < pattern_size config).
Proof.
  intros Hgrid. split.
  - intros Hfail.
    destruct (decide (pattern_size config < 0
                      \/ grid_size config * grid_size config
                         < pattern_size config)) as [|Hok]; [done|].
    destruct (generate_pattern_Ok config t) as (p & h & t' & Hgen & _);
      [lia|lia|].
    rewrite Hgen in Hfail. done.
  - intros Hbad. unfold generate_pattern, sample.
    rewrite length_all_positions.
    destruct (_ || _) eqn:Htest; [done|].
    apply orb_false_iff in Htest as [Hneg Hbig].
    apply Z.ltb_ge in Hneg, Hbig. nia.
Qed.

Lemma generate_pattern_fails_iff_witness :
  0 <= grid_size crowded_config
  /\ (fst (generate_pattern crowded_config mixed_tape) = Raise ValueError
      <-> (pattern_size crowded_config < 0
           \/ grid_size crowded_config * grid_size crowded_config
              < pattern_size crowded_config)).
Proof.
  assert (H : 0 <= grid_size crowded_config) by (cbn; lia).
  split; [exact H|].
  apply (generate_pattern_fails_iff crowded_config mixed_tape H).
Defined.

End SpatialStimulus.

Section SpatialSelection.
Import SpatialPattern.

Lemma remove_first_Forall (P : cell -> Prop) (x : cell) (l : list cell) :
  Forall P l -> Forall P (remove_first x l).
Proof.
  induction 1 as [|y l Hy Hl IH]; cbn [remove_first]; [constructor|].
  case_bool_decide; [done|]. by constructor.
Qed.

Lemma remove_first_length (x : cell) (l : list cell) :
  (length (remove_first x l) <= length l)%nat.
Proof.
  induction l as [|y l IH]; cbn [remove_first]; [done|].
  case_bool_decide; simpl; lia.
Qed.

Lemma spatial_loop_invariant (pattern : list cell) (config : Config)
    (elapsed : Q) (events : list event) :
  let inside := fun p : cell => 0 <= p.1 < grid_size config
                                /\ 0 <= p.2 < grid_size config in
  forall (cursor : cell) (sel : list cell) (r : Response),
    inside cursor -> Forall inside sel ->
    Z.of_nat (length sel) <= Z.max 0 (pattern_size config) ->
    input_loop pattern config elapsed cursor sel events = Some r ->
    Forall inside (user_answer r)
    /\ Z.of_nat (length (user_answer r)) <= Z.max 0 (pattern_size config).
Proof.
  intros inside.
  induction events as [|ev events IH]; intros cursor sel r Hc Hs Hn; [done|].
  destruct ev as [key|]; cbn [input_loop].
  2: { intros [= <-]. cbn. split; [constructor|lia]. }
  destruct (key =? 3); [intros [= <-]; cbn; split; [constructor|lia]|].
  destruct (key_in key [ord "m"; ord "M"]);
    [intros [= <-]; cbn; split; [constructor|lia]|].
  destruct (key_in key [ord "s"; ord "S"; Curses.KEY_ENTER; 10; 13]);
    [intros [= <-]; cbn; split; done|].
  destruct (key =? ord " ").
  { case_bool_decide.
    - apply IH; [done|by apply remove_first_Forall|].
      pose proof (remove_first_length cursor sel). lia.
    - destruct (Z.ltb_spec (Z.of_nat (length sel)) (pattern_size config)).
      + apply IH; [done| |].
        * apply Forall_app. split; [done|by constructor].
        * rewrite length_app. simpl. lia.
      + by apply IH. }
  destruct Hc as [Hrow Hcol].
  destruct (key_in key [ord "k"; Curses.KEY_UP] && (0 <? cursor.1)) eqn:Hk.
  { apply andb_true_iff in Hk as [_ Hk]. apply Z.ltb_lt in Hk.
    apply IH; [|done|done]. unfold inside. cbn [fst snd]. lia. }
  clear Hk.
  destruct (key_in key [ord "j"; Curses.KEY_DOWN]
            && (cursor.1 <? grid_size config - 1)) eqn:Hk.
  { apply andb_true_iff in Hk as [_ Hk]. apply Z.ltb_lt in Hk.
    apply IH; [|done|done]. unfold inside. cbn [fst snd]. lia. }
  clear Hk.
  destruct (key_in key [ord "h"; Curses.KEY_LEFT] && (0 <? cursor.2)) eqn:Hk.
  { apply andb_true_iff in Hk as [_ Hk]. apply Z.ltb_lt in Hk.
    apply IH; [|done|done]. unfold inside. cbn [fst snd]. lia. }
  clear Hk.
  destruct (key_in key [ord "l"; Curses.KEY_RIGHT]
            && (cursor.2 <? grid_size config - 1)) eqn:Hk.
  { apply andb_true_iff in Hk as [_ Hk]. apply Z.ltb_lt in Hk.
    apply IH; [|done|done]. unfold inside. cbn [fst snd]. lia. }
  by apply IH.
Qed.

(** X16. In the spatial answer loop the cursor never leaves the grid and
    a cell is only added while fewer than [pattern_size] are selected: on
    a grid of size at least 1, every answer the loop returns consists of
    cells of the grid, at most [pattern_size] of them, none twice. *)
Theorem spatial_answer_within_grid (pattern : list cell) (config : Config)
    (elapsed : Q) (events : list event) (r : Response) :
  1 <= grid_size config ->
  get_user_response pattern config elapsed events = Some r ->
  Forall (fun p => 0 <= p.1 < grid_size config
                   /\ 0 <= p.2 < grid_size config) (user_answer r)
  /\ Z.of_nat (length (user_answer r)) <= Z.max 0 (pattern_size config)
  /\ NoDup (user_answer r).
Proof.
  intros Hgrid Hrun.
  destruct (spatial_loop_invariant pattern config elapsed events (0, 0) [] r)
    as [Hin Hlen]; [cbn; lia|constructor|simpl; lia|exact Hrun|].
  split; [exact Hin|]. split; [exact Hlen|].
  eapply spatial_input_loop_NoDup; [|exact Hrun]. constructor.
Qed.

Lemma spatial_answer_within_grid_witness :
  1 <= grid_size level_10_spatial_config
  /\ get_user_response [(0, 1)] level_10_spatial_config (7 # 4)
       spatial_keys = Some spatial_response
  /\ Forall (fun p => 0 <= p.1 < grid_size level_10_spatial_config
                      /\ 0 <= p.2 < grid_size level_10_spatial_config)
            (user_answer spatial_response)
  /\ Z.of_nat (length (user_answer spatial_response))
     <= Z.max 0 (pattern_size level_10_spatial_config)
  /\ NoDup (user_answer spatial_response).
Proof.
  assert (H1 : 1 <= grid_size level_10_spatial_config) by (vm_compute; done).
  assert (H2 : get_user_response [(0, 1)] level_10_spatial_config (7 # 4)
                 spatial_keys = Some spatial_response).
  { vm_compute. reflexivity. }
  split; [exact H1|]. split; [exact H2|].
  apply (spatial_answer_within_grid [(0, 1)] level_10_spatial_config (7 # 4)
           spatial_keys spatial_response H1 H2).
Defined.

End SpatialSelection.

(** ** More on the document store *)

Section StoreRoundTrips.
Import SaveLoad.
Context {D : Type}.
Variable ROOT_DIR : string.

(** X17. What was saved is what is loaded: when [save_json_file] answers
    [True], a following [load_json_file] of the same path returns the
    saved document, with or without a default, and leaves the disk as it
    is. When it answers [False] the file is as it was only if it could
    not be opened: a write that failed after the file was opened has
    destroyed the old document (the text left no longer decodes), and a
    failed [fsync] leaves the new one. No other file is touched. *)
Theorem save_then_load (path : string) (data : D) (fs fs' : disk)
    (saved : bool) :
  save_json_file ROOT_DIR path data fs = (Ok saved, fs') ->
  (forall q, q <> get_absolute_path ROOT_DIR path ->
             files fs' !! q = files fs !! q)
  /\ if saved
     then forall default : option D,
            load_json_file ROOT_DIR path default fs' = (Ok data, fs')
     else exists stage : write_failure,
            write_failures fs !! get_absolute_path ROOT_DIR path
            = Some stage
            /\ files fs' !! get_absolute_path ROOT_DIR path
               = left_behind stage
                   (files fs !! get_absolute_path ROOT_DIR path) data
            /\ (stage = AtDump ->
                load_json_file ROOT_DIR path None fs'
                = (Raise JSONDecodeError, fs')).
Proof.
  rewrite save_json_file_bool.
  destruct (write_failures fs !! get_absolute_path ROOT_DIR path)
    as [stage|] eqn:Hw; intros [= <- <-].
  - split.
    + intros q Hq. destruct stage; cbn; [done|by apply lookup_insert_ne..].
    + exists stage. split; [done|]. split.
      * destruct stage; cbn; [done|apply lookup_insert_eq..].
      * intros ->. apply load_json_file_garbled_None.
        cbn. apply lookup_insert_eq.
  - split.
    + intros q Hq. cbn. by apply lookup_insert_ne.
    + intros default. apply load_json_file_present.
      cbn [written files]. apply lookup_insert_eq.
Qed.

(** X18. Loading with a default is idempotent, except on a full disk:
    unless writes to the path fail after the file is opened, whenever a
    load returns a document, loading the same path again with the same
    default returns the same document and no longer changes the disk.
    Where they do fail so, the first load of a missing file returns the
    default and leaves truncated text, on which the second load raises
    [OSError]. *)
Theorem load_json_file_idempotent (path : string) (default : D)
    (fs : disk) :
  (write_failures fs !! get_absolute_path ROOT_DIR path <> Some AtDump ->
   forall (data : D) (fs' : disk),
     load_json_file ROOT_DIR path (Some default) fs = (Ok data, fs') ->
     load_json_file ROOT_DIR path (Some default) fs' = (Ok data, fs'))
  /\ (write_failures fs !! get_absolute_path ROOT_DIR path = Some AtDump ->
      files fs !! get_absolute_path ROOT_DIR path = None ->
      exists fs' : disk,
        load_json_file ROOT_DIR path (Some default) fs
        = (Ok default, fs')
        /\ load_json_file ROOT_DIR path (Some default) fs'
           = (Raise OSError, fs')).
Proof.
  split.
  - intros Hstage data fs'.
    destruct (files fs !! get_absolute_path ROOT_DIR path)
      as [[d| |]|] eqn:Hf.
    + rewrite (load_json_file_present _ _ _ _ _ Hf). intros [= <- <-].
      by apply load_json_file_present.
    + destruct (write_failures fs !! get_absolute_path ROOT_DIR path)
        as [stage|] eqn:Hw.
      * rewrite (load_json_file_garbled_unwritable _ _ _ _ _ Hf Hw).
        case_bool_decide as Hs; [|done]. subst stage. intros [= <- <-].
        apply load_json_file_present. cbn. apply lookup_insert_eq.
      * apply write_failures_None in Hw.
        rewrite (load_json_file_garbled _ _ _ _ Hf Hw). intros [= <- <-].
        apply load_json_file_present. cbn [written files].
        apply lookup_insert_eq.
    + rewrite (load_json_file_unreadable _ _ _ _ Hf). intros [= <- <-].
      by apply load_json_file_unreadable.
    + destruct (write_failures fs !! get_absolute_path ROOT_DIR path)
        as [stage|] eqn:Hw.
      * rewrite (load_json_file_absent_unwritable _ _ _ _ _ Hf Hw).
        intros [= <- <-]. destruct stage; [|done|].
        -- by apply (load_json_file_absent_unwritable _ _ _ _ AtOpen).
        -- apply load_json_file_present. cbn. apply lookup_insert_eq.
      * apply write_failures_None in Hw.
        rewrite (load_json_file_absent _ _ _ _ Hf Hw). intros [= <- <-].
        apply load_json_file_present. cbn [written files].
        apply lookup_insert_eq.
  - intros Hw Hf. exists (truncated ROOT_DIR path fs). split.
    + by rewrite (load_json_file_absent_unwritable _ _ _ _ _ Hf Hw).
    + rewrite (load_json_file_garbled_unwritable _ _ _ (truncated _ _ fs)
                 AtDump).
      * rewrite bool_decide_eq_false_2 by done. f_equal.
        cbn [after_failed_write]. unfold truncated. cbn [files write_failures].
        by rewrite insert_insert_eq.
      * cbn. apply lookup_insert_eq.
      * done.
Qed.

(** X19. Without a default, loading a path that holds no file raises
    [FileNotFoundError], loading text that does not decode raises
    [JSONDecodeError], and in both cases the disk is left untouched. *)
Theorem load_json_file_without_default (path : string) (fs : @disk D) :
  (files fs !! get_absolute_path ROOT_DIR path = None ->
   load_json_file ROOT_DIR path None fs = (Raise FileNotFoundError, fs))
  /\ (files fs !! get_absolute_path ROOT_DIR path = Some Garbled ->
      load_json_file ROOT_DIR path None fs = (Raise JSONDecodeError, fs)).
Proof.
  split; intros Hf;
    unfold load_json_file, try_except, bind, path_exists, read_json;
    rewrite Hf.
  - by rewrite bool_decide_eq_false_2 by (by intros [? ?]).
  - rewrite bool_decide_eq_true_2 by eauto. by rewrite Hf.
Qed.

End StoreRoundTrips.

Section StoreRoundTripWitnesses.
Import SaveLoad.

(** An instance: saving the progress of digit span on [full_disk]
    destroys the stored document. *)
Lemma save_then_load_witness :
  save_json_file "/app" (get_game_progress_path "digit_span")
    (DocProgress almost_up) full_disk
  = (Ok false,
     truncated "/app" (get_game_progress_path "digit_span") full_disk)
  /\ (forall q,
        q <> get_absolute_path "/app" (get_game_progress_path "digit_span") ->
        files (truncated "/app" (get_game_progress_path "digit_span")
                 full_disk) !! q
        = files full_disk !! q)
  /\ exists stage : write_failure,
       write_failures full_disk
         !! get_absolute_path "/app" (get_game_progress_path "digit_span")
       = Some stage
       /\ files (truncated "/app" (get_game_progress_path "digit_span")
                   full_disk)
            !! get_absolute_path "/app" (get_game_progress_path "digit_span")
          = left_behind stage
              (files full_disk
                 !! get_absolute_path "/app"
                      (get_game_progress_path "digit_span"))
              (DocProgress almost_up)
       /\ (stage = AtDump ->
           load_json_file "/app" (get_game_progress_path "digit_span") None
             (truncated "/app" (get_game_progress_path "digit_span")
                full_disk)
           = (Raise JSONDecodeError,
              truncated "/app" (get_game_progress_path "digit_span")
                full_disk)).
Proof.
  assert (H : save_json_file "/app" (get_game_progress_path "digit_span")
                (DocProgress almost_up) full_disk
              = (Ok false,
                 truncated "/app" (get_game_progress_path "digit_span")
                   full_disk)).
  { rewrite save_json_file_bool.
    assert (Hw : write_failures full_disk
                   !! get_absolute_path "/app"
                        (get_game_progress_path "digit_span")
                 = Some AtDump) by (vm_compute; reflexivity).
    by rewrite Hw. }
  split; [exact H|].
  apply (save_then_load "/app" (get_game_progress_path "digit_span")
           (DocProgress almost_up) full_disk _ false H).
Defined.

End StoreRoundTripWitnesses.

(** ** More on progress and history *)

Section HistoryFacts.
Import SaveLoad GameSession.
Variable ROOT_DIR : string.

(** X20. The history is append-only: on a writable history file holding
    [h] (a missing file counts as the empty history) adding an entry
    answers [True] and leaves the file holding [h] followed by the new
    entry, every earlier entry kept in place and every other file
    untouched; on a file that holds a progress dictionary it raises
    [AttributeError] and changes nothing. *)
Theorem add_history_entry_appends (game : string) (entry : HistoryEntry)
    (fs : disk) :
  let history_file :=
    get_absolute_path ROOT_DIR (get_game_history_path game) in
  (forall h,
     files fs !! history_file = Some (Json (DocHistory h))
     \/ (files fs !! history_file = None /\ h = []) ->
     history_file ∉ unwritable fs ->
     exists fs',
       add_history_entry ROOT_DIR game entry fs = (Ok true, fs')
       /\ files fs' !! history_file = Some (Json (DocHistory (h ++ [entry])))
       /\ forall q, q <> history_file -> files fs' !! q = files fs !! q)
  /\ (forall p,
        files fs !! history_file = Some (Json (DocProgress p)) ->
        add_history_entry ROOT_DIR game entry fs = (Raise AttributeError, fs)).
Proof.
  intros history_file. split.
  - intros h Hh Hw. unfold add_history_entry, load_game_history.
    destruct (load_stored ROOT_DIR (get_game_history_path game)
                (DocHistory []) (DocHistory h) fs)
      as (fs1 & Hload & Hf1 & Hu1 & Ho1).
    { destruct Hh as [Hh|[Hh ->]]; [by left|by right]. }
    { done. }
    rewrite (bind_Ok _ _ _ _ _ Hload).
    unfold save_game_history.
    rewrite save_json_file_True by (by rewrite Hu1).
    eexists. split; [reflexivity|]. cbn [written files]. split.
    + apply lookup_insert_eq.
    + intros q Hq. rewrite lookup_insert_ne by done. by apply Ho1.
  - intros p Hp. unfold add_history_entry, load_game_history.
    rewrite (bind_Ok _ _ _ _ _
               (load_json_file_present ROOT_DIR _ _ _ _ Hp)).
    done.
Qed.



End HistoryFacts.

Section HistoryWitnesses.
Import SaveLoad GameSession.


End HistoryWitnesses.

(** ** Runs of rounds *)

Section Runs.
Import SaveLoad GameSession.

Local Ltac bool_hyps :=
  repeat match goal with
    | H : (_ && _) = true |- _ => apply andb_true_iff in H as [? ?]
    | H : (_ && _) = false |- _ => apply andb_false_iff in H
    | H : (_ <? _) = true |- _ => apply Z.ltb_lt in H
    | H : (_ <? _) = false |- _ => apply Z.ltb_ge in H
    | H : (_ <=? _) = true |- _ => apply Z.leb_le in H
    | H : (_ <=? _) = false |- _ => apply Z.leb_gt in H
    | H : (_ =? _) = true |- _ => apply Z.eqb_eq in H
    | H : (_ =? _) = false |- _ => apply Z.eqb_neq in H
    end.

(** One round, read on the level and the upgrade counter only. *)
Lemma apply_result_level (success : bool) (response_time : Q)
    (p : ProgressRecord) :
  total_challenges p <> -1 ->
  exists p',
    apply_result success response_time p = Ok (level p, p')
    /\ total_challenges p' = total_challenges p + 1
    /\ let u := if success then upgrade p + 1 else upgrade p - 1 in
       if decide (10 <= u /\ level p < 10)
       then level p' = level p + 1 /\ upgrade p' = 0
       else if decide (u <= -5 /\ 1 < level p)
       then level p' = level p - 1 /\ upgrade p' = 0
       else level p' = level p /\ upgrade p' = u.
Proof.
  intros Htot.
  destruct (apply_result_transition success response_time p Htot)
    as (p' & Hres & [Ht _ _ _ _ Hlv _]).
  exists p'. split; [done|]. split; [done|].
  cbv zeta in Hlv |- *. repeat case_decide; tauto.
Qed.

(** X22. Ten net successes go up one level: from a counter [u] with
    [-5 < u < 10] below level 10, a run of successes leaves the level
    unchanged and the counter at [u + n] while [u + n < 10], and the
    success that brings the counter to 10 raises the level by one and
    resets the counter to 0.  So from a fresh counter it takes exactly
    ten successes in a row. *)
Theorem successes_level_up (results : list (bool * Q))
    (p : ProgressRecord) :
  Forall (fun r => r.1 = true) results ->
  0 <= total_challenges p ->
  level p < 10 ->
  -5 < upgrade p < 10 ->
  upgrade p + Z.of_nat (length results) <= 10 ->
  exists p',
    play_rounds results p = Ok p'
    /\ if decide (upgrade p + Z.of_nat (length results) = 10)
       then level p' = level p + 1 /\ upgrade p' = 0
       else level p' = level p
            /\ upgrade p' = upgrade p + Z.of_nat (length results).
Proof.
  intros Hall. revert p.
  induction Hall as [|[s rt] rest Hs Hall IH]; intros p Ht Hl Hu Hn.
  - exists p. split; [done|]. cbn [length] in *.
    case_decide; [lia|]. lia.
  - cbn in Hs. subst s. cbn [play_rounds].
    rewrite length_cons, Nat2Z.inj_succ in Hn |- *.
    destruct (apply_result_level true rt p) as (p1 & -> & Ht1 & Hlv);
      [lia|].
    cbv zeta in Hlv.
    destruct (decide (10 <= upgrade p + 1 /\ level p < 10)) as [Hup|Hup].
    + (* the counter reaches 10: this is the last round of the run *)
      destruct Hlv as [Hl1 Hu1].
      assert (rest = []) as ->.
      { destruct rest; [done|]. rewrite length_cons, Nat2Z.inj_succ in Hn.
        lia. }
      exists p1. split; [done|]. cbn [length]. case_decide; [done|lia].
    + destruct (decide (upgrade p + 1 <= -5 /\ 1 < level p)); [lia|].
      destruct Hlv as [Hl1 Hu1].
      destruct (IH p1) as (p' & Hrun & Hres); [lia..|].
      exists p'. split; [done|].
      rewrite Hl1, Hu1 in Hres.
      destruct (decide (upgrade p + 1 + Z.of_nat (length rest) = 10));
        case_decide; try lia; done.
Qed.

(** X23. Five net failures go down one level: from a counter [u] with
    [-5 < u < 10] above level 1, a run of failures leaves the level
    unchanged and the counter at [u - n] while [u - n > -5], and the
    failure that brings the counter to -5 lowers the level by one and
    resets the counter to 0. *)
Theorem failures_level_down (results : list (bool * Q))
    (p : ProgressRecord) :
  Forall (fun r => r.1 = false) results ->
  0 <= total_challenges p ->
  1 < level p ->
  -5 < upgrade p < 10 ->
  -5 <= upgrade p - Z.of_nat (length results) ->
  exists p',
    play_rounds results p = Ok p'
    /\ if decide (upgrade p - Z.of_nat (length results) = -5)
       then level p' = level p - 1 /\ upgrade p' = 0
       else level p' = level p
            /\ upgrade p' = upgrade p - Z.of_nat (length results).
Proof.
  intros Hall. revert p.
  induction Hall as [|[s rt] rest Hs Hall IH]; intros p Ht Hl Hu Hn.
  - exists p. split; [done|]. cbn [length] in *.
    case_decide; [lia|]. lia.
  - cbn in Hs. subst s. cbn [play_rounds].
    rewrite length_cons, Nat2Z.inj_succ in Hn |- *.
    destruct (apply_result_level false rt p) as (p1 & -> & Ht1 & Hlv);
      [lia|].
    cbv zeta in Hlv.
    destruct (decide (10 <= upgrade p - 1 /\ level p < 10)); [lia|].
    destruct (decide (upgrade p - 1 <= -5 /\ 1 < level p)) as [Hdn|Hdn].
    + destruct Hlv as [Hl1 Hu1].
      assert (rest = []) as ->.
      { destruct rest; [done|]. rewrite length_cons, Nat2Z.inj_succ in Hn.
        lia. }
      exists p1. split; [done|]. cbn [length]. case_decide; [done|lia].
    + destruct Hlv as [Hl1 Hu1].
      destruct (IH p1) as (p' & Hrun & Hres); [lia..|].
      exists p'. split; [done|].
      rewrite Hl1, Hu1 in Hres.
      destruct (decide (upgrade p - 1 - Z.of_nat (length rest) = -5));
        case_decide; try lia; done.
Qed.

(** X24. The ends of the scale pin the level but not the counter: at
    level 10 a run of successes keeps level 10 and adds one to the
    upgrade counter each time, without bound; at level 1 a run of
    failures keeps level 1 and subtracts one each time.  The counter is
    not reset there, so the surplus has to be worked off before the level
    can move again. *)
Theorem level_pinned_counter_runs (results : list (bool * Q))
    (p : ProgressRecord) :
  0 <= total_challenges p ->
  (level p = 10 -> -5 < upgrade p ->
   Forall (fun r => r.1 = true) results ->
   exists p',
     play_rounds results p = Ok p'
     /\ level p' = 10
     /\ upgrade p' = upgrade p + Z.of_nat (length results))
  /\ (level p = 1 -> upgrade p < 10 ->
      Forall (fun r => r.1 = false) results ->
      exists p',
        play_rounds results p = Ok p'
        /\ level p' = 1
        /\ upgrade p' = upgrade p - Z.of_nat (length results)).
Proof.
  intros Ht. split.
  - intros Hl Hu Hall. revert p Ht Hl Hu.
    induction Hall as [|[s rt] rest Hs Hall IH]; intros p Ht Hl Hu.
    + exists p. cbn. split; [done|]. split; [done|lia].
    + cbn in Hs. subst s. cbn [play_rounds length].
      destruct (apply_result_level true rt p) as (p1 & -> & Ht1 & Hlv);
        [lia|].
      cbv zeta in Hlv. repeat case_decide; try lia.
      destruct Hlv as [Hl1 Hu1].
      destruct (IH p1) as (p' & Hrun & Hl' & Hu'); [lia..|].
      exists p'. split; [done|]. split; [done|]. lia.
  - intros Hl Hu Hall. revert p Ht Hl Hu.
    induction Hall as [|[s rt] rest Hs Hall IH]; intros p Ht Hl Hu.
    + exists p. cbn. split; [done|]. split; [done|lia].
    + cbn in Hs. subst s. cbn [play_rounds length].
      destruct (apply_result_level false rt p) as (p1 & -> & Ht1 & Hlv);
        [lia|].
      cbv zeta in Hlv. repeat case_decide; try lia.
      destruct Hlv as [Hl1 Hu1].
      destruct (IH p1) as (p' & Hrun & Hl' & Hu'); [lia..|].
      exists p'. split; [done|]. split; [done|]. lia.
Qed.

(** With a stored total of -1 the running mean divides by zero. *)
Lemma apply_result_minus_one (success : bool) (response_time : Q)
    (p : ProgressRecord) :
  total_challenges p = -1 ->
  apply_result success response_time p = Raise ZeroDivisionError.
Proof.
  intros Hm. unfold apply_result, running_average.
  destruct success;
    cbn -[Z.add Z.sub Z.ltb Z.leb Z.eqb Qmult Qplus Qdiv];
    repeat (match goal with
            | |- context [if ?b then _ else _] =>
                lazymatch b with
                | context [if _ then _ else _] => fail
                | _ => destruct b eqn:?
                end
            end;
            cbn -[Z.add Z.sub Z.ltb Z.leb Z.eqb Qmult Qplus Qdiv]);
    bool_hyps; try lia; try done.
Qed.

(** X25. The only failure of the in-memory update: it raises
    [ZeroDivisionError] exactly when the stored total is -1 (the total
    becomes 0 and divides the running mean), and returns in every other
    case. *)
Theorem apply_result_raises_iff (success : bool) (response_time : Q)
    (p : ProgressRecord) :
  (total_challenges p = -1
   <-> apply_result success response_time p = Raise ZeroDivisionError)
  /\ (total_challenges p <> -1
      <-> exists p', apply_result success response_time p
                     = Ok (level p, p')).
Proof.
  pose proof (apply_result_minus_one success response_time p) as Hbad.
  assert (Hgood : total_challenges p <> -1 ->
                  exists p', apply_result success response_time p
                             = Ok (level p, p')).
  { intros Hn.
    destruct (apply_result_transition success response_time p Hn)
      as (p' & Hres & _). by exists p'. }
  split; split.
  - exact Hbad.
  - intros Hr. destruct (decide (total_challenges p = -1)) as [|Hn];
      [done|]. destruct (Hgood Hn) as (p' & Hres). congruence.
  - exact Hgood.
  - intros [p' Hres] Hm. rewrite (Hbad Hm) in Hres. done.
Qed.

(** X26. Records only grow, and the level moves one step at a time: after
    a round the longest streak is at least what it was and at least the
    current streak, the highest level reached is at least what it was,
    the level differs from the old one by at most one, and whenever it
    differs the upgrade counter restarts at 0. *)
Theorem round_keeps_records (success : bool) (response_time : Q)
    (p p' : ProgressRecord) (level_before : Z) :
  apply_result success response_time p = Ok (level_before, p') ->
  level_before = level p
  /\ longest_streak p <= longest_streak p'
  /\ current_streak p' <= longest_streak p'
  /\ highest_level_reached p <= highest_level_reached p'
  /\ (level p <= highest_level_reached p ->
      level p' <= highest_level_reached p')
  /\ level p - 1 <= level p' <= level p + 1
  /\ (level p' <> level p -> upgrade p' = 0).
Proof.
  intros Hres.
  destruct (decide (total_challenges p = -1)) as [Hm|Hn].
  { rewrite (apply_result_minus_one success response_time p Hm) in Hres.
    done. }
  destruct (apply_result_transition success response_time p Hn)
    as (q & Hq & [Ht _ _ Hl _ Hlv _]).
  rewrite Hq in Hres. injection Hres as <- <-.
  cbv zeta in Hlv. split; [done|]. rewrite Hl.
  repeat case_decide; destruct_and?; repeat split; lia.
Qed.

End Runs.

Section RunWitnesses.
Import SaveLoad GameSession.

Lemma successes_level_up_witness :
  Forall (fun r : bool * Q => r.1 = true) three_successes
  /\ 0 <= total_challenges almost_up
  /\ level almost_up < 10
  /\ -5 < upgrade almost_up < 10
  /\ upgrade almost_up + Z.of_nat (length three_successes) <= 10
  /\ exists p',
       play_rounds three_successes almost_up = Ok p'
       /\ if decide (upgrade almost_up
                     + Z.of_nat (length three_successes) = 10)
          then level p' = level almost_up + 1 /\ upgrade p' = 0
          else level p' = level almost_up
               /\ upgrade p' = upgrade almost_up
                               + Z.of_nat (length three_successes).
Proof.
  assert (H1 : Forall (fun r : bool * Q => r.1 = true) three_successes)
    by (repeat constructor).
  assert (H2 : 0 <= total_challenges almost_up) by (vm_compute; discriminate).
  assert (H3 : level almost_up < 10) by (vm_compute; reflexivity).
  assert (H4 : -5 < upgrade almost_up < 10)
    by (split; vm_compute; reflexivity).
  assert (H5 : upgrade almost_up + Z.of_nat (length three_successes) <= 10)
    by (vm_compute; discriminate).
  split; [exact H1|]. split; [exact H2|]. split; [exact H3|].
  split; [exact H4|]. split; [exact H5|].
  apply (successes_level_up three_successes almost_up H1 H2 H3 H4 H5).
Defined.

Lemma failures_level_down_witness :
  Forall (fun r : bool * Q => r.1 = false) twelve_failures
  /\ 0 <= total_challenges almost_up
  /\ 1 < level almost_up
  /\ -5 < upgrade almost_up < 10
  /\ -5 <= upgrade almost_up - Z.of_nat (length twelve_failures)
  /\ exists p',
       play_rounds twelve_failures almost_up = Ok p'
       /\ if decide (upgrade almost_up
                     - Z.of_nat (length twelve_failures) = -5)
          then level p' = level almost_up - 1 /\ upgrade p' = 0
          else level p' = level almost_up
               /\ upgrade p' = upgrade almost_up
                               - Z.of_nat (length twelve_failures).
Proof.
  assert (H1 : Forall (fun r : bool * Q => r.1 = false) twelve_failures)
    by (repeat constructor).
  assert (H2 : 0 <= total_challenges almost_up) by (vm_compute; discriminate).
  assert (H3 : 1 < level almost_up) by (vm_compute; reflexivity).
  assert (H4 : -5 < upgrade almost_up < 10)
    by (split; vm_compute; reflexivity).
  assert (H5 : -5 <= upgrade almost_up - Z.of_nat (length twelve_failures))
    by (vm_compute; discriminate).
  split; [exact H1|]. split; [exact H2|]. split; [exact H3|].
  split; [exact H4|]. split; [exact H5|].
  apply (failures_level_down twelve_failures almost_up H1 H2 H3 H4 H5).
Defined.

Lemma level_pinned_counter_runs_witness :
  0 <= total_challenges top_level
  /\ level top_level = 10
  /\ -5 < upgrade top_level
  /\ Forall (fun r : bool * Q => r.1 = true) three_successes
  /\ exists p',
       play_rounds three_successes top_level = Ok p'
       /\ level p' = 10
       /\ upgrade p' = upgrade top_level
                       + Z.of_nat (length three_successes).
Proof.
  assert (H1 : 0 <= total_challenges top_level) by (vm_compute; discriminate).
  assert (H2 : level top_level = 10) by reflexivity.
  assert (H3 : -5 < upgrade top_level) by (vm_compute; reflexivity).
  assert (H4 : Forall (fun r : bool * Q => r.1 = true) three_successes)
    by (repeat constructor).
  split; [exact H1|]. split; [exact H2|]. split; [exact H3|].
  split; [exact H4|].
  apply (proj1 (level_pinned_counter_runs three_successes top_level H1)
           H2 H3 H4).
Defined.

Lemma round_keeps_records_witness :
  apply_result true (5 # 2) almost_up = Ok (5, almost_up_after)
  /\ 5 = level almost_up
  /\ longest_streak almost_up <= longest_streak almost_up_after
  /\ current_streak almost_up_after <= longest_streak almost_up_after
  /\ highest_level_reached almost_up
     <= highest_level_reached almost_up_after
  /\ (level almost_up <= highest_level_reached almost_up ->
      level almost_up_after <= highest_level_reached almost_up_after)
  /\ level almost_up - 1 <= level almost_up_after <= level almost_up + 1
  /\ (level almost_up_after <> level almost_up ->
      upgrade almost_up_after = 0).
Proof.
  assert (H : apply_result true (5 # 2) almost_up
              = Ok (5, almost_up_after)) by (vm_compute; reflexivity).
  split; [exact H|].
  apply (round_keeps_records true (5 # 2) almost_up almost_up_after 5 H).
Defined.

End RunWitnesses.

Section StimulusWitness.
Import SpatialPattern.
#[local] Existing Instance cell_le_total.
#[local] Existing Instance cell_le_trans.
#[local] Existing Instance cell_le_antisymm.

Lemma generate_pattern_stimulus_witness :
  generate_pattern level_10_spatial_config mixed_tape
  = (Ok (stimulus_pattern, stimulus_highlights), stimulus_tape)
  /\ Sorted cell_le stimulus_pattern
  /\ NoDup stimulus_pattern
  /\ Z.of_nat (length stimulus_pattern)
     = pattern_size level_10_spatial_config
  /\ Forall (fun p => 0 <= p.1 < grid_size level_10_spatial_config
                      /\ 0 <= p.2 < grid_size level_10_spatial_config)
            stimulus_pattern
  /\ dom stimulus_highlights = list_to_set stimulus_pattern
  /\ (use_multiple_highlights level_10_spatial_config = false ->
      forall p h, stimulus_highlights !! p = Some h -> h = SolidFill)
  /\ exists styles : list highlight,
       length styles = 3%nat /\ styles ⊆+ HIGHLIGHT_PATTERNS
       /\ (use_multiple_highlights level_10_spatial_config = true ->
           forall p h, stimulus_highlights !! p = Some h -> h ∈ styles).
Proof.
  assert (H : generate_pattern level_10_spatial_config mixed_tape
              = (Ok (stimulus_pattern, stimulus_highlights), stimulus_tape))
    by (vm_compute; reflexivity).
  split; [exact H|].
  apply (generate_pattern_stimulus level_10_spatial_config mixed_tape
           stimulus_tape stimulus_pattern stimulus_highlights H).
Defined.

End StimulusWitness.

(** ** More on the session queue *)

Section QueueFacts.
Import GameSession MainMenu Wrapper.

(** X27. A random session is [challenges_per_session] independent picks
    from the chosen category ("strategy1", "strategy2", anything else
    meaning all games): the queue has that length (none when the setting
    is not positive), holds only games of the category, and one draw is
    consumed per pick.  An empty category raises [IndexError] as soon as
    one pick is asked for, and a choice type other than "game" and
    "random" gives an empty queue. *)
Theorem get_game_for_session_random (settings : UserSettings)
    (choice_value : string)
    (all_games strategy_1_games strategy_2_games : list string)
    (t : tape) :
  let pool :=
    if bool_decide (choice_value = "strategy1") then strategy_1_games
    else if bool_decide (choice_value = "strategy2") then strategy_2_games
    else all_games in
  let n := Z.to_nat (challenges_per_session settings) in
  (pool <> [] ->
   exists queue,
     get_game_for_session settings "random" choice_value
       all_games strategy_1_games strategy_2_games t
     = (Ok queue, Nat.iter n advance t)
     /\ length queue = n /\ Forall (fun g => g ∈ pool) queue)
  /\ (pool = [] -> 0 < challenges_per_session settings ->
      get_game_for_session settings "random" choice_value
        all_games strategy_1_games strategy_2_games t
      = (Raise IndexError, t))
  /\ (forall choice_type,
        choice_type <> "game" -> choice_type <> "random" ->
        get_game_for_session settings choice_type choice_value
          all_games strategy_1_games strategy_2_games t = (Ok [], t)).
Proof.
  intros pool n.
  assert (Hrun : get_game_for_session settings "random" choice_value
                   all_games strategy_1_games strategy_2_games
                 = repeatM n (choice pool)).
  { unfold get_game_for_session, pool, n. cbn [bool_decide].
    rewrite bool_decide_eq_false_2 by done.
    rewrite bool_decide_eq_true_2 by done.
    repeat case_bool_decide; done. }
  split; [|split].
  - intros Hne. rewrite Hrun. by apply repeatM_choice.
  - intros He Hpos. rewrite Hrun, He.
    assert (Hn : exists m, n = S m).
    { exists (Nat.pred n). unfold n. lia. }
    destruct Hn as [m ->]. done.
  - intros choice_type H1 H2. unfold get_game_for_session.
    by rewrite !bool_decide_eq_false_2.
Qed.

End QueueFacts.


(** ** The menu screens *)

Section MenuFacts.
Import MenuScreens.

Lemma menu_loop_moves (options : list (string * option string))
    (keys : list Z) :
  forall (current_option : Z) (rest : list event),
    Forall (fun key => is_up key || is_down key = true) keys ->
    0 <= current_option < Z.of_nat (length options) ->
    menu_loop options current_option false
      ((Key <$> keys) ++ Key 10 :: rest)
    = Some (option_at options
              ((current_option + net_movement keys)
               mod Z.of_nat (length options)), false).
Proof.
  induction keys as [|key keys IH]; intros c rest Hall Hc.
  - cbn [fmap list_fmap app net_movement foldr menu_loop].
    change (10 =? Curses.KEY_UP) with false.
    change (10 =? ord "k") with false.
    change (10 =? Curses.KEY_DOWN) with false.
    change (10 =? ord "j") with false.
    change (10 =? 10) with true. cbn [orb].
    rewrite Z.add_0_r, Z.mod_small by done. done.
  - apply Forall_cons in Hall as [Hk Hall].
    cbn [fmap list_fmap app menu_loop net_movement foldr].
    fold (net_movement keys). fold (is_up key). fold (is_down key).
    destruct (is_up key) eqn:Hup.
    + rewrite IH; [|done|].
      * f_equal. f_equal.
        destruct (Z.ltb_spec (c - 1) 0).
        -- replace (Z.of_nat (length options) - 1 + net_movement keys)
             with (c + (-1 + net_movement keys)
                   + 1 * Z.of_nat (length options)) by lia.
           by rewrite Z.mod_add by lia.
        -- by replace (c - 1 + net_movement keys)
             with (c + (-1 + net_movement keys)) by lia.
      * destruct (Z.ltb_spec (c - 1) 0); lia.
    + cbn [orb] in Hk. rewrite Hk.
      rewrite IH; [|done|].
      * f_equal. f_equal.
        destruct (Z.leb_spec (Z.of_nat (length options)) (c + 1)).
        -- replace (c + (1 + net_movement keys))
             with (0 + net_movement keys
                   + 1 * Z.of_nat (length options)) by lia.
           by rewrite Z.mod_add by lia.
        -- by replace (c + 1 + net_movement keys)
             with (c + (1 + net_movement keys)) by lia.
      * destruct (Z.leb_spec (Z.of_nat (length options)) (c + 1)); lia.
Qed.

(** X29. Navigation in the main menu wraps around and never leaves the
    list: after any sequence of up and down keys (arrows, or K and J)
    Enter returns the entry whose index is the net movement modulo the
    number of entries, counted from the first entry; the exit flag is not
    set. *)
Theorem display_menu_navigation (all_games : list string)
    (keys : list Z) (rest : list event) :
  Forall (fun key => is_up key || is_down key = true) keys ->
  exists entry,
    menu_options all_games
      !! Z.to_nat (net_movement keys
                   mod Z.of_nat (length (menu_options all_games)))
    = Some entry
    /\ display_menu all_games false ((Key <$> keys) ++ Key 10 :: rest)
       = Some (Ok entry, false).
Proof.
  intros Hall.
  assert (Hlen : 0 < Z.of_nat (length (menu_options all_games))).
  { unfold menu_options. rewrite length_app. simpl. lia. }
  pose proof (Z.mod_pos_bound (net_movement keys) _ Hlen) as Hb.
  destruct (lookup_lt_is_Some_2 (menu_options all_games)
              (Z.to_nat (net_movement keys
                         mod Z.of_nat (length (menu_options all_games)))))
    as [entry He]; [lia|].
  exists entry. split; [done|].
  unfold display_menu. rewrite menu_loop_moves by (done || lia).
  unfold option_at. rewrite Z.add_0_l. by rewrite He.
Qed.

End MenuFacts.

Section MenuWitnesses.
Import MenuScreens.

Lemma display_menu_navigation_witness :
  Forall (fun key => is_up key || is_down key = true)
    [Curses.KEY_UP; ord "k"; Curses.KEY_DOWN]
  /\ exists entry,
       menu_options Wrapper.ALL_GAMES
         !! Z.to_nat (net_movement [Curses.KEY_UP; ord "k"; Curses.KEY_DOWN]
                      mod Z.of_nat
                            (length (menu_options Wrapper.ALL_GAMES)))
       = Some entry
       /\ display_menu Wrapper.ALL_GAMES false
            ((Key <$> [Curses.KEY_UP; ord "k"; Curses.KEY_DOWN])
             ++ Key 10 :: [])
          = Some (Ok entry, false).
Proof.
  assert (H : Forall (fun key => is_up key || is_down key = true)
                [Curses.KEY_UP; ord "k"; Curses.KEY_DOWN])
    by (repeat constructor).
  split; [exact H|].
  apply (display_menu_navigation Wrapper.ALL_GAMES
           [Curses.KEY_UP; ord "k"; Curses.KEY_DOWN] [] H).
Defined.

End MenuWitnesses.

Section EditFacts.
Import MenuScreens.

Lemma digits_value_bounds (s : string) :
  forall acc : Z,
    all_digits s = true ->
    exists v,
      digits_value acc s = Ok v
      /\ acc * 10 ^ Z.of_nat (String.length s) <= v
         < (acc + 1) * 10 ^ Z.of_nat (String.length s).
Proof.
  induction s as [|c s IH]; intros acc Hs.
  - exists acc. split; [done|]. cbn. lia.
  - cbn [all_digits] in Hs. cbn [digits_value String.length].
    destruct (DigitSpan.int_of_char c) as [d|] eqn:Hc; [|done].
    assert (Hd : 0 <= d <= 9).
    { unfold DigitSpan.int_of_char in Hc.
      destruct (_ && _) eqn:Hr; [|done].
      injection Hc as <-. apply andb_true_iff in Hr as [H1 H2].
      apply Z.leb_le in H1, H2. lia. }
    destruct (IH (10 * acc + d) Hs) as (v & Hv & Hb).
    exists v. split; [done|].
    rewrite Nat2Z.inj_succ, Z.pow_succ_r by lia.
    pose proof (Z.pow_pos_nonneg 10 (Z.of_nat (String.length s))).
    nia.
Qed.

Lemma py_int_digits (s : string) :
  all_digits s = true -> s <> "" ->
  exists v,
    py_int s = Ok v /\ 0 <= v < 10 ^ Z.of_nat (String.length s).
Proof.
  intros Hs Hne.
  destruct (digits_value_bounds s 0 Hs) as (v & Hv & Hb).
  exists v. split; [|lia].
  destruct s as [|c s]; [done|]. unfold py_int.
  cbn [all_digits] in Hs.
  destruct (DigitSpan.int_of_char c) eqn:Hc; [|done].
  destruct (decide (c = "-"%char)) as [->|Hm]; [by vm_compute in Hc|].
  destruct (decide (c = "+"%char)) as [->|Hp]; [by vm_compute in Hc|].
  destruct c as [[] [] [] [] [] [] [] []]; done.
Qed.

Lemma all_digits_drop_last (s : string) :
  all_digits s = true ->
  all_digits (DigitSpan.drop_last s) = true
  /\ (String.length (DigitSpan.drop_last s) <= String.length s)%nat.
Proof.
  induction s as [|c s IH]; [done|].
  intros Hs. cbn [all_digits] in Hs.
  destruct (DigitSpan.int_of_char c) eqn:Hc; [|done].
  destruct s as [|c' s]; [cbn; split; [done|lia]|].
  change (DigitSpan.drop_last (String c (String c' s)))
    with (String c (DigitSpan.drop_last (String c' s))).
  cbn [all_digits String.length]. rewrite Hc.
  destruct (IH Hs) as [H1 H2]. split; [done|]. cbn [String.length] in H2. lia.
Qed.

Lemma all_digits_snoc (s : string) (key : Z) :
  all_digits s = true ->
  ord "0" <= key <= ord "9" ->
  all_digits (s +:+ String (ascii_of_nat (Z.to_nat key)) "") = true
  /\ String.length (s +:+ String (ascii_of_nat (Z.to_nat key)) "")
     = S (String.length s).
Proof.
  intros Hs Hk.
  assert (Hc : exists d,
             DigitSpan.int_of_char (ascii_of_nat (Z.to_nat key)) = Some d).
  { unfold DigitSpan.int_of_char, ord.
    rewrite nat_ascii_embedding
      by (change (ord "9") with 57 in Hk; lia).
    rewrite Z2Nat.id by (change (ord "0") with 48 in Hk; lia).
    change (ord "0") with 48 in Hk. change (ord "9") with 57 in Hk.
    destruct (Z.leb_spec 48 key); [|lia].
    destruct (Z.leb_spec key 57); [|lia]. eauto. }
  destruct Hc as [d Hc].
  induction s as [|c s IH].
  - change ("" +:+ ?x) with x. cbn [all_digits String.length].
    by rewrite Hc.
  - change (String c s +:+ ?x) with (String c (s +:+ x)).
    cbn [all_digits String.length] in Hs |- *.
    destruct (DigitSpan.int_of_char c); [|done].
    destruct (IH Hs) as [H1 H2]. split; [done|]. by rewrite H2.
Qed.

(** The field opens on at most three digits when the setting is within
    1..999. *)
Lemma pretty_three_digits (current : Z) :
  1 <= current <= 999 ->
  all_digits (pretty current) = true
  /\ (String.length (pretty current) <= 3)%nat.
Proof.
  intros Hc.
  assert (Hall : forallb (fun z => all_digits (pretty z)
                                   && (String.length (pretty z) <=? 3)%nat)
                    (seqZ 1 999) = true) by (vm_compute; reflexivity).
  rewrite forallb_forall in Hall.
  specialize (Hall current). rewrite <- list_elem_of_In in Hall.
  rewrite elem_of_seqZ in Hall.
  destruct (andb_prop _ _ (Hall ltac:(lia))) as [H1 H2].
  split; [done|]. by apply Nat.leb_le.
Qed.

Lemma edit_loop_result (current : Z) (events : list event) :
  forall (input_str : string) (r : Edited),
    edit_loop current input_str events = Some r ->
    (saved r = false -> challenges_per_session r = current)
    /\ (saved r = true -> 0 < challenges_per_session r /\ exiting r = false)
    /\ (all_digits input_str = true ->
        (String.length input_str <= 3)%nat ->
        saved r = true -> challenges_per_session r <= 999).
Proof.
  induction events as [|ev events IH]; intros input_str r; [done|].
  destruct ev as [key|]; cbn [edit_loop].
  2: { intros [= <-]. cbn. repeat split; done. }
  destruct ((key =? Curses.KEY_ENTER) || (key =? 10) || (key =? 13)).
  { case_bool_decide as He; [apply IH|].
    destruct (py_int input_str) as [new_value|e] eqn:Hint; [|apply IH].
    destruct (Z.ltb_spec 0 new_value) as [Hpos|Hpos]; [|apply IH].
    intros [= <-]. cbn. split; [done|]. split; [done|].
    intros Hs Hlen _.
    destruct (py_int_digits input_str Hs He) as (v & Hv & Hb).
    rewrite Hint in Hv. injection Hv as ->.
    assert (10 ^ Z.of_nat (String.length input_str) <= 10 ^ 3)
      by (apply Z.pow_le_mono_r; lia).
    lia. }
  destruct (key =? 27); [intros [= <-]; cbn; repeat split; done|].
  destruct (key =? 3); [intros [= <-]; cbn; repeat split; done|].
  destruct ((key =? Curses.KEY_BACKSPACE) || (key =? 127) || (key =? 8)).
  { intros Hr. destruct (IH _ _ Hr) as (H1 & H2 & H3).
    split; [done|]. split; [done|]. intros Hs Hlen.
    apply H3; case_bool_decide; try done.
    - by apply all_digits_drop_last.
    - destruct (all_digits_drop_last input_str Hs). lia. }
  destruct ((ord "0" <=? key) && (key <=? ord "9")) eqn:Hdig.
  { intros Hr. destruct (IH _ _ Hr) as (H1 & H2 & H3).
    split; [done|]. split; [done|]. intros Hs Hlen.
    apply andb_true_iff in Hdig as [Hlo Hhi].
    apply Z.leb_le in Hlo, Hhi.
    destruct (all_digits_snoc input_str key Hs ltac:(lia)) as [Ha Hl].
    apply H3; destruct (Nat.ltb_spec (String.length input_str) 3);
      try done. lia. }
  apply IH.
Qed.

(** X30. Editing the number of challenges per session either leaves the
    setting as it was, without saving, or saves a positive number; the
    field takes at most three digits, so a setting within 1..999 stays
    within 1..999 whatever is typed. *)
Theorem edit_challenges_per_session_result (current : Z)
    (events : list event) (r : Edited) :
  edit_challenges_per_session current events = Some r ->
  (saved r = false -> challenges_per_session r = current)
  /\ (saved r = true -> 0 < challenges_per_session r /\ exiting r = false)
  /\ (1 <= current <= 999 -> 1 <= challenges_per_session r <= 999).
Proof.
  unfold edit_challenges_per_session. intros Hr.
  destruct (edit_loop_result current events _ _ Hr) as (H1 & H2 & H3).
  split; [done|]. split; [done|]. intros Hc.
  destruct (pretty_three_digits current Hc) as [Hs Hl].
  destruct (saved r) eqn:Hsv.
  - destruct (H2 eq_refl). specialize (H3 Hs Hl eq_refl). lia.
  - rewrite (H1 eq_refl). lia.
Qed.

End EditFacts.

Section EditWitnesses.
Import MenuScreens.

Lemma edit_challenges_per_session_result_witness :
  edit_challenges_per_session 10 retype_25
  = Some {| challenges_per_session := 25; saved := true; exiting := false |}
  /\ (true = false -> 25 = 10)
  /\ (true = true -> 0 < 25 /\ false = false)
  /\ (1 <= 10 <= 999 -> 1 <= 25 <= 999).
Proof.
  assert (H : edit_challenges_per_session 10 retype_25
              = Some {| challenges_per_session := 25; saved := true;
                        exiting := false |}) by (vm_compute; reflexivity).
  split; [exact H|].
  apply (edit_challenges_per_session_result 10 retype_25 _ H).
Defined.

End EditWitnesses.
